(* ===================================================================== *)
(*  clawdbot-onboarding-wizard: the artifact-generation pipeline          *)
(*  (src/lib/wizard.js, src/lib/setup.js) as a shallow embedding.         *)
(* ===================================================================== *)

From Stdlib Require Import String Ascii List Bool DecimalString.
From stdpp Require Import gmap strings list fin_maps.

Local Open Scope string_scope.
Local Open Scope list_scope.

(* --------------------------------------------------------------------- *)
(* JavaScript built-ins used by the sources                               *)
(* --------------------------------------------------------------------- *)

(** Strings are byte strings (UTF-8).  Every token the sources search for
    is ASCII, and an ASCII byte never occurs inside a multi-byte UTF-8
    sequence, so a substring test on bytes agrees with JavaScript's test
    on UTF-16 code units. *)

Definition nl : string := String (ascii_of_nat 10) EmptyString.

(** [String.prototype.includes]: [String_includes s search] is
    [s.includes(search)]. *)
Fixpoint String_includes (s search : string) : bool :=
  String.prefix search s ||
  match s with
  | EmptyString => false
  | String _ rest => String_includes rest search
  end.

(** [Array.prototype.includes] on an array of strings. *)
Definition Array_includes (xs : list string) (x : string) : bool :=
  existsb (String.eqb x) xs.

(** [Array.prototype.join]. *)
Definition join (sep : string) (xs : list string) : string :=
  String.concat sep xs.

(** Template literals turn [undefined] into the text "undefined". *)
Definition str (o : option string) : string :=
  match o with
  | Some s => s
  | None => "undefined"
  end.

(** [x || d] for a string-or-undefined [x]: the empty string is falsy. *)
Definition orString (o : option string) (d : string) : string :=
  match o with
  | Some EmptyString => d
  | Some s => s
  | None => d
  end.

(** [Object.keys] of an object kept as its list of entries, in the
    order [Object.entries] enumerates them. *)
Definition Object_keys {V : Type} (o : list (string * V)) : list string :=
  map fst o.

(** [name.replace(/_/g, ' ')]. *)
Fixpoint replaceUnderscores (s : string) : string :=
  match s with
  | EmptyString => EmptyString
  | String c rest =>
      String (if Ascii.eqb c "_" then " "%char else c) (replaceUnderscores rest)
  end.

Definition between (lo hi c : ascii) : bool :=
  Nat.leb (nat_of_ascii lo) (nat_of_ascii c) && Nat.leb (nat_of_ascii c) (nat_of_ascii hi).

(** The regular-expression class [\w]. *)
Definition isWordChar (c : ascii) : bool :=
  between "a" "z" c || between "A" "Z" c || between "0" "9" c || Ascii.eqb c "_".

(** [l.toUpperCase()] for a single character matched by [\w]. *)
Definition toUpperCase (c : ascii) : ascii :=
  if between "a" "z" c then ascii_of_nat (nat_of_ascii c - 32) else c.

(** [s.replace(/\b\w/g, l => l.toUpperCase())]: a word character is
    matched exactly when the character before it is not a word character
    (or it is the first one); [prevWord] records that. *)
Fixpoint capitalizeWords (prevWord : bool) (s : string) : string :=
  match s with
  | EmptyString => EmptyString
  | String c rest =>
      String (if isWordChar c && negb prevWord then toUpperCase c else c)
             (capitalizeWords (isWordChar c) rest)
  end.

(** [name.replace(/_/g, ' ').replace(/\b\w/g, l => l.toUpperCase())]. *)
Definition titleCase (name : string) : string :=
  capitalizeWords false (replaceUnderscores name).

(* --------------------------------------------------------------------- *)
(* Values handed to the serializers                                       *)
(* --------------------------------------------------------------------- *)

(** The object literals given to [yaml.stringify] and [JSON.stringify]. *)
#[warnings="-register-all"]
Inductive Json : Type :=
| JUndefined
| JBool (b : bool)
| JString (s : string)
| JArray (xs : list Json)
| JObject (fields : list (string * Json)).

Definition JStrings (xs : list string) : Json := JArray (map JString xs).

Definition JOpt {A : Type} (f : A -> Json) (o : option A) : Json :=
  match o with
  | Some a => f a
  | None => JUndefined
  end.

(* --------------------------------------------------------------------- *)
(* Data model                                                             *)
(* --------------------------------------------------------------------- *)

(** Objects are records, a property the code guards against ([?.], [||],
    [x ? ... : ...]) being an [option]; objects used as maps are lists of
    entries in the order [Object.entries] enumerates them.  [toJson] is
    the object as a serializer receives it, an absent property being
    [JUndefined]. *)

Module SkillSpec.
Record t : Type := mk {
  enabled : option bool;
  description : option string;
  passthrough : list (string * Json)
}.

Definition toJson (s : t) : Json :=
  JObject (("enabled", JOpt JBool (enabled s))
           :: ("description", JOpt JString (description s))
           :: passthrough s).
End SkillSpec.

(** [template.skills]: an array of skill names, or an object whose
    [entries] property maps skill names to their specs ("the template's
    config.skills.entries or config.skills array", as wizard.js puts
    it). *)
Inductive Skills : Type :=
| SkillsArray (names : list string)
| SkillsMapping (entries : list (string * SkillSpec.t)).

Definition skillsJson (s : Skills) : Json :=
  match s with
  | SkillsArray names => JStrings names
  | SkillsMapping entries =>
      JObject [("entries",
                JObject (map (fun e => (fst e, SkillSpec.toJson (snd e))) entries))]
  end.

(** An automation; the code reads [schedule] unguarded. *)
Module Automation.
Record t : Type := mk {
  schedule : string;
  description : option string;
  priority : option string;
  includes : option (list string)
}.

Definition toJson (a : t) : Json :=
  JObject [("schedule", JString (schedule a));
           ("description", JOpt JString (description a));
           ("priority", JOpt JString (priority a));
           ("includes", JOpt JStrings (includes a))].
End Automation.

Definition Automations : Type := list (string * Automation.t).

Definition automationsJson (autos : Automations) : Json :=
  JObject (map (fun e => (fst e, Automation.toJson (snd e))) autos).

Module Scenario.
Record t : Type := mk {
  name : string;
  description : string;
  time_saved : string
}.

Definition toJson (s : t) : Json :=
  JObject [("name", JString (name s));
           ("description", JString (description s));
           ("time_saved", JString (time_saved s))].
End Scenario.

Module ImpactMetrics.
Record t : Type := mk {
  daily_time_saved : string;
  weekly_time_saved : string;
  monthly_time_saved : string;
  primary_benefits : option (list string)
}.

Definition toJson (m : t) : Json :=
  JObject [("daily_time_saved", JString (daily_time_saved m));
           ("weekly_time_saved", JString (weekly_time_saved m));
           ("monthly_time_saved", JString (monthly_time_saved m));
           ("primary_benefits", JOpt JStrings (primary_benefits m))].
End ImpactMetrics.

Module Template.
Record t : Type := mk {
  name : string;
  description : string;
  automations : option Automations;
  skills : Skills;
  demo_scenarios : option (list Scenario.t);
  impact_metrics : option ImpactMetrics.t;
  workflows : option (list Json)
}.

Definition toJson (x : t) : Json :=
  JObject [("name", JString (name x));
           ("description", JString (description x));
           ("automations", JOpt automationsJson (automations x));
           ("skills", skillsJson (skills x));
           ("demo_scenarios",
            JOpt (fun l => JArray (map Scenario.toJson l)) (demo_scenarios x));
           ("impact_metrics", JOpt ImpactMetrics.toJson (impact_metrics x));
           ("workflows", JOpt JArray (workflows x))].
End Template.

Module Integration.
Record t : Type := mk {
  provider : option string;
  platforms : option (list string);
  features : list string
}.

Definition toJson (i : t) : Json :=
  JObject [("provider", JOpt JString (provider i));
           ("platforms", JOpt JStrings (platforms i));
           ("features", JStrings (features i))].
End Integration.

Definition Integrations : Type := list (string * Integration.t).

Module Answers.
Record t : Type := mk {
  userType : string;
  goals : option (list string);
  experience : option string;
  tools : list string
}.
End Answers.

Module User.
Record t : Type := mk {
  type : string;
  goals : option (list string);
  experience : option string
}.
End User.

Module Workspace.
Record t : Type := mk {
  name : string;
  description : string;
  automations : option Automations;
  skills : Skills
}.
End Workspace.

Module Config.
Record t : Type := mk {
  user : User.t;
  template : Template.t;
  integrations : Integrations;
  workspace : Workspace.t;
  created : string
}.
End Config.

(* --------------------------------------------------------------------- *)
(* Errors                                                                 *)
(* --------------------------------------------------------------------- *)

Inductive Error : Type :=
| TypeError (what : string)
| TemplateNotFound (role : string)
| FileSystemError (code : string) (path : list string).

Inductive Result (A : Type) : Type :=
| Ok (a : A)
| Throw (e : Error).
Arguments Ok {A} a.
Arguments Throw {A} e.

Definition isOk {A : Type} (r : Result A) : bool :=
  match r with
  | Ok _ => true
  | Throw _ => false
  end.

(* --------------------------------------------------------------------- *)
(* src/lib/wizard.js : configuration assembly                             *)
(* --------------------------------------------------------------------- *)

(** wizard.js holds two revisions of the wizard, one after the other.
    [configureIntegrations] and [generateConfiguration] are the same text
    in both; the skills configuration artifact further down is the later
    revision's [configureSkillsForRole]. *)

Definition emailIntegration : Integration.t :=
  Integration.mk (Some "gmail") None ["automation"; "smart_inbox"; "scheduling"].

Definition calendarIntegration : Integration.t :=
  Integration.mk (Some "google") None ["scheduling"; "meeting_prep"; "availability"].

Definition githubIntegration : Integration.t :=
  Integration.mk None None ["pr_reviews"; "issue_tracking"; "repo_analytics"].

Definition socialIntegration : Integration.t :=
  Integration.mk None (Some ["linkedin"; "twitter"])
                 ["content_scheduling"; "analytics"; "engagement"].

(** [configureIntegrations(selectedTools)]: the object starts empty and
    the four guarded assignments add their key in source order. *)
Definition configureIntegrations (selectedTools : list string) : Integrations :=
  let integrations := [] in
  let integrations :=
    if Array_includes selectedTools "gmail"
    then integrations ++ [("email", emailIntegration)] else integrations in
  let integrations :=
    if Array_includes selectedTools "calendar"
    then integrations ++ [("calendar", calendarIntegration)] else integrations in
  let integrations :=
    if Array_includes selectedTools "github"
    then integrations ++ [("github", githubIntegration)] else integrations in
  let integrations :=
    if Array_includes selectedTools "social"
    then integrations ++ [("social", socialIntegration)] else integrations in
  integrations.

(** [generateConfiguration(answers, template, integrations)];
    [nowISO] is [new Date().toISOString()]. *)
Definition generateConfiguration (nowISO : string) (answers : Answers.t)
    (template : Template.t) (integrations : Integrations) : Config.t :=
  Config.mk
    (User.mk (Answers.userType answers) (Answers.goals answers)
             (Answers.experience answers))
    template
    integrations
    (Workspace.mk (Answers.userType answers +:+ "-ai-employee")
                  ("AI employee setup for " +:+ Answers.userType answers)
                  (Template.automations template)
                  (Template.skills template))
    nowISO.

(** Steps 3 to 5 of [runWizard]: template lookup, integration expansion,
    configuration.  [loadTemplate] is defined in src/lib/templates.js,
    outside the two files embedded here: it is the function the wizard
    calls, returning a template or throwing. *)
Definition assemble (loadTemplate : string -> Result Template.t)
    (nowISO : string) (answers : Answers.t) : Result Config.t :=
  match loadTemplate (Answers.userType answers) with
  | Throw e => Throw e
  | Ok selectedTemplate =>
      let integrations := configureIntegrations (Answers.tools answers) in
      Ok (generateConfiguration nowISO answers selectedTemplate integrations)
  end.

(* --------------------------------------------------------------------- *)
(* The workspace file system                                              *)
(* --------------------------------------------------------------------- *)

(** A path is the list of the names that lead from the root to it, as
    on a POSIX system without symbolic links.  Joining a literal segment
    of the sources adds one name: [path.join(p, 'a', 'b')] is
    [p ++ ["a"; "b"]]. *)
Definition Path : Type := list string.

(** The pieces of a segment between its separators. *)
Fixpoint components (segment : string) : list string :=
  match segment with
  | EmptyString => [EmptyString]
  | String c rest =>
      if Ascii.eqb c "/" then EmptyString :: components rest
      else match components rest with
           | x :: xs => String c x :: xs
           | [] => [String c EmptyString]
           end
  end.

(** What [path.normalize] does with the pieces: an empty piece and "."
    stay where they are, ".." goes up to the parent (the root is its own
    parent), any other piece goes down by one name. *)
Fixpoint resolve (base : Path) (pieces : list string) : Path :=
  match pieces with
  | [] => base
  | piece :: rest =>
      resolve (if String.eqb piece "" || String.eqb piece "." then base
               else if String.eqb piece ".." then removelast base
               else base ++ [piece])
              rest
  end.

(** [path.join(base, segment)] for a segment computed at run time, which
    may hold separators and dots. *)
Definition path_join (base : Path) (segment : string) : Path :=
  resolve base (components segment).

Inductive Node : Type :=
| Dir
| File (content : string).

Abbreviation FS := (gmap (list string) Node).

(** [path.dirname]. *)
Definition dirname (p : Path) : Path := removelast p.

(** A path with all its ancestors, the root first. *)
Fixpoint prefixes (p : Path) : list Path :=
  [] :: match p with
        | [] => []
        | x :: q => map (cons x) (prefixes q)
        end.

Definition isFile (fs : FS) (p : Path) : bool :=
  match fs !! p with
  | Some (File _) => true
  | _ => false
  end.

Definition isDir (fs : FS) (p : Path) : bool :=
  match fs !! p with
  | Some Dir => true
  | _ => false
  end.

Definition mkdirs (ps : list Path) (fs : FS) : FS :=
  foldr (fun q m => <[q := Dir]> m) fs ps.

(** Asynchronous functions awaited one after the other: a computation
    reads and updates the file system and either returns or throws; what
    was written before a throw stays written. *)
Definition Async (A : Type) : Type := FS -> Result A * FS.

Definition ret {A : Type} (a : A) : Async A := fun fs => (Ok a, fs).

Definition throw {A : Type} (e : Error) : Async A := fun fs => (Throw e, fs).

Definition bind {A B : Type} (m : Async A) (k : A -> Async B) : Async B :=
  fun fs =>
    match m fs with
    | (Ok a, fs') => k a fs'
    | (Throw e, fs') => (Throw e, fs')
    end.

(** A synchronous expression that may throw, evaluated inside an
    asynchronous function. *)
Definition lift {A : Type} (r : Result A) : Async A := fun fs => (r, fs).

Notation "x <- m ;; k" := (bind m (fun x => k))
  (at level 100, m at next level, right associativity).
Notation "m ;; k" := (bind m (fun _ => k))
  (at level 100, right associativity).

(** [fs.ensureDir(p)] (mkdir -p): fails when a regular file is in the
    way, otherwise [p] and its ancestors are directories afterwards. *)
Definition ensureDir (p : Path) : Async unit :=
  fun fs =>
    if existsb (isFile fs) (prefixes p)
    then (Throw (FileSystemError "EEXIST" p), fs)
    else (Ok tt, mkdirs (prefixes p) fs).

(** [fs.writeFile(p, content)]: the parent must be an existing directory
    and [p] itself must not be one; the content replaces whatever the
    file held. *)
Definition writeFile (p : Path) (content : string) : Async unit :=
  fun fs =>
    if negb (isDir fs (dirname p))
    then (Throw (FileSystemError "ENOENT" p), fs)
    else if isDir fs p
    then (Throw (FileSystemError "EISDIR" p), fs)
    else (Ok tt, <[p := File content]> fs).

(** The content of a regular file. *)
Definition readFile (fs : FS) (p : Path) : option string :=
  match fs !! p with
  | Some (File content) => Some content
  | _ => None
  end.

(* --------------------------------------------------------------------- *)
(* The two shapes of [skills]                                             *)
(* --------------------------------------------------------------------- *)

(** What the property read [skills.entries] yields.  An array has no own
    [entries], but inherits the method [Array.prototype.entries], so the
    read gives a function; an object in mapping form gives its own
    [entries] object. *)
Inductive EntriesProperty : Type :=
| EntriesUndefined
| EntriesFunction
| EntriesObject (entries : list (string * SkillSpec.t)).

Definition Skills_entries (s : Skills) : EntriesProperty :=
  match s with
  | SkillsArray _ => EntriesFunction
  | SkillsMapping entries => EntriesObject entries
  end.

(** Truthiness: functions and objects are truthy, [undefined] is not. *)
Definition truthy (p : EntriesProperty) : bool :=
  match p with
  | EntriesUndefined => false
  | EntriesFunction => true
  | EntriesObject _ => true
  end.

(** The entries [Object.keys(p).map(k => ... p[k] ...)] runs over: a
    function has no enumerable own property; [Object.keys(undefined)]
    throws. *)
Definition Object_entries (p : EntriesProperty)
  : Result (list (string * SkillSpec.t)) :=
  match p with
  | EntriesUndefined => Throw (TypeError "Cannot convert undefined or null to object")
  | EntriesFunction => Ok []
  | EntriesObject entries => Ok entries
  end.

(** [skills.map(f)]: only an array has [map]. *)
Definition Skills_map {B : Type} (s : Skills) (f : string -> B) : Result (list B) :=
  match s with
  | SkillsArray names => Ok (map f names)
  | SkillsMapping _ => Throw (TypeError "skills.map is not a function")
  end.

(** [skills.join(sep)]: only an array has [join]. *)
Definition Skills_join (s : Skills) (sep : string) : Result string :=
  match s with
  | SkillsArray names => Ok (join sep names)
  | SkillsMapping _ => Throw (TypeError "skills.join is not a function")
  end.

Definition rmap {A B : Type} (f : A -> B) (r : Result A) : Result B :=
  match r with
  | Ok a => Ok (f a)
  | Throw e => Throw e
  end.

Definition rbind {A B : Type} (r : Result A) (k : A -> Result B) : Result B :=
  match r with
  | Ok a => k a
  | Throw e => Throw e
  end.

(** [.filter(Boolean)] over what a [map] callback returned: [undefined]
    (no [return] reached) and the empty string are dropped. *)
Fixpoint filterBoolean (xs : list (option string)) : list string :=
  match xs with
  | [] => []
  | None :: rest => filterBoolean rest
  | Some EmptyString :: rest => filterBoolean rest
  | Some s :: rest => s :: filterBoolean rest
  end.

(** [obj[key]] on an object kept as its entries. *)
Fixpoint property {V : Type} (o : list (string * V)) (key : string) : option V :=
  match o with
  | [] => None
  | (k, v) :: rest => if String.eqb k key then Some v else property rest key
  end.

(** [Object.keys(o)] / [Object.entries(o)] of a possibly absent object. *)
Definition Object_entries_opt {V : Type} (o : option (list (string * V)))
  : Result (list (string * V)) :=
  match o with
  | Some entries => Ok entries
  | None => Throw (TypeError "Cannot convert undefined or null to object")
  end.

(* --------------------------------------------------------------------- *)
(* src/lib/setup.js : AGENTS.md                                           *)
(* --------------------------------------------------------------------- *)

Definition agentsAutomation (entry : string * Automation.t) : string :=
  let name := fst entry in
  let automation := snd entry in
"### " +:+ titleCase name +:+ "
- **Schedule:** " +:+ Automation.schedule automation +:+ "
- **Priority:** " +:+ orString (Automation.priority automation) "medium" +:+ "
- **Description:** " +:+ orString (Automation.description automation) "Automated workflow" +:+ "
" +:+ (match Automation.includes automation with
       | Some items => join nl (map (fun item => "  - " +:+ item) items)
       | None => ""
       end) +:+ "
".

Definition agentsScenario (scenario : Scenario.t) : string :=
"### " +:+ Scenario.name scenario +:+ "
" +:+ Scenario.description scenario +:+ "
**Time saved:** " +:+ Scenario.time_saved scenario +:+ "
".

Definition agentsImpact (m : ImpactMetrics.t) : string :=
"
**Expected Time Savings:**
- Daily: " +:+ ImpactMetrics.daily_time_saved m +:+ "
- Weekly: " +:+ ImpactMetrics.weekly_time_saved m +:+ "  
- Monthly: " +:+ ImpactMetrics.monthly_time_saved m +:+ "

**Primary Benefits:**
" +:+ (match ImpactMetrics.primary_benefits m with
       | Some benefits => join nl (map (fun benefit => "- " +:+ benefit) benefits)
       | None => ""
       end) +:+ "
".

(** The skills list of AGENTS.md: the branch on [template.skills.entries]. *)
Definition agentsSkills (skills : Skills) : Result string :=
  if truthy (Skills_entries skills)
  then rmap (fun entries =>
               join nl (map (fun e =>
                 "- **" +:+ fst e +:+ "**: " +:+
                 orString (SkillSpec.description (snd e)) "Official OpenClaw skill")
                 entries))
            (Object_entries (Skills_entries skills))
  else rmap (join nl)
            (Skills_map skills
               (fun skill => "- **" +:+ skill +:+ "**: Official OpenClaw skill")).

Definition agentsContent (config : Config.t) : Result string :=
  let template := Config.template config in
  rbind (agentsSkills (Template.skills template)) (fun skillsList =>
  Ok (
"# AGENTS.md - " +:+ Template.name template +:+ " Operating Instructions

" +:+ Template.description template +:+ "

## 🎯 Your Role: " +:+ Template.name template +:+ "

You are an AI assistant specialized for " +:+ User.type (Config.user config) +:+ " workflows. Your primary focus areas:

" +:+ (match Template.automations template with
       | Some automations => join nl (map agentsAutomation automations)
       | None => ""
       end) +:+ "

## 💡 Demo Scenarios

" +:+ (match Template.demo_scenarios template with
       | Some scenarios => join nl (map agentsScenario scenarios)
       | None => ""
       end) +:+ "

## ⚡ Impact Metrics

" +:+ (match Template.impact_metrics template with
       | Some m => agentsImpact m
       | None => ""
       end) +:+ "

## 🛠️ Available Skills

You have access to these OpenClaw skills:
" +:+ skillsList +:+ "

## 📋 Daily Operating Principles

1. **Proactive Monitoring**: Check metrics and systems before issues arise
2. **Data-Driven Insights**: Always provide context and trends, not just numbers
3. **Actionable Recommendations**: Every brief should include specific next steps
4. **Time-Conscious**: Prioritize high-impact activities that save the most time
5. **Communication**: Keep updates clear, concise, and decision-focused

## 🚨 Alert Thresholds

Be proactive about flagging:
- Metrics trending negative >2 days
- Team blockers that could impact deadlines
- Competitive moves requiring immediate response
- Budget/runway concerns requiring founder attention

---

*This file is loaded every OpenClaw session. Update it as your needs evolve.*
")).

Definition generateAgentsFile (config : Config.t) (workspacePath : Path)
  : Async unit :=
  agentsContent <- lift (agentsContent config) ;;
  writeFile (workspacePath ++ ["AGENTS.md"]) agentsContent.

(* --------------------------------------------------------------------- *)
(* src/lib/setup.js : HEARTBEAT.md                                        *)
(* --------------------------------------------------------------------- *)

(** The three [map] callbacks of [generateHeartbeatFile]: each returns a
    block when its own test on the schedule holds, and nothing
    otherwise. *)
Definition dailyTask (entry : string * Automation.t) : option string :=
  let name := fst entry in
  let automation := snd entry in
  if String_includes (Automation.schedule automation) "daily"
  then Some (
"### " +:+ titleCase name +:+ "
- **When:** " +:+ Automation.schedule automation +:+ "
- **Priority:** " +:+ orString (Automation.priority automation) "medium" +:+ "
- **What:** " +:+ str (Automation.description automation) +:+ "
- **Actions:**
" +:+ (match Automation.includes automation with
       | Some items =>
           join nl (map (fun item => "  - Check and report on: " +:+ item) items)
       | None => "  - Execute automation workflow"
       end) +:+ "
")
  else None.

Definition weeklyTask (entry : string * Automation.t) : option string :=
  let name := fst entry in
  let automation := snd entry in
  if String_includes (Automation.schedule automation) "Weekly"
     || String_includes (Automation.schedule automation) "weekly"
  then Some (
"### " +:+ titleCase name +:+ "
- **When:** " +:+ Automation.schedule automation +:+ "
- **Priority:** " +:+ orString (Automation.priority automation) "medium" +:+ "  
- **What:** " +:+ str (Automation.description automation) +:+ "
- **Actions:**
" +:+ (match Automation.includes automation with
       | Some items =>
           join nl (map (fun item => "  - Analyze and summarize: " +:+ item) items)
       | None => "  - Execute weekly workflow"
       end) +:+ "
")
  else None.

Definition monthlyTask (entry : string * Automation.t) : option string :=
  let name := fst entry in
  let automation := snd entry in
  if String_includes (Automation.schedule automation) "Monthly"
     || String_includes (Automation.schedule automation) "monthly"
  then Some (
"### " +:+ titleCase name +:+ "
- **When:** " +:+ Automation.schedule automation +:+ "
- **Priority:** " +:+ orString (Automation.priority automation) "medium" +:+ "
- **What:** " +:+ str (Automation.description automation) +:+ "
- **Actions:**
" +:+ (match Automation.includes automation with
       | Some items =>
           join nl (map (fun item => "  - Deep analysis of: " +:+ item) items)
       | None => "  - Execute periodic workflow"
       end) +:+ "
")
  else None.

(** One section: [template.automations ?
    Object.entries(template.automations).map(task).filter(Boolean).join('\n') : '']. *)
Definition heartbeatSection (task : string * Automation.t -> option string)
    (automations : option Automations) : string :=
  match automations with
  | Some entries => join nl (filterBoolean (map task entries))
  | None => ""
  end.

Definition heartbeatContent (config : Config.t) : string :=
  let template := Config.template config in
"# HEARTBEAT.md - " +:+ Template.name template +:+ " Automation

Automated periodic tasks for " +:+ User.type (Config.user config) +:+ " workflows.

## 🔄 Daily Automation Tasks

" +:+ heartbeatSection dailyTask (Template.automations template) +:+ "

## 📊 Weekly Tasks

" +:+ heartbeatSection weeklyTask (Template.automations template) +:+ "

## 📅 Monthly/Periodic Tasks

" +:+ heartbeatSection monthlyTask (Template.automations template) +:+ "

## ⚡ Proactive Monitoring

Between scheduled tasks, monitor for:
- Critical metrics falling outside normal ranges
- Team blockers that need immediate escalation  
- Competitive intelligence requiring rapid response
- Opportunities for strategic advantage

## 🎯 Success Metrics

Track automation effectiveness:
- Time saved per task category
- Issues caught proactively vs. reactively
- Decision speed improvement
- Overall " +:+ User.type (Config.user config) +:+ " productivity gains

---

*Keep this file focused and actionable. OpenClaw reads this for automated tasks.*
".

Definition generateHeartbeatFile (config : Config.t) (workspacePath : Path)
  : Async unit :=
  writeFile (workspacePath ++ ["HEARTBEAT.md"]) (heartbeatContent config).

(* --------------------------------------------------------------------- *)
(* src/lib/setup.js : the renderers that serialize or read the clock      *)
(* --------------------------------------------------------------------- *)

(** [n.toString()] for an array length. *)
Definition Number_toString (n : nat) : string :=
  NilEmpty.string_of_uint (Nat.to_uint n).

Section Setup.

(** The serializers of the [yaml] package and of the runtime, and the
    locale-dependent date formatting, are library code: they are the
    functions the code calls.  [JSON_stringify v (Some 2)] is
    [JSON.stringify(v, null, 2)], [JSON_stringify v None] is
    [JSON.stringify(v)]; [toLocaleDateString s] is
    [new Date(s).toLocaleDateString()]. *)
Variable yaml_stringify : Json -> string.
Variable JSON_stringify : Json -> option nat -> string.
Variable toLocaleDateString : string -> string.

Definition generateOpenClawWorkspace (config : Config.t) (workspacePath : Path)
  : Async unit :=
  ensureDir workspacePath.

Definition createWorkspaceStructure (workspacePath : Path) : Async unit :=
  let directories :=
    ["config"; "automations"; "workflows"; "integrations"; "docs"; "logs"] in
  foldr (fun dir rest => ensureDir (workspacePath ++ [dir]) ;; rest)
        (ret tt) directories.

(** The object serialized to config/clawdbot.yaml. *)
Definition clawdbotConfig (config : Config.t) : Result Json :=
  rbind (Skills_map (Workspace.skills (Config.workspace config))
           (fun skill => JObject [("name", JString skill);
                                  ("enabled", JBool true);
                                  ("auto_install", JBool true)]))
        (fun skills =>
  Ok (JObject
    [("workspace",
      JObject [("name", JString (Workspace.name (Config.workspace config)));
               ("description",
                JString (Workspace.description (Config.workspace config)));
               ("created", JString (Config.created config));
               ("user_type", JString (User.type (Config.user config)))]);
     ("skills", JArray skills);
     ("integrations",
      JObject (map (fun e => (fst e, Integration.toJson (snd e)))
                   (Config.integrations config)));
     ("automations",
      JOpt automationsJson (Template.automations (Config.template config)));
     ("workflows",
      JArray (match Template.workflows (Config.template config) with
              | Some workflows => workflows
              | None => []
              end))])).

Definition generateClawdbotConfig (config : Config.t) (workspacePath : Path)
  : Async Path :=
  clawdbotConfig <- lift (clawdbotConfig config) ;;
  let configPath := workspacePath ++ ["config"; "clawdbot.yaml"] in
  writeFile configPath (yaml_stringify clawdbotConfig) ;;
  ret configPath.

(** The automation definitions written under automations/. *)
Definition morningBriefAutomation (automations : Automations) : Json :=
  let morning_brief := property automations "morning_brief" in
  JObject
    [("name", JString "Morning Intelligence Brief");
     ("schedule",
      JString (orString (option_map Automation.schedule morning_brief)
                        "8:00 AM daily"));
     ("description",
      JString "Daily briefing with relevant updates and priorities");
     ("actions",
      JArray
        [JObject [("type", JString "collect_data");
                  ("sources",
                   JStrings (match morning_brief with
                             | Some a =>
                                 match Automation.includes a with
                                 | Some sources => sources
                                 | None => []
                                 end
                             | None => []
                             end))];
         JObject [("type", JString "generate_summary");
                  ("format", JString "markdown");
                  ("output", JString "morning-brief.md")];
         JObject [("type", JString "notify");
                  ("method", JString "console");
                  ("message", JString "Your morning brief is ready!")]])].

Definition investorUpdate : Json :=
  JObject
    [("name", JString "Weekly Investor Update Prep");
     ("schedule", JString "Weekly Friday 4:00 PM");
     ("description",
      JString "Prepare weekly investor update with key metrics and highlights");
     ("actions",
      JArray
        [JObject [("type", JString "collect_metrics");
                  ("sources", JStrings ["revenue"; "user_growth"; "team_updates"])];
         JObject [("type", JString "generate_report");
                  ("template", JString "investor_update");
                  ("output", JString "weekly-investor-update.md")]])].

Definition codeReview : Json :=
  JObject
    [("name", JString "Automated Code Review Assistant");
     ("schedule", JString "On PR creation");
     ("description", JString "Assist with code reviews and quality checks");
     ("actions",
      JArray
        [JObject [("type", JString "analyze_code");
                  ("checks",
                   JStrings ["security"; "performance"; "style"; "tests"])];
         JObject [("type", JString "generate_feedback");
                  ("format", JString "github_comment");
                  ("output", JString "pr-review-comments.md")]])].

Definition generateFounderAutomations (config : Config.t) (automationsPath : Path)
  : Async unit :=
  writeFile (automationsPath ++ ["investor-update.yaml"])
            (yaml_stringify investorUpdate).

Definition generateEngineerAutomations (config : Config.t) (automationsPath : Path)
  : Async unit :=
  writeFile (automationsPath ++ ["code-review.yaml"])
            (yaml_stringify codeReview).

Definition generateAutomations (config : Config.t) (workspacePath : Path)
  : Async unit :=
  let automationsPath := workspacePath ++ ["automations"] in
  morningBrief <-
    lift (match Template.automations (Config.template config) with
          | Some automations => Ok (morningBriefAutomation automations)
          | None =>
              Throw (TypeError "Cannot read properties of undefined (reading 'morning_brief')")
          end) ;;
  writeFile (automationsPath ++ ["morning-brief.yaml"])
            (yaml_stringify morningBrief) ;;
  if String.eqb (User.type (Config.user config)) "founder"
  then generateFounderAutomations config automationsPath
  else if String.eqb (User.type (Config.user config)) "engineer"
  then generateEngineerAutomations config automationsPath
  else ret tt.

(** README.md: one block per automation, then the document. *)
Definition readmeAutomation (entry : string * Automation.t) : string :=
  let name := fst entry in
  let automation := snd entry in
  "### " +:+ name +:+ nl +:+
  "- **Schedule:** " +:+ Automation.schedule automation +:+ nl +:+
  "- **Includes:** " +:+
  orString (option_map (join ", ") (Automation.includes automation))
           "Custom workflow" +:+ nl.

Definition readmeContent (config : Config.t) : Result string :=
  rbind (Skills_join (Workspace.skills (Config.workspace config)) ", ")
        (fun skillsInstalled =>
  rbind (Object_entries_opt (Template.automations (Config.template config)))
        (fun automations =>
  Ok (
"# " +:+ Workspace.name (Config.workspace config) +:+ "

Your AI Employee workspace, configured for " +:+ User.type (Config.user config) +:+ " workflows.

## 🎯 Setup Summary

- **User Type:** " +:+ User.type (Config.user config) +:+ "
- **Created:** " +:+ toLocaleDateString (Config.created config) +:+ "
- **Skills Installed:** " +:+ skillsInstalled +:+ "
- **Integrations:** " +:+ join ", " (Object_keys (Config.integrations config)) +:+ "

## 🚀 Getting Started

1. **Start Clawdbot:** `clawdbot gateway start`
2. **Check your morning brief:** `cat morning-brief.md`
3. **View automations:** `ls automations/`
4. **Customize workflows:** Edit files in `workflows/`

## 📋 Automations

" +:+ join nl (map readmeAutomation automations) +:+ "

## 🔧 Configuration

All configuration files are in the `config/` directory. Main configuration is in `config/clawdbot.yaml`.

## 📊 Goals Tracking

Your selected goals:
" +:+ orString (option_map (fun goals => join nl (map (fun goal => "- " +:+ goal) goals))
                           (User.goals (Config.user config)))
               "- General automation" +:+ "

## 📞 Support

- Documentation: [docs/](./docs/)
- Logs: [logs/](./logs/)
- Community: [Discord](https://discord.gg/clawdbot)

---

*Generated by Clawdbot Onboarding Wizard v1.0*
"))).

Definition generateDocumentation (config : Config.t) (workspacePath : Path)
  : Async unit :=
  readme <- lift (readmeContent config) ;;
  writeFile (workspacePath ++ ["README.md"]) readme.

(** morning-brief.md; [today] is [new Date().toLocaleDateString()]. *)
Definition morningBriefContent (today : string) (config : Config.t)
  : Result string :=
  rbind (Object_entries_opt (Template.automations (Config.template config)))
        (fun automations =>
  Ok (
"# Morning Brief - " +:+ today +:+ "

*Your AI employee has prepared this briefing*

## 🎯 Today's Priorities

" +:+ orString (option_map (fun goals =>
                   join nl (map (fun goal => "- Work on: " +:+ goal) goals))
                 (User.goals (Config.user config)))
               "- General productivity tasks" +:+ "

## 📅 Schedule Overview

*Calendar integration will populate this section*

## 📊 Key Metrics

" +:+ (if String.eqb (User.type (Config.user config)) "founder" then "
- Revenue tracking: *Setup pending*
- User growth: *Setup pending*
- Team updates: *Setup pending*
" else if String.eqb (User.type (Config.user config)) "engineer" then "
- PR reviews pending: *Setup pending*
- GitHub notifications: *Setup pending*
- CI/CD status: *Setup pending*
" else "
- Daily goals: *Setup pending*
- Important updates: *Setup pending*
") +:+ "

## 🔔 Notifications

- ✅ AI employee workspace configured
- ⏳ Integrations pending: " +:+ join ", " (Object_keys (Config.integrations config)) +:+ "
- 📋 Automations ready: " +:+ Number_toString (length (Object_keys automations)) +:+ " workflows

## 💡 Suggestions

1. Review and customize your automations in `automations/`
2. Set up integrations for: " +:+ join ", " (Object_keys (Config.integrations config)) +:+ "
3. Check back tomorrow for your first real brief!

---

*This briefing will improve as your integrations are configured*
")).

Definition generateMorningBrief (today : string) (config : Config.t)
    (workspacePath : Path) : Async unit :=
  morningBrief <- lift (morningBriefContent today config) ;;
  writeFile (workspacePath ++ ["morning-brief.md"]) morningBrief.

(** templates/<user_type>-automation-template.json *)
Definition automationExample (config : Config.t) : Result Json :=
  let template := Config.template config in
  rbind (if truthy (Skills_entries (Template.skills template))
         then rmap (fun entries => JStrings (Object_keys entries))
                   (Object_entries (Skills_entries (Template.skills template)))
         else Ok (skillsJson (Template.skills template)))
        (fun skills_needed =>
  Ok (JObject
    [("name", JString (User.type (Config.user config) +:+ "_automation_example"));
     ("description",
      JString ("Example automation workflow for " +:+ User.type (Config.user config)));
     ("template", Template.toJson template);
     ("usage_instructions", JString "
# How to Use This Template

1. Copy this template for new automations
2. Customize the triggers and actions for your needs
3. Test with small data sets first
4. Scale up once working properly

# OpenClaw Integration

This template is designed to work with OpenClaw's automation system.
Configure skills in ~/.openclaw/openclaw.json using the provided configuration.
");
     ("skills_needed", skills_needed)])).

Definition generateAutomationTemplates (config : Config.t) (workspacePath : Path)
  : Async unit :=
  let templatesDir := workspacePath ++ ["templates"] in
  ensureDir templatesDir ;;
  automationExample <- lift (automationExample config) ;;
  writeFile
    (path_join templatesDir
               (User.type (Config.user config) +:+ "-automation-template.json"))
    (JSON_stringify automationExample (Some 2)).

(** The entry point of setup.js. *)
Definition generateSetup (today : string) (config : Config.t)
    (workspacePath : Path) : Async Path :=
  generateOpenClawWorkspace config workspacePath ;;
  generateAgentsFile config workspacePath ;;
  generateHeartbeatFile config workspacePath ;;
  generateAutomationTemplates config workspacePath ;;
  generateMorningBrief today config workspacePath ;;
  ret workspacePath.

(* --------------------------------------------------------------------- *)
(* src/lib/wizard.js : the skills configuration artifact                  *)
(* --------------------------------------------------------------------- *)

(** [{ enabled: true, ...spec }]: own properties of [spec] are copied
    over the default, [enabled] keeping its first position. *)
Definition spreadEnabled (spec : SkillSpec.t) : Json :=
  JObject (("enabled", JBool (match SkillSpec.enabled spec with
                              | Some b => b
                              | None => true
                              end))
           :: match SkillSpec.description spec with
              | Some d => [("description", JString d)]
              | None => []
              end
           ++ SkillSpec.passthrough spec).

(** The value assigned to [skillsConfig.skills.entries[skill]].  For an
    array the loop below runs over no skill at all, so what the inherited
    method would answer to [entries[skill]] is never asked. *)
Definition skillConfigEntry (p : EntriesProperty) (skill : string) : Json :=
  match p with
  | EntriesObject entries =>
      match property entries skill with
      | Some spec => spreadEnabled spec
      | None => JObject [("enabled", JBool true)]
      end
  | _ => JObject [("enabled", JBool true)]
  end.

(** The list the [for ... of] loop of [configureSkillsForRole] runs
    over. *)
Definition skillsForRole (skills : Skills) : Result (list string) :=
  if truthy (Skills_entries skills)
  then rmap Object_keys (Object_entries (Skills_entries skills))
  else match skills with
       | SkillsArray names => Ok names
       | SkillsMapping _ => Throw (TypeError "skills is not iterable")
       end.

Definition skillsConfig (config : Config.t) : Result Json :=
  let skills := Template.skills (Config.template config) in
  rmap (fun names =>
          JObject [("skills",
            JObject [("entries",
              JObject (map (fun skill =>
                              (skill, skillConfigEntry (Skills_entries skills) skill))
                           names))])])
       (skillsForRole skills).

Definition configureSkillsForRole (config : Config.t) (workspacePath : Path)
  : Async unit :=
  skillsConfig <- lift (skillsConfig config) ;;
  let configSnippet := "
# Add this to your ~/.openclaw/openclaw.json file:
" +:+ JSON_stringify skillsConfig (Some 2) +:+ "

# Or run: openclaw config patch --raw '" +:+ JSON_stringify skillsConfig None +:+ "'
" in
  writeFile (workspacePath ++ ["openclaw-skills-config.json"]) configSnippet.

(** [setupWorkspace], with the home directory's [clawd] folder as
    [workspacePath]. *)
Definition setupWorkspace (today : string) (config : Config.t)
    (workspacePath : Path) : Async Path :=
  ensureDir workspacePath ;;
  generateSetup today config workspacePath ;;
  configureSkillsForRole config workspacePath ;;
  ret workspacePath.

End Setup.

(* --------------------------------------------------------------------- *)
(* src/lib/wizard.js, earlier revision : skill scaffolds                  *)
(* --------------------------------------------------------------------- *)

(** [for (const skill of skills)]: an array is iterated in order, a plain
    object is not iterable. *)
Definition forOf (skills : Skills) : Result (list string) :=
  match skills with
  | SkillsArray names => Ok names
  | SkillsMapping _ => Throw (TypeError "skills is not iterable")
  end.

Definition skillMd (skill : string) : string :=
"# " +:+ skill +:+ " Skill

Enhanced " +:+ skill +:+ " integration for your role-based OpenClaw setup.

## Features
- Role-specific " +:+ skill +:+ " automation
- Optimized for your workflow
- Integrated with OpenClaw workspace

## Usage
This skill is automatically loaded by OpenClaw and provides enhanced " +:+ skill +:+ " functionality tailored to your user type.

## Configuration
Configure this skill through your OpenClaw settings or workspace templates.
".

Definition skillPackage (skill : string) : Json :=
  JObject
    [("name", JString skill);
     ("version", JString "1.0.0");
     ("description",
      JString ("Enhanced " +:+ skill +:+ " skill for role-based OpenClaw setup"));
     ("main", JString "index.js");
     ("keywords", JStrings ["openclaw"; "skill"; skill; "automation"]);
     ("author", JString "OpenClaw Role Wizard");
     ("license", JString "MIT")].

Module Rev1.
Section Install.

Variable JSON_stringify : Json -> option nat -> string.

(** The body of the loop of [installRequiredSkills], for one skill. *)
Definition installSkill (skillsDir : Path) (skill : string) : Async unit :=
  let skillDir := path_join skillsDir skill in
  ensureDir skillDir ;;
  writeFile (skillDir ++ ["SKILL.md"]) (skillMd skill) ;;
  writeFile (skillDir ++ ["package.json"])
            (JSON_stringify (skillPackage skill) (Some 2)).

(** [installRequiredSkills(skills, workspacePath)]; the spinner and the
    pause after each skill leave no trace in the workspace. *)
Definition installRequiredSkills (skills : Skills) (workspacePath : Path)
  : Async unit :=
  let skillsDir := workspacePath ++ ["skills"] in
  ensureDir skillsDir ;;
  names <- lift (forOf skills) ;;
  foldr (fun skill rest => installSkill skillsDir skill ;; rest) (ret tt) names.

(** [setupWorkspace] of the earlier revision. *)
Definition setupWorkspace (today : string) (config : Config.t)
    (workspacePath : Path) : Async Path :=
  ensureDir workspacePath ;;
  generateSetup JSON_stringify today config workspacePath ;;
  installRequiredSkills (Workspace.skills (Config.workspace config))
                        workspacePath ;;
  ret workspacePath.

End Install.
End Rev1.

(* --------------------------------------------------------------------- *)
(* src/lib/wizard.js : system checks and the wizard itself                *)
(* --------------------------------------------------------------------- *)

(** What the wizard can throw besides the errors of the pipeline: an
    [Error] carrying a message, and the ReferenceError of reading an
    identifier that is declared nowhere. *)
Inductive Exception : Type :=
| Pipeline (e : Error)
| ErrorMessage (message : string)
| ReferenceError (identifier : string).

Inductive Outcome (A : Type) : Type :=
| Returned (a : A)
| Raised (x : Exception).
Arguments Returned {A} a.
Arguments Raised {A} x.

(** [nodeVersion.match(/^v(1[6-9]|[2-9][0-9])/)]: the pattern looks at the
    three first characters and at nothing after them. *)
Definition nodeVersionMatch (nodeVersion : string) : bool :=
  match nodeVersion with
  | String v (String a (String b _)) =>
      Ascii.eqb v "v"
      && ((Ascii.eqb a "1" && between "6" "9" b)
          || (between "2" "9" a && between "0" "9" b))
  | _ => false
  end.

(** What [runSystemChecks] reads from its environment: [process.version]
    and whether each of the two shell commands succeeds. *)
Module Env.
Record t : Type := mk {
  version : string;
  which_openclaw : bool;
  npx_openclaw : bool
}.
End Env.

Definition runSystemChecks (env : Env.t) : Outcome unit :=
  if negb (nodeVersionMatch (Env.version env))
  then Raised (ErrorMessage ("Node.js 16+ required, found " +:+ Env.version env))
  else if Env.which_openclaw env then Returned tt
  else if Env.npx_openclaw env then Returned tt
  else Raised (ErrorMessage
         "OpenClaw not found. Please install OpenClaw first: npm install -g openclaw@latest").

(** [displaySuccess] of the earlier revision: the one expression that can
    throw is [config.workspace.skills.join(', ')]. *)
Definition displaySuccess_rev1 (config : Config.t) : Outcome unit :=
  match Skills_join (Workspace.skills (Config.workspace config)) ", " with
  | Ok _ => Returned tt
  | Throw e => Raised (Pipeline e)
  end.

(** [displaySuccess] of the later revision: after the skills line it
    logs [workspacePath], an identifier that neither the function nor the
    module declares. *)
Definition displaySuccess (config : Config.t) : Outcome unit :=
  let skills := Template.skills (Config.template config) in
  match (if truthy (Skills_entries skills)
         then rmap (fun entries => join ", " (Object_keys entries))
                   (Object_entries (Skills_entries skills))
         else Skills_join skills ", ") with
  | Ok _ => Raised (ReferenceError "workspacePath")
  | Throw e => Raised (Pipeline e)
  end.

Module Options.
Record t : Type := mk {
  template : option string;
  testMode : bool;
  skipChecks : bool
}.
End Options.

(** An asynchronous function of the wizard: as [Async], with the wider
    set of exceptions. *)
Definition Wizard (A : Type) : Type := FS -> Outcome A * FS.

Definition fromAsync {A : Type} (m : Async A) : Wizard A :=
  fun fs =>
    match m fs with
    | (Ok a, fs') => (Returned a, fs')
    | (Throw e, fs') => (Raised (Pipeline e), fs')
    end.

Definition fromOutcome {A : Type} (o : Outcome A) : Wizard A := fun fs => (o, fs).

Definition wbind {A B : Type} (m : Wizard A) (k : A -> Wizard B) : Wizard B :=
  fun fs =>
    match m fs with
    | (Returned a, fs') => k a fs'
    | (Raised x, fs') => (Raised x, fs')
    end.

(** [runWizard(options)], the same text in both revisions; what differs is
    the [setupWorkspace] and the [displaySuccess] of the module it sits
    in.  [getUserPreferences] stands for the interactive prompt (the
    questions are in src/lib/questions.js, the prompt is inquirer's);
    [homedir] is [os.homedir()]; console output is left out. *)
Definition runWizardWith
    (setupWorkspace : Config.t -> Path -> Async Path)
    (displaySuccess : Config.t -> Outcome unit)
    (env : Env.t) (getUserPreferences : option string -> Answers.t)
    (loadTemplate : string -> Result Template.t) (nowISO : string)
    (homedir : Path) (options : Options.t) : Wizard Config.t :=
  wbind (if negb (Options.skipChecks options)
         then fromOutcome (runSystemChecks env)
         else fromOutcome (Returned tt)) (fun _ =>
  let answers := getUserPreferences (Options.template options) in
  wbind (fromAsync (lift (loadTemplate (Answers.userType answers))))
        (fun selectedTemplate =>
  let integrations := configureIntegrations (Answers.tools answers) in
  let config := generateConfiguration nowISO answers selectedTemplate integrations in
  wbind (if negb (Options.testMode options)
         then wbind (fromAsync (setupWorkspace config (homedir ++ ["clawd"])))
                    (fun _ => fromOutcome (displaySuccess config))
         else fromOutcome (Returned tt)) (fun _ =>
  fromOutcome (Returned config)))).

Section Wizard.

Variable JSON_stringify : Json -> option nat -> string.

(** The wizard of the later revision. *)
Definition runWizard (today : string) :=
  runWizardWith (setupWorkspace JSON_stringify today) displaySuccess.

(** The wizard of the earlier revision. *)
Definition runWizard_rev1 (today : string) :=
  runWizardWith (Rev1.setupWorkspace JSON_stringify today) displaySuccess_rev1.

End Wizard.

(* ===================================================================== *)
(*  Vocabulary of the statements                                          *)
(* ===================================================================== *)

(* --------------------------------------------------------------------- *)
(* Integrations and HEARTBEAT.md sections                                 *)
(* --------------------------------------------------------------------- *)

(** The four identifiers [configureIntegrations] tests for. *)
Definition recognized (tool : string) : bool :=
  String.eqb tool "gmail" || String.eqb tool "calendar"
  || String.eqb tool "github" || String.eqb tool "social".

Inductive Bucket : Type := Daily | Weekly | Monthly.

Definition isSome {A : Type} (o : option A) : bool :=
  match o with
  | Some _ => true
  | None => false
  end.

(** The sections of HEARTBEAT.md whose callback returns a block for an
    automation. *)
Definition sectionsOf (entry : string * Automation.t) : list Bucket :=
  (if isSome (dailyTask entry) then [Daily] else [])
  ++ (if isSome (weeklyTask entry) then [Weekly] else [])
  ++ (if isSome (monthlyTask entry) then [Monthly] else []).

(** The configuration with another set of template automations. *)
Definition withAutomations (config : Config.t) (automations : option Automations)
  : Config.t :=
  let template := Config.template config in
  Config.mk (Config.user config)
            (Template.mk (Template.name template) (Template.description template)
                         automations (Template.skills template)
                         (Template.demo_scenarios template)
                         (Template.impact_metrics template)
                         (Template.workflows template))
            (Config.integrations config) (Config.workspace config)
            (Config.created config).

(** An automation is rendered in a section when the section's callback
    returns a block for it and the block survives [.filter(Boolean)]. *)
Definition renderedIn (task : string * Automation.t -> option string)
    (automations : Automations) (e : string * Automation.t) : Prop :=
  exists block,
    task e = Some block /\ In block (filterBoolean (map task automations)).

(** The buckets of the specification, by its words: a schedule is in
    the daily bucket when it contains "daily", in the weekly one when it
    contains "Weekly" or "weekly", in the monthly one when it contains
    "Monthly" or "monthly". *)
Definition inBucket (b : Bucket) (schedule : string) : bool :=
  match b with
  | Daily => String_includes schedule "daily"
  | Weekly => String_includes schedule "Weekly" || String_includes schedule "weekly"
  | Monthly =>
      String_includes schedule "Monthly" || String_includes schedule "monthly"
  end.

Definition classify (schedule : string) : list Bucket :=
  List.filter (fun b => inBucket b schedule) [Daily; Weekly; Monthly].

(** The automations of a bucket, in the template's order. *)
Definition bucketOf (b : Bucket) (automations : Automations) : Automations :=
  List.filter (fun e => inBucket b (Automation.schedule (snd e))) automations.

(** The block of an automation in the section of a bucket: heading,
    schedule, priority, description and one action line per entry of
    [includes], with the verb of the bucket. *)
Definition verb (b : Bucket) : string :=
  match b with
  | Daily => "Check and report on"
  | Weekly => "Analyze and summarize"
  | Monthly => "Deep analysis of"
  end.

Definition defaultAction (b : Bucket) : string :=
  match b with
  | Daily => "Execute automation workflow"
  | Weekly => "Execute weekly workflow"
  | Monthly => "Execute periodic workflow"
  end.

(** What follows the priority on its line: two blanks in the weekly
    section, nothing in the others. *)
Definition afterPriority (b : Bucket) : string :=
  match b with
  | Weekly => "  "
  | _ => ""
  end.

Definition taskBlock (b : Bucket) (entry : string * Automation.t) : string :=
  let automation := snd entry in
  "### " +:+ titleCase (fst entry) +:+ nl
  +:+ "- **When:** " +:+ Automation.schedule automation +:+ nl
  +:+ "- **Priority:** " +:+ orString (Automation.priority automation) "medium"
  +:+ afterPriority b +:+ nl
  +:+ "- **What:** " +:+ str (Automation.description automation) +:+ nl
  +:+ "- **Actions:**" +:+ nl
  +:+ match Automation.includes automation with
      | Some items =>
          join nl (map (fun item => "  - " +:+ verb b +:+ ": " +:+ item) items)
      | None => "  - " +:+ defaultAction b
      end
  +:+ nl.

(** The text of a section: the blocks of the bucket's automations, one
    line break between two of them. *)
Definition sectionText (b : Bucket) (automations : Automations) : string :=
  join nl (map (taskBlock b) (bucketOf b automations)).

(** HEARTBEAT.md as its fixed text around the three section texts. *)
Definition heartbeatLayout (name type daily weekly monthly : string) : string :=
"# HEARTBEAT.md - " +:+ name +:+ " Automation

Automated periodic tasks for " +:+ type +:+ " workflows.

## 🔄 Daily Automation Tasks

" +:+ daily +:+ "

## 📊 Weekly Tasks

" +:+ weekly +:+ "

## 📅 Monthly/Periodic Tasks

" +:+ monthly +:+ "

## ⚡ Proactive Monitoring

Between scheduled tasks, monitor for:
- Critical metrics falling outside normal ranges
- Team blockers that need immediate escalation  
- Competitive intelligence requiring rapid response
- Opportunities for strategic advantage

## 🎯 Success Metrics

Track automation effectiveness:
- Time saved per task category
- Issues caught proactively vs. reactively
- Decision speed improvement
- Overall " +:+ type +:+ " productivity gains

---

*Keep this file focused and actionable. OpenClaw reads this for automated tasks.*
".

(** The blocks of a section when the automations are [l1], then [e],
    then [l2]: [e] adds its block exactly when its schedule is in the
    bucket. *)
Definition blocksWith (b : Bucket) (l1 : Automations)
    (e : string * Automation.t) (l2 : Automations) : list string :=
  map (taskBlock b) (bucketOf b l1)
  ++ (if inBucket b (Automation.schedule (snd e)) then [taskBlock b e] else [])
  ++ map (taskBlock b) (bucketOf b l2).

(* --------------------------------------------------------------------- *)
(* Runs as sequences of file system steps                                 *)
(* --------------------------------------------------------------------- *)

(** The steps a generation run is made of. *)
Inductive Step : Type :=
| SEnsure (p : Path)
| SWrite (p : Path) (content : string)
| SFail (e : Error).

Definition exec (s : Step) : Async unit :=
  match s with
  | SEnsure p => ensureDir p
  | SWrite p content => writeFile p content
  | SFail e => throw e
  end.

Fixpoint run (script : list Step) : Async unit :=
  match script with
  | [] => ret tt
  | s :: rest => exec s ;; run rest
  end.

(** Rendering, then writing: a renderer that throws stops the run before
    its file is touched. *)
Definition writeStep (p : Path) (r : Result string) : Step :=
  match r with
  | Ok content => SWrite p content
  | Throw e => SFail e
  end.

(** A step already in effect: running it changes nothing. *)
Definition stable (s : Step) (fs : FS) : Prop :=
  match s with
  | SEnsure p => forall q, In q (prefixes p) -> fs !! q = Some Dir
  | SWrite p content => fs !! dirname p = Some Dir /\ fs !! p = Some (File content)
  | SFail _ => False
  end.

(** Two steps interfere only when they write different text to one file. *)
Definition compat (s s' : Step) : Prop :=
  match s, s' with
  | SWrite p _, SWrite q _ => p <> q
  | _, _ => True
  end.

Fixpoint compatible (script : list Step) : Prop :=
  match script with
  | [] => True
  | s :: rest => (forall s', In s' rest -> compat s s') /\ compatible rest
  end.

(** A step other than a write to [q] leaves the content of [q] alone. *)
Definition writesTo (q : Path) (s : Step) : Prop :=
  match s with
  | SWrite p _ => p = q
  | _ => False
  end.

(** The documents a script writes, in order. *)
Definition written (script : list Step) : list (Path * string) :=
  flat_map (fun s => match s with
                     | SWrite p content => [(p, content)]
                     | _ => []
                     end) script.

(** [v[key]] on a serialized object. *)
Definition field (v : Json) (key : string) : option Json :=
  match v with
  | JObject fields => property fields key
  | _ => None
  end.

Definition agentsPath (workspacePath : Path) : Path :=
  workspacePath ++ ["AGENTS.md"].

Definition heartbeatPath (workspacePath : Path) : Path :=
  workspacePath ++ ["HEARTBEAT.md"].

Definition morningBriefPath (workspacePath : Path) : Path :=
  workspacePath ++ ["morning-brief.md"].

Definition templatePath (config : Config.t) (workspacePath : Path) : Path :=
  path_join (workspacePath ++ ["templates"])
            (User.type (Config.user config) +:+ "-automation-template.json").

Definition morningBriefYamlPath (workspacePath : Path) : Path :=
  (workspacePath ++ ["automations"]) ++ ["morning-brief.yaml"].

Definition investorUpdatePath (workspacePath : Path) : Path :=
  (workspacePath ++ ["automations"]) ++ ["investor-update.yaml"].

Definition codeReviewPath (workspacePath : Path) : Path :=
  (workspacePath ++ ["automations"]) ++ ["code-review.yaml"].

(** A text that can be part of a file name: it holds neither the
    separator nor the NUL character, which [fs] refuses in a path. *)
Definition nameText (s : string) : bool :=
  negb (String_includes s "/")
  && negb (String_includes s (String Ascii.zero EmptyString)).

(** A name that [path.join] adds as it is: not empty, not "." or "..",
    and without separator. *)
Definition plainName (name : string) : bool :=
  negb (String.eqb name "") && negb (String.eqb name ".")
  && negb (String.eqb name "..") && nameText name.

(** [generateSetup] as the sequence of its file system steps. *)
Definition setupScript (JSON_stringify : Json -> option nat -> string)
    (today : string) (config : Config.t) (workspacePath : Path) : list Step :=
  [SEnsure workspacePath;
   writeStep (agentsPath workspacePath) (agentsContent config);
   SWrite (heartbeatPath workspacePath) (heartbeatContent config);
   SEnsure (workspacePath ++ ["templates"]);
   writeStep (templatePath config workspacePath)
             (rmap (fun example => JSON_stringify example (Some 2))
                   (automationExample config));
   writeStep (morningBriefPath workspacePath)
             (morningBriefContent today config)].

(** [generateAutomations] as the sequence of its file system steps. *)
Definition automationsScript (yaml_stringify : Json -> string)
    (config : Config.t) (workspacePath : Path) : list Step :=
  writeStep (morningBriefYamlPath workspacePath)
    (match Template.automations (Config.template config) with
     | Some automations =>
         Ok (yaml_stringify (morningBriefAutomation automations))
     | None =>
         Throw (TypeError "Cannot read properties of undefined (reading 'morning_brief')")
     end)
  :: (if String.eqb (User.type (Config.user config)) "founder"
      then [SWrite (investorUpdatePath workspacePath)
                   (yaml_stringify investorUpdate)]
      else if String.eqb (User.type (Config.user config)) "engineer"
      then [SWrite (codeReviewPath workspacePath) (yaml_stringify codeReview)]
      else []).

(* --------------------------------------------------------------------- *)
(* Sample inputs                                                          *)
(* --------------------------------------------------------------------- *)

Definition founderTemplate : Template.t :=
  Template.mk "Founder Assistant" "Keeps the company on track"
    (Some [("morning_brief",
            Automation.mk "8:00 AM daily" (Some "Daily briefing") None
                          (Some ["revenue"; "team"]));
           ("investor_update",
            Automation.mk "Weekly Friday 4:00 PM" None (Some "high") None)])
    (SkillsArray ["email"; "calendar"])
    None None None.

Definition founderAnswers : Answers.t :=
  Answers.mk "founder" None None ["gmail"; "github"; "slack"].

Definition founderConfig : Config.t :=
  generateConfiguration "2026-01-05T08:00:00.000Z" founderAnswers founderTemplate
    (configureIntegrations (Answers.tools founderAnswers)).

(** A template catalog with one role. *)
Definition sampleCatalog (role : string) : Result Template.t :=
  if String.eqb role "founder" then Ok founderTemplate
  else Throw (TemplateNotFound role).

(** The same configuration with the skills in mapping form. *)
Definition mappingTemplate : Template.t :=
  Template.mk "Founder Assistant" "Keeps the company on track"
    (Template.automations founderTemplate)
    (SkillsMapping
       [("email", SkillSpec.mk (Some true) (Some "Inbox triage") []);
        ("calendar", SkillSpec.mk None None [])])
    None None None.

Definition mappingConfig : Config.t :=
  generateConfiguration "2026-01-05T08:00:00.000Z" founderAnswers mappingTemplate
    (configureIntegrations (Answers.tools founderAnswers)).

(** A founder's configuration under a user type that holds a
    separator. *)
Definition nestedTypeConfig : Config.t :=
  generateConfiguration "2026-01-05T08:00:00.000Z"
    (Answers.mk "ops/lead" None None []) founderTemplate [].


(** An automation whose schedule names two periods. *)
Definition teamSync : string * Automation.t :=
  ("team_sync",
   Automation.mk "daily standup, weekly recap" (Some "Team sync") None None).

(** Stand-ins for the serializers, for runs on concrete inputs. *)
Definition sampleYaml (v : Json) : string := "yaml".
Definition sampleJSON (v : Json) (space : option nat) : string := "json".

Definition clawd : Path := ["home"; "clawd"].

(** A file system in which the workspace and its automations directory
    exist. *)
Definition automationsReady : FS :=
  <[ ["home"; "clawd"; "automations"] := Dir ]> {[ ["home"; "clawd"] := Dir ]}.

(* --------------------------------------------------------------------- *)
(* Further runs as scripts, and what makes a script return                *)
(* --------------------------------------------------------------------- *)

(** The paths a step can change. *)
Definition touches (s : Step) (q : Path) : Prop :=
  match s with
  | SEnsure p => In q (prefixes p)
  | SWrite p _ => q = p
  | SFail _ => False
  end.

(** A script checked against the file system it starts from: [D] are the
    directories and [W] the files the steps before have made.  Every
    directory to make is free of regular files, every file to write has
    its parent directory and is not a directory itself. *)
Fixpoint plan (script : list Step) (D W : list Path) (fs : FS) : Prop :=
  match script with
  | [] => True
  | SEnsure p :: rest =>
      (forall q, In q (prefixes p) -> isFile fs q = false /\ ~ In q W)
      /\ plan rest (prefixes p ++ D) W fs
  | SWrite p _ :: rest =>
      (In (dirname p) D \/ fs !! dirname p = Some Dir)
      /\ ~ In (dirname p) W
      /\ fs !! p <> Some Dir
      /\ ~ In p D
      /\ plan rest D (p :: W) fs
  | SFail _ :: _ => False
  end.

(** The state reached from [fs] after making [D] and writing [W]. *)
Definition tracks (cur fs : FS) (D W : list Path) : Prop :=
  (forall q, In q W -> isFile cur q = true)
  /\ (forall q, In q D -> cur !! q = Some Dir)
  /\ (forall q, ~ In q W -> ~ In q D -> cur !! q = fs !! q).

(** [createWorkspaceStructure] as a script. *)
Definition structureScript (workspacePath : Path) : list Step :=
  map (fun dir => SEnsure (workspacePath ++ [dir]))
      ["config"; "automations"; "workflows"; "integrations"; "docs"; "logs"].

Definition skillsConfigPath (workspacePath : Path) : Path :=
  workspacePath ++ ["openclaw-skills-config.json"].

(** The text [configureSkillsForRole] writes around the serialized
    configuration. *)
Definition configSnippet (JSON_stringify : Json -> option nat -> string)
    (skillsConfig : Json) : string :=
"
# Add this to your ~/.openclaw/openclaw.json file:
" +:+ JSON_stringify skillsConfig (Some 2) +:+ "

# Or run: openclaw config patch --raw '" +:+ JSON_stringify skillsConfig None +:+ "'
".

(** [setupWorkspace] of the later revision as a script. *)
Definition workspaceScript (JSON_stringify : Json -> option nat -> string)
    (today : string) (config : Config.t) (workspacePath : Path) : list Step :=
  SEnsure workspacePath
  :: setupScript JSON_stringify today config workspacePath
  ++ [writeStep (skillsConfigPath workspacePath)
                (rmap (configSnippet JSON_stringify) (skillsConfig config))].

(** The steps of [installRequiredSkills] for one skill, and the whole
    installation as a script. *)
Definition skillSteps (JSON_stringify : Json -> option nat -> string)
    (skillsDir : Path) (skill : string) : list Step :=
  [SEnsure (path_join skillsDir skill);
   SWrite (path_join skillsDir skill ++ ["SKILL.md"]) (skillMd skill);
   SWrite (path_join skillsDir skill ++ ["package.json"])
          (JSON_stringify (skillPackage skill) (Some 2))].

Definition installScript (JSON_stringify : Json -> option nat -> string)
    (skills : Skills) (workspacePath : Path) : list Step :=
  SEnsure (workspacePath ++ ["skills"])
  :: match forOf skills with
     | Ok names =>
         flat_map (skillSteps JSON_stringify (workspacePath ++ ["skills"])) names
     | Throw e => [SFail e]
     end.

(** Whether the wizard gets past its system checks. *)
Definition checksPass (env : Env.t) (options : Options.t) : Prop :=
  Options.skipChecks options = true \/ runSystemChecks env = Returned tt.

(** The configuration the wizard assembles from a loaded template. *)
Definition assembled (getUserPreferences : option string -> Answers.t)
    (nowISO : string) (options : Options.t) (template : Template.t) : Config.t :=
  let answers := getUserPreferences (Options.template options) in
  generateConfiguration nowISO answers template
    (configureIntegrations (Answers.tools answers)).

(** A machine with Node.js 20 and OpenClaw on the path, a prompt that
    answers as the sample founder does. *)
Definition sampleEnv : Env.t := Env.mk "v20.11.0" true false.

Definition samplePrompt (preselected : option string) : Answers.t :=
  founderAnswers.

(** A file system holding one file of the user's. *)
Definition keepsake : FS :=
  <[ ["home"; "clawd"; "notes.txt"] := File "mine" ]> (∅ : FS).

(** A Node.js version string: the major number after "v", then the
    rest. *)
Definition nodeVersion (major : nat) (rest : string) : string :=
  "v" +:+ Number_toString major +:+ rest.

(* ===================================================================== *)
(*  Properties                                                            *)
(* ===================================================================== *)

(* --------------------------------------------------------------------- *)
(* Substring tests                                                        *)
(* --------------------------------------------------------------------- *)

Lemma prefix_app (s t : string) : String.prefix s (s +:+ t) = true.
Proof.
  induction s as [|c s IH]; simpl.
  - now destruct t.
  - destruct (ascii_dec c c) as [_|Hne]; [exact IH | now destruct Hne].
Qed.

Lemma includes_here (s t : string) : String_includes (s +:+ t) s = true.
Proof.
  destruct s as [|c s]; simpl.
  - now destruct t.
  - destruct (ascii_dec c c) as [_|Hne]; [| now destruct Hne].
    now rewrite prefix_app.
Qed.

Lemma includes_skip (a t s : string) :
  String_includes t s = true -> String_includes (a +:+ t) s = true.
Proof.
  intros H. induction a as [|c a IH]; simpl; [exact H |].
  rewrite IH. apply orb_true_r.
Qed.

Lemma prefix_split (s x : string) :
  String.prefix x s = true -> exists b, s = x +:+ b.
Proof.
  revert s. induction x as [|c x IH]; intros s H.
  - now exists s.
  - destruct s as [|d s]; cbn in H; [discriminate |].
    destruct (ascii_dec c d) as [->|_]; [| discriminate].
    destruct (IH s H) as [b ->]. now exists b.
Qed.

(** [String_includes] is the substring test: the searched text occurs
    somewhere in the string. *)
Lemma String_includes_spec (s x : string) :
  String_includes s x = true <-> exists a b, s = a +:+ x +:+ b.
Proof.
  split.
  - induction s as [|c s IH]; cbn [String_includes].
    + rewrite orb_false_r. intros H. apply prefix_split in H.
      destruct H as [b ->]. now exists "", b.
    + intros H. apply orb_true_iff in H. destruct H as [H|H].
      * apply prefix_split in H. destruct H as [b ->]. now exists "", b.
      * destruct (IH H) as (a & b & ->). now exists (String c a), b.
  - intros (a & b & ->). apply includes_skip, includes_here.
Qed.

Example titleCase_morning_brief : titleCase "morning_brief" = "Morning Brief".
Proof. reflexivity. Qed.

Example titleCase_hyphen_digit : titleCase "pr-review_bot9_x" = "Pr-Review Bot9 X".
Proof. reflexivity. Qed.

Example Number_toString_12 : Number_toString 12 = "12".
Proof. reflexivity. Qed.

Lemma includes_prefix (t s : string) :
  String.prefix s t = true -> String_includes t s = true.
Proof. intros H. destruct t; cbn [String_includes]; now rewrite H. Qed.

Lemma includes_skip_char (c : ascii) (t s : string) :
  String_includes t s = true -> String_includes (String c t) s = true.
Proof. intros H. cbn [String_includes]. rewrite H. apply orb_true_r. Qed.

(** Walks through a rendered text, over literal characters and over
    interpolated values, up to a place where the searched text starts. *)
Ltac find_substring :=
  repeat first [ apply includes_prefix; reflexivity
               | apply includes_skip_char
               | apply includes_skip ].

Lemma Array_includes_In (xs : list string) (x : string) :
  Array_includes xs x = true <-> In x xs.
Proof.
  unfold Array_includes. rewrite existsb_exists. split.
  - intros [y [Hy Heq]]. apply String.eqb_eq in Heq. now subst.
  - intros H. exists x. split; [exact H | apply String.eqb_refl].
Qed.

Lemma Array_includes_filter_recognized (tools : list string) (x : string) :
  recognized x = true ->
  Array_includes (List.filter recognized tools) x = Array_includes tools x.
Proof.
  intros Hx. unfold Array_includes.
  induction tools as [|t tools IH]; [reflexivity |].
  cbn [List.filter existsb]. destruct (recognized t) eqn:Ht.
  - cbn [existsb]. now rewrite IH.
  - rewrite IH. destruct (String.eqb x t) eqn:Hxt; [| reflexivity].
    apply String.eqb_eq in Hxt. subst. congruence.
Qed.

Lemma configureIntegrations_ext (xs ys : list string) :
  (forall x, recognized x = true -> Array_includes xs x = Array_includes ys x) ->
  configureIntegrations xs = configureIntegrations ys.
Proof.
  intros H. unfold configureIntegrations.
  now rewrite !H by reflexivity.
Qed.

(** The entry stored under each key, as a function of the selection. *)
Lemma configureIntegrations_property (tools : list string) (key : string) :
  property (configureIntegrations tools) key =
    if String.eqb key "email"
    then (if Array_includes tools "gmail" then Some emailIntegration else None)
    else if String.eqb key "calendar"
    then (if Array_includes tools "calendar" then Some calendarIntegration else None)
    else if String.eqb key "github"
    then (if Array_includes tools "github" then Some githubIntegration else None)
    else if String.eqb key "social"
    then (if Array_includes tools "social" then Some socialIntegration else None)
    else None.
Proof.
  unfold configureIntegrations.
  destruct (Array_includes tools "gmail"), (Array_includes tools "calendar"),
    (Array_includes tools "github"), (Array_includes tools "social");
    cbn [app property];
    rewrite ?(String.eqb_sym _ key);
    destruct (String.eqb key "email") eqn:E1;
    try (apply String.eqb_eq in E1; subst key; reflexivity);
    destruct (String.eqb key "calendar") eqn:E2;
    try (apply String.eqb_eq in E2; subst key; reflexivity);
    destruct (String.eqb key "github") eqn:E3;
    try (apply String.eqb_eq in E3; subst key; reflexivity);
    destruct (String.eqb key "social") eqn:E4;
    try (apply String.eqb_eq in E4; subst key; reflexivity);
    reflexivity.
Qed.

(** C6. Each recognized identifier expands to one entry with fixed
    content ("gmail" to the email entry, "calendar", "github" and
    "social" to the entries of the same name; the github entry is
    [{features: [pr_reviews, issue_tracking, repo_analytics]}]);
    identifiers that are not recognized do not change the result, and
    nothing is raised for them; assembling a configuration fails only
    when the template lookup does, with the lookup's error, which is
    TemplateNotFound when that is what the lookup raises. *)
Theorem C6_integrations_expand_and_assembly_total
    (loadTemplate : string -> Result Template.t) (nowISO : string)
    (answers : Answers.t) (tools : list string) :
  property (configureIntegrations tools) "email"
    = (if Array_includes tools "gmail"
       then Some (Integration.mk (Some "gmail") None
                    ["automation"; "smart_inbox"; "scheduling"])
       else None)
  /\ property (configureIntegrations tools) "calendar"
    = (if Array_includes tools "calendar"
       then Some (Integration.mk (Some "google") None
                    ["scheduling"; "meeting_prep"; "availability"])
       else None)
  /\ property (configureIntegrations tools) "github"
    = (if Array_includes tools "github"
       then Some (Integration.mk None None
                    ["pr_reviews"; "issue_tracking"; "repo_analytics"])
       else None)
  /\ property (configureIntegrations tools) "social"
    = (if Array_includes tools "social"
       then Some (Integration.mk None (Some ["linkedin"; "twitter"])
                    ["content_scheduling"; "analytics"; "engagement"])
       else None)
  /\ configureIntegrations tools
     = configureIntegrations (List.filter recognized tools)
  /\ match assemble loadTemplate nowISO answers with
     | Ok config =>
         loadTemplate (Answers.userType answers) = Ok (Config.template config)
         /\ User.type (Config.user config) = Answers.userType answers
         /\ Config.integrations config
            = configureIntegrations (Answers.tools answers)
     | Throw e => loadTemplate (Answers.userType answers) = Throw e
     end
  /\ ((forall role e, loadTemplate role = Throw e -> e = TemplateNotFound role) ->
      forall e,
        assemble loadTemplate nowISO answers = Throw e ->
        e = TemplateNotFound (Answers.userType answers)).
Proof.
  repeat split; try (rewrite configureIntegrations_property; reflexivity).
  - apply configureIntegrations_ext. intros x Hx.
    symmetry. now apply Array_includes_filter_recognized.
  - unfold assemble.
    destruct (loadTemplate (Answers.userType answers)) as [template|e];
      repeat split.
  - intros Hlookup e. unfold assemble.
    destruct (loadTemplate (Answers.userType answers)) as [template|e'] eqn:Hl;
      [discriminate |].
    intros He. inversion He; subst. now apply Hlookup.
Qed.

Lemma C6_integrations_expand_and_assembly_total_witness :
  assemble sampleCatalog "2026-01-05T08:00:00.000Z" founderAnswers
    = Ok founderConfig
  /\ forall e,
       assemble sampleCatalog "2026-01-05T08:00:00.000Z"
                (Answers.mk "pilot" None None ["gmail"]) = Throw e ->
       e = TemplateNotFound "pilot".
Proof.
  split; [reflexivity |].
  destruct (C6_integrations_expand_and_assembly_total sampleCatalog
              "2026-01-05T08:00:00.000Z"
              (Answers.mk "pilot" None None ["gmail"]) [])
    as (_ & _ & _ & _ & _ & _ & Honly).
  apply Honly. intros role e. unfold sampleCatalog.
  destruct (String.eqb role "founder"); [discriminate |].
  intros H. now inversion H.
Defined.

(** C10. The keys of the result are among email, calendar, github and
    social; the email entry is there exactly when "gmail" was selected,
    and selecting "email" adds nothing; every entry is one of four fixed
    records, whatever else was selected. *)
Theorem C10_integration_keys_and_constants (tools : list string) :
  incl (Object_keys (configureIntegrations tools))
       ["email"; "calendar"; "github"; "social"]
  /\ (In "email" (Object_keys (configureIntegrations tools)) <-> In "gmail" tools)
  /\ configureIntegrations ("email" :: tools) = configureIntegrations tools
  /\ configureIntegrations ["email"] = []
  /\ incl (configureIntegrations tools)
          [("email", emailIntegration); ("calendar", calendarIntegration);
           ("github", githubIntegration); ("social", socialIntegration)].
Proof.
  assert (Hshape :
    forall b1 b2 b3 b4 : bool,
      let r := (if b1 then [("email", emailIntegration)] else [])
               ++ (if b2 then [("calendar", calendarIntegration)] else [])
               ++ (if b3 then [("github", githubIntegration)] else [])
               ++ (if b4 then [("social", socialIntegration)] else []) in
      incl (Object_keys r) ["email"; "calendar"; "github"; "social"]
      /\ (In "email" (Object_keys r) <-> b1 = true)
      /\ incl r [("email", emailIntegration); ("calendar", calendarIntegration);
                 ("github", githubIntegration); ("social", socialIntegration)]).
  { intros [] [] [] []; cbn; repeat split;
      try (intros x Hx; cbn in *; intuition (subst; auto; fail));
      try (intros H; cbn in H; intuition congruence);
      try (intros _; cbn; auto);
      try discriminate. }
  assert (Heq :
    configureIntegrations tools
    = (if Array_includes tools "gmail" then [("email", emailIntegration)] else [])
      ++ (if Array_includes tools "calendar"
          then [("calendar", calendarIntegration)] else [])
      ++ (if Array_includes tools "github"
          then [("github", githubIntegration)] else [])
      ++ (if Array_includes tools "social"
          then [("social", socialIntegration)] else [])).
  { unfold configureIntegrations.
    destruct (Array_includes tools "gmail"), (Array_includes tools "calendar"),
      (Array_includes tools "github"), (Array_includes tools "social");
      reflexivity. }
  destruct (Hshape (Array_includes tools "gmail") (Array_includes tools "calendar")
              (Array_includes tools "github") (Array_includes tools "social"))
    as (Hkeys & Hemail & Hconst).
  cbv zeta in Hkeys, Hemail, Hconst. rewrite <- Heq in Hkeys, Hemail, Hconst.
  split; [exact Hkeys |].
  split; [now rewrite Hemail, Array_includes_In |].
  split; [| split; [reflexivity | exact Hconst]].
  apply configureIntegrations_ext. intros x Hx.
  cbn [Array_includes existsb].
  destruct (String.eqb x "email") eqn:E; [| reflexivity].
  apply String.eqb_eq in E. subst x. discriminate Hx.
Qed.

Lemma C10_integration_keys_and_constants_witness :
  In "email" (Object_keys (configureIntegrations ["gmail"; "github"; "slack"]))
  /\ In ("github", githubIntegration)
        [("email", emailIntegration); ("calendar", calendarIntegration);
         ("github", githubIntegration); ("social", socialIntegration)].
Proof.
  destruct (C10_integration_keys_and_constants ["gmail"; "github"; "slack"])
    as (_ & Hemail & _ & _ & Hconst).
  split.
  - apply Hemail. left. reflexivity.
  - apply Hconst. right. left. reflexivity.
Defined.

(* --------------------------------------------------------------------- *)
(* AGENTS.md                                                              *)
(* --------------------------------------------------------------------- *)

Lemma agentsSkills_ok (skills : Skills) :
  exists text, agentsSkills skills = Ok text.
Proof. destruct skills; cbn; eexists; reflexivity. Qed.

(** C9. Whatever the user type and the template, AGENTS.md is rendered,
    its text contains the template's name and the value of [user.type],
    and that text is what [generateAgentsFile] writes to AGENTS.md. *)
Theorem C9_agents_file_names_template_and_role (config : Config.t) :
  exists content,
    agentsContent config = Ok content
    /\ String_includes content (Template.name (Config.template config)) = true
    /\ String_includes content (User.type (Config.user config)) = true
    /\ forall workspacePath fs,
         generateAgentsFile config workspacePath fs
         = writeFile (workspacePath ++ ["AGENTS.md"]) content fs.
Proof.
  unfold generateAgentsFile, agentsContent.
  destruct (agentsSkills_ok (Template.skills (Config.template config)))
    as [text Htext].
  rewrite Htext. cbn [rbind]. eexists. split; [reflexivity |].
  split; [| split].
  - apply includes_skip, includes_here.
  - do 7 apply includes_skip. apply includes_here.
  - reflexivity.
Qed.

(* --------------------------------------------------------------------- *)
(* HEARTBEAT.md                                                           *)
(* --------------------------------------------------------------------- *)

Lemma filterBoolean_app (xs ys : list (option string)) :
  filterBoolean (xs ++ ys) = filterBoolean xs ++ filterBoolean ys.
Proof.
  induction xs as [|[[|c s]|] xs IH]; cbn; now rewrite ?IH.
Qed.

Lemma filterBoolean_In (xs : list (option string)) (s : string) :
  In s (filterBoolean xs) <-> In (Some s) xs /\ s <> "".
Proof.
  induction xs as [|[[|c t]|] xs IH]; cbn.
  - tauto.
  - rewrite IH. split.
    + intros [H1 H2]. auto.
    + intros [[H|H] Hne]; [| auto]. inversion H. subst. now destruct Hne.
  - rewrite IH. split.
    + intros [H|[H1 H2]]; [subst; split; [auto | discriminate] | auto].
    + intros [[H|H] Hne]; [inversion H; auto | auto].
  - rewrite IH. split.
    + intros [H1 H2]. auto.
    + intros [[H|H] Hne]; [discriminate | auto].
Qed.

Lemma task_dropped (task : string * Automation.t -> option string)
    (l1 l2 : Automations) (e : string * Automation.t) :
  task e = None ->
  heartbeatSection task (Some (l1 ++ e :: l2))
  = heartbeatSection task (Some (l1 ++ l2)).
Proof.
  intros He. unfold heartbeatSection.
  rewrite !map_app, !filterBoolean_app. cbn [map filterBoolean].
  now rewrite He.
Qed.

Lemma dailyTask_Some (e : string * Automation.t) :
  isSome (dailyTask e) = String_includes (Automation.schedule (snd e)) "daily".
Proof. unfold dailyTask. now destruct (String_includes _ "daily"). Qed.

Lemma weeklyTask_Some (e : string * Automation.t) :
  isSome (weeklyTask e)
  = String_includes (Automation.schedule (snd e)) "Weekly"
    || String_includes (Automation.schedule (snd e)) "weekly".
Proof. unfold weeklyTask. now destruct (_ || _). Qed.

Lemma monthlyTask_Some (e : string * Automation.t) :
  isSome (monthlyTask e)
  = String_includes (Automation.schedule (snd e)) "Monthly"
    || String_includes (Automation.schedule (snd e)) "monthly".
Proof. unfold monthlyTask. now destruct (_ || _). Qed.

Lemma dailyTask_nonempty (e : string * Automation.t) (block : string) :
  dailyTask e = Some block -> block <> "".
Proof.
  unfold dailyTask. destruct (String_includes _ "daily"); [| discriminate].
  intros H. inversion H. discriminate.
Qed.

Lemma weeklyTask_nonempty (e : string * Automation.t) (block : string) :
  weeklyTask e = Some block -> block <> "".
Proof.
  unfold weeklyTask. destruct (_ || _); [| discriminate].
  intros H. inversion H. discriminate.
Qed.

Lemma monthlyTask_nonempty (e : string * Automation.t) (block : string) :
  monthlyTask e = Some block -> block <> "".
Proof.
  unfold monthlyTask. destruct (_ || _); [| discriminate].
  intros H. inversion H. discriminate.
Qed.

Lemma isSome_None {A : Type} (o : option A) : isSome o = false -> o = None.
Proof. now destruct o. Qed.

Lemma dailyTask_block (e : string * Automation.t) :
  dailyTask e
  = if inBucket Daily (Automation.schedule (snd e))
    then Some (taskBlock Daily e) else None.
Proof.
  unfold dailyTask, inBucket, taskBlock.
  destruct (String_includes _ "daily"); [| reflexivity].
  destruct (Automation.includes (snd e)); reflexivity.
Qed.

Lemma weeklyTask_block (e : string * Automation.t) :
  weeklyTask e
  = if inBucket Weekly (Automation.schedule (snd e))
    then Some (taskBlock Weekly e) else None.
Proof.
  unfold weeklyTask, inBucket, taskBlock.
  destruct (_ || _); [| reflexivity].
  destruct (Automation.includes (snd e)); reflexivity.
Qed.

Lemma monthlyTask_block (e : string * Automation.t) :
  monthlyTask e
  = if inBucket Monthly (Automation.schedule (snd e))
    then Some (taskBlock Monthly e) else None.
Proof.
  unfold monthlyTask, inBucket, taskBlock.
  destruct (_ || _); [| reflexivity].
  destruct (Automation.includes (snd e)); reflexivity.
Qed.

(** What survives [.filter(Boolean)] in a section are the blocks of the
    bucket's automations: a block is never the empty string. *)
Lemma section_blocks (task : string * Automation.t -> option string)
    (b : Bucket) (automations : Automations) :
  (forall e, task e = if inBucket b (Automation.schedule (snd e))
                      then Some (taskBlock b e) else None) ->
  filterBoolean (map task automations)
  = map (taskBlock b) (bucketOf b automations).
Proof.
  intros Htask. induction automations as [|e rest IH]; [reflexivity |].
  cbn [map filterBoolean bucketOf List.filter]. rewrite Htask.
  fold (bucketOf b rest).
  destruct (inBucket b (Automation.schedule (snd e)));
    [| exact IH].
  cbn [map]. rewrite <- IH. reflexivity.
Qed.

Lemma heartbeat_sections (automations : Automations) :
  heartbeatSection dailyTask (Some automations) = sectionText Daily automations
  /\ heartbeatSection weeklyTask (Some automations)
     = sectionText Weekly automations
  /\ heartbeatSection monthlyTask (Some automations)
     = sectionText Monthly automations.
Proof.
  unfold heartbeatSection, sectionText.
  rewrite (section_blocks dailyTask Daily) by apply dailyTask_block.
  rewrite (section_blocks weeklyTask Weekly) by apply weeklyTask_block.
  rewrite (section_blocks monthlyTask Monthly) by apply monthlyTask_block.
  auto.
Qed.

(** HEARTBEAT.md is its fixed text around the blocks of the daily, the
    weekly and the monthly bucket. *)
Lemma heartbeat_layout (config : Config.t) (automations : Automations) :
  Template.automations (Config.template config) = Some automations ->
  heartbeatContent config
  = heartbeatLayout (Template.name (Config.template config))
      (User.type (Config.user config))
      (sectionText Daily automations) (sectionText Weekly automations)
      (sectionText Monthly automations).
Proof.
  intros Hautos. unfold heartbeatContent. rewrite Hautos.
  destruct (heartbeat_sections automations) as (-> & -> & ->).
  reflexivity.
Qed.

Lemma sectionsOf_classify (e : string * Automation.t) :
  sectionsOf e = classify (Automation.schedule (snd e)).
Proof.
  unfold sectionsOf, classify.
  rewrite dailyTask_block, weeklyTask_block, monthlyTask_block.
  cbn [List.filter].
  destruct (inBucket Daily _), (inBucket Weekly _), (inBucket Monthly _);
    reflexivity.
Qed.

Lemma bucketOf_split (b : Bucket) (l1 l2 : Automations)
    (e : string * Automation.t) :
  map (taskBlock b) (bucketOf b (l1 ++ e :: l2)) = blocksWith b l1 e l2.
Proof.
  unfold bucketOf, blocksWith. rewrite List.filter_app. cbn [List.filter].
  rewrite map_app.
  destruct (inBucket b (Automation.schedule (snd e))); reflexivity.
Qed.

(** C3. HEARTBEAT.md is its fixed text around three sections, and each
    section holds the blocks of the automations whose schedule is in its
    bucket, in the template's order: the daily section those whose
    schedule contains lowercase "daily", the weekly section those with
    "Weekly" or "weekly", the monthly section those with "Monthly" or
    "monthly".  The four schedules named by the specification fall in the
    daily, the weekly, the monthly and in no bucket, a capitalized
    "Daily" in none; and an automation that falls in no bucket leaves no
    trace: every section, and so the document, is the one rendered
    without it. *)
Theorem C3_schedule_classification :
  (forall e,
      isSome (dailyTask e)
      = String_includes (Automation.schedule (snd e)) "daily")
  /\ (forall e,
      isSome (weeklyTask e)
      = String_includes (Automation.schedule (snd e)) "Weekly"
        || String_includes (Automation.schedule (snd e)) "weekly")
  /\ (forall e,
      isSome (monthlyTask e)
      = String_includes (Automation.schedule (snd e)) "Monthly"
        || String_includes (Automation.schedule (snd e)) "monthly")
  /\ (forall name d p i,
      sectionsOf (name, Automation.mk "8:00 AM daily" d p i) = [Daily]
      /\ sectionsOf (name, Automation.mk "Weekly Friday 4:00 PM" d p i) = [Weekly]
      /\ sectionsOf (name, Automation.mk "weekly review" d p i) = [Weekly]
      /\ sectionsOf (name, Automation.mk "Monthly Report" d p i) = [Monthly]
      /\ sectionsOf (name, Automation.mk "monthly report" d p i) = [Monthly]
      /\ sectionsOf (name, Automation.mk "On PR creation" d p i) = []
      /\ sectionsOf (name, Automation.mk "8:00 AM Daily" d p i) = []
      /\ sectionsOf (name, Automation.mk "8:00 AM DAILY" d p i) = [])
  /\ (forall config l1 e l2,
      sectionsOf e = [] ->
      heartbeatContent (withAutomations config (Some (l1 ++ e :: l2)))
      = heartbeatContent (withAutomations config (Some (l1 ++ l2))))
  /\ (classify "8:00 AM daily" = [Daily]
      /\ classify "Weekly Friday 4:00 PM" = [Weekly]
      /\ classify "Monthly Report" = [Monthly]
      /\ classify "On PR creation" = []
      /\ classify "8:00 AM Daily" = [])
  /\ (forall config automations,
      Template.automations (Config.template config) = Some automations ->
      heartbeatContent config
      = heartbeatLayout (Template.name (Config.template config))
          (User.type (Config.user config))
          (sectionText Daily automations) (sectionText Weekly automations)
          (sectionText Monthly automations))
  /\ (forall b l1 e l2,
      classify (Automation.schedule (snd e)) = [] ->
      sectionText b (l1 ++ e :: l2) = sectionText b (l1 ++ l2)).
Proof.
  split; [exact dailyTask_Some |].
  split; [exact weeklyTask_Some |].
  split; [exact monthlyTask_Some |].
  split; [intros name d p i; repeat split; reflexivity |].
  split.
  - intros config l1 e l2 He. unfold sectionsOf in He.
    destruct (isSome (dailyTask e)) eqn:Hd; [discriminate |].
    destruct (isSome (weeklyTask e)) eqn:Hw; [discriminate |].
    destruct (isSome (monthlyTask e)) eqn:Hm; [discriminate |].
    apply isSome_None in Hd, Hw, Hm.
    unfold heartbeatContent, withAutomations.
    cbn [Config.template Config.user Template.automations Template.name].
    now rewrite !task_dropped by assumption.
  - split; [repeat split; reflexivity |].
    split; [exact heartbeat_layout |].
    intros b l1 e l2 He. unfold sectionText. rewrite bucketOf_split.
    unfold blocksWith, bucketOf.
    assert (Hout : inBucket b (Automation.schedule (snd e)) = false).
    { unfold classify in He. cbn [List.filter] in He.
      destruct b;
        destruct (inBucket Daily _), (inBucket Weekly _), (inBucket Monthly _);
        try discriminate He; reflexivity. }
    rewrite Hout, List.filter_app, map_app. reflexivity.
Qed.

Lemma C3_schedule_classification_witness :
  heartbeatContent founderConfig
  = heartbeatLayout "Founder Assistant" "founder"
      (taskBlock Daily
         ("morning_brief",
          Automation.mk "8:00 AM daily" (Some "Daily briefing") None
                        (Some ["revenue"; "team"])))
      (taskBlock Weekly
         ("investor_update",
          Automation.mk "Weekly Friday 4:00 PM" None (Some "high") None))
      "".
Proof.
  destruct C3_schedule_classification as (_ & _ & _ & _ & _ & _ & Hlayout & _).
  exact (Hlayout founderConfig
           [("morning_brief",
             Automation.mk "8:00 AM daily" (Some "Daily briefing") None
                           (Some ["revenue"; "team"]));
            ("investor_update",
             Automation.mk "Weekly Friday 4:00 PM" None (Some "high") None)]
           eq_refl).
Defined.

Lemma renderedIn_iff (task : string * Automation.t -> option string)
    (automations : Automations) (e : string * Automation.t) :
  (forall block, task e = Some block -> block <> "") ->
  In e automations ->
  renderedIn task automations e <-> isSome (task e) = true.
Proof.
  intros Hne Hin. unfold renderedIn. split.
  - intros [block [Hb _]]. now rewrite Hb.
  - destruct (task e) as [block|] eqn:Hb; [intros _ | discriminate].
    exists block. split; [reflexivity |].
    apply filterBoolean_In. split; [| now apply Hne].
    rewrite <- Hb. now apply in_map.
Qed.

(** C4, as stated, fails: an automation whose schedule contains both
    "daily" and "weekly" is rendered twice in HEARTBEAT.md, with its
    daily block in the daily section and its weekly block in the weekly
    section. *)
Lemma C4_counterexample_rendered_twice :
  sectionsOf teamSync = [Daily; Weekly]
  /\ heartbeatContent (withAutomations founderConfig (Some [teamSync]))
     = heartbeatLayout "Founder Assistant" "founder"
         (taskBlock Daily teamSync) (taskBlock Weekly teamSync) ""
  /\ String_includes (taskBlock Daily teamSync) "### Team Sync" = true
  /\ String_includes (taskBlock Weekly teamSync) "### Team Sync" = true
  /\ String_includes (heartbeatSection dailyTask (Some [teamSync]))
       "### Team Sync" = true
  /\ String_includes (heartbeatSection weeklyTask (Some [teamSync]))
       "### Team Sync" = true.
Proof. repeat split; reflexivity. Qed.

(** C4, amended. The three sections of HEARTBEAT.md are filled
    independently, each by its own test, with no priority among them.
    For a template whose automations are [l1], then [e], then [l2], the
    document is its fixed text around three sections, and [e] adds its
    block to the daily section exactly when its schedule contains
    "daily", to the weekly section exactly when it contains "Weekly" or
    "weekly", to the monthly section exactly when it contains "Monthly"
    or "monthly": to every section whose test it passes. *)
Theorem C4_sections_filled_independently (config : Config.t)
    (l1 l2 : Automations) (e : string * Automation.t) :
  Template.automations (Config.template config) = Some (l1 ++ e :: l2) ->
  heartbeatContent config
  = heartbeatLayout (Template.name (Config.template config))
      (User.type (Config.user config))
      (join nl (blocksWith Daily l1 e l2)) (join nl (blocksWith Weekly l1 e l2))
      (join nl (blocksWith Monthly l1 e l2))
  /\ (renderedIn dailyTask (l1 ++ e :: l2) e
      <-> String_includes (Automation.schedule (snd e)) "daily" = true)
  /\ (renderedIn weeklyTask (l1 ++ e :: l2) e
      <-> String_includes (Automation.schedule (snd e)) "Weekly"
          || String_includes (Automation.schedule (snd e)) "weekly" = true)
  /\ (renderedIn monthlyTask (l1 ++ e :: l2) e
      <-> String_includes (Automation.schedule (snd e)) "Monthly"
          || String_includes (Automation.schedule (snd e)) "monthly" = true)
  /\ sectionsOf e
     = (if String_includes (Automation.schedule (snd e)) "daily"
        then [Daily] else [])
       ++ (if String_includes (Automation.schedule (snd e)) "Weekly"
              || String_includes (Automation.schedule (snd e)) "weekly"
           then [Weekly] else [])
       ++ (if String_includes (Automation.schedule (snd e)) "Monthly"
              || String_includes (Automation.schedule (snd e)) "monthly"
           then [Monthly] else []).
Proof.
  intros Hautos.
  assert (Hin : In e (l1 ++ e :: l2)) by (apply in_elt).
  split; [| split; [| split; [| split]]].
  - rewrite (heartbeat_layout config _ Hautos). unfold sectionText.
    now rewrite !bucketOf_split.
  - rewrite <- dailyTask_Some.
    apply renderedIn_iff; [apply dailyTask_nonempty | exact Hin].
  - rewrite <- weeklyTask_Some.
    apply renderedIn_iff; [apply weeklyTask_nonempty | exact Hin].
  - rewrite <- monthlyTask_Some.
    apply renderedIn_iff; [apply monthlyTask_nonempty | exact Hin].
  - unfold sectionsOf.
    now rewrite dailyTask_Some, weeklyTask_Some, monthlyTask_Some.
Qed.

Lemma C4_sections_filled_independently_witness :
  heartbeatContent (withAutomations founderConfig (Some [teamSync]))
  = heartbeatLayout "Founder Assistant" "founder"
      (join nl (blocksWith Daily [] teamSync []))
      (join nl (blocksWith Weekly [] teamSync []))
      (join nl (blocksWith Monthly [] teamSync []))
  /\ renderedIn dailyTask [teamSync] teamSync
  /\ renderedIn weeklyTask [teamSync] teamSync.
Proof.
  destruct (C4_sections_filled_independently
              (withAutomations founderConfig (Some [teamSync])) [] [] teamSync
              eq_refl) as (Hdoc & Hd & Hw & _).
  split; [exact Hdoc |].
  split; [apply Hd | apply Hw]; reflexivity.
Defined.

(* --------------------------------------------------------------------- *)
(* File system steps                                                      *)
(* --------------------------------------------------------------------- *)

Lemma isDir_true (fs : FS) (p : Path) : isDir fs p = true <-> fs !! p = Some Dir.
Proof.
  unfold isDir. destruct (fs !! p) as [[|c]|]; split; congruence.
Qed.

Lemma isDir_false (fs : FS) (p : Path) : isDir fs p = false <-> fs !! p <> Some Dir.
Proof.
  unfold isDir. destruct (fs !! p) as [[|c]|]; split; congruence.
Qed.

Lemma In_Path_dec (q : Path) (ps : list Path) : {In q ps} + {~ In q ps}.
Proof. apply List.in_dec, List.list_eq_dec, String.string_dec. Qed.

Lemma mkdirs_lookup_in (ps : list Path) (fs : FS) (q : Path) :
  In q ps -> mkdirs ps fs !! q = Some Dir.
Proof.
  induction ps as [|p ps IH]; cbn; [tauto |].
  intros [->|Hin]; [apply lookup_insert_eq |].
  destruct (decide (p = q)) as [->|Hne]; [apply lookup_insert_eq |].
  rewrite lookup_insert_ne by exact Hne. now apply IH.
Qed.

Lemma mkdirs_lookup_notin (ps : list Path) (fs : FS) (q : Path) :
  ~ In q ps -> mkdirs ps fs !! q = fs !! q.
Proof.
  induction ps as [|p ps IH]; cbn; [reflexivity |].
  intros Hnot. rewrite lookup_insert_ne by (intros ->; apply Hnot; now left).
  apply IH. intros Hin. apply Hnot. now right.
Qed.

Lemma mkdirs_id (ps : list Path) (fs : FS) :
  (forall q, In q ps -> fs !! q = Some Dir) -> mkdirs ps fs = fs.
Proof.
  intros H. apply map_eq. intros q.
  destruct (In_Path_dec q ps) as [Hin|Hnot].
  - rewrite mkdirs_lookup_in by exact Hin. symmetry. now apply H.
  - now apply mkdirs_lookup_notin.
Qed.

Lemma ensureDir_ok (p : Path) (fs fs' : FS) :
  ensureDir p fs = (Ok tt, fs') <->
  (forall q, In q (prefixes p) -> isFile fs q = false)
  /\ fs' = mkdirs (prefixes p) fs.
Proof.
  unfold ensureDir.
  destruct (existsb (isFile fs) (prefixes p)) eqn:Hex.
  - split; [discriminate |]. intros [Hall _].
    apply existsb_exists in Hex. destruct Hex as [q [Hq Hf]].
    rewrite Hall in Hf by exact Hq. discriminate.
  - split.
    + intros H. inversion H. split; [| reflexivity].
      intros q Hq. destruct (isFile fs q) eqn:Hf; [| reflexivity].
      assert (existsb (isFile fs) (prefixes p) = true) as Hc
        by (apply existsb_exists; eauto).
      congruence.
    + intros [_ ->]. reflexivity.
Qed.

Lemma writeFile_ok (p : Path) (content : string) (fs fs' : FS) :
  writeFile p content fs = (Ok tt, fs') <->
  fs !! dirname p = Some Dir /\ fs !! p <> Some Dir
  /\ fs' = <[p := File content]> fs.
Proof.
  unfold writeFile. rewrite <- isDir_true, <- isDir_false.
  destruct (isDir fs (dirname p)), (isDir fs p); cbn; split;
    try discriminate; try (intros (? & ? & ?); discriminate).
  - intros H. inversion H. auto.
  - intros (_ & _ & ->). reflexivity.
Qed.

Lemma exec_throw_state (s : Step) (fs fs' : FS) (e : Error) :
  exec s fs = (Throw e, fs') -> fs' = fs.
Proof.
  destruct s as [p|p c|e']; cbn.
  - unfold ensureDir. destruct (existsb _ _); congruence.
  - unfold writeFile. destruct (negb _); [congruence |].
    destruct (isDir fs p); congruence.
  - unfold throw. congruence.
Qed.

Lemma stable_exec (s : Step) (fs : FS) : stable s fs -> exec s fs = (Ok tt, fs).
Proof.
  destruct s as [p|p c|e]; cbn; [| | tauto].
  - intros H. apply ensureDir_ok. split.
    + intros q Hq. unfold isFile. now rewrite (H q Hq).
    + symmetry. now apply mkdirs_id.
  - intros [Hd Hp]. apply writeFile_ok. split; [exact Hd |].
    split; [congruence |]. symmetry. now apply insert_id.
Qed.

Lemma exec_stable (s : Step) (fs fs' : FS) :
  exec s fs = (Ok tt, fs') -> stable s fs'.
Proof.
  destruct s as [p|p c|e]; cbn.
  - intros H. apply ensureDir_ok in H. destruct H as [_ ->].
    intros q Hq. now apply mkdirs_lookup_in.
  - intros H. apply writeFile_ok in H. destruct H as (Hd & Hp & ->).
    split; [| apply lookup_insert_eq].
    rewrite lookup_insert_ne by congruence. exact Hd.
  - unfold throw. discriminate.
Qed.

Lemma stable_preserved (s s' : Step) (fs fs' : FS) :
  compat s s' -> stable s fs -> exec s' fs = (Ok tt, fs') -> stable s fs'.
Proof.
  destruct s' as [q|q d|e']; cbn [exec].
  - intros _ Hs H. apply ensureDir_ok in H. destruct H as [Hfree ->].
    destruct s as [p|p c|e]; cbn in *; [| | tauto].
    + intros r Hr.
      destruct (In_Path_dec r (prefixes q)) as [Hin|Hnot].
      * now apply mkdirs_lookup_in.
      * rewrite mkdirs_lookup_notin by exact Hnot. now apply Hs.
    + destruct Hs as [Hd Hp]. split.
      * destruct (In_Path_dec (dirname p) (prefixes q))
          as [Hin|Hnot].
        -- now apply mkdirs_lookup_in.
        -- now rewrite mkdirs_lookup_notin.
      * rewrite mkdirs_lookup_notin; [exact Hp |].
        intros Hin. apply Hfree in Hin. unfold isFile in Hin.
        rewrite Hp in Hin. discriminate.
  - intros Hc Hs H. apply writeFile_ok in H. destruct H as (Hqd & Hq & ->).
    destruct s as [p|p c|e]; cbn in *; [| | tauto].
    + intros r Hr. rewrite lookup_insert_ne; [now apply Hs |].
      intros ->. apply Hq. now apply Hs.
    + destruct Hs as [Hd Hp]. split.
      * rewrite lookup_insert_ne; [exact Hd | congruence].
      * rewrite lookup_insert_ne; [exact Hp | congruence].
  - unfold throw. discriminate.
Qed.

Lemma run_cons (s : Step) (rest : list Step) (fs : FS) :
  run (s :: rest) fs
  = match exec s fs with
    | (Ok _, fs1) => run rest fs1
    | (Throw e, fs1) => (Throw e, fs1)
    end.
Proof. reflexivity. Qed.

Lemma run_preserves (rest : list Step) :
  forall (fs fs' : FS) (r : Result unit) (s : Step),
    run rest fs = (r, fs') ->
    (forall s', In s' rest -> compat s s') ->
    stable s fs -> stable s fs'.
Proof.
  induction rest as [|s0 rest IH]; intros fs fs' r s Hrun Hc Hs.
  - cbn in Hrun. unfold ret in Hrun. congruence.
  - rewrite run_cons in Hrun.
    destruct (exec s0 fs) as [[[]|e] fs1] eqn:H0.
    + eapply IH; [exact Hrun | intros s' Hs'; apply Hc; now right |].
      eapply stable_preserved; [apply Hc; now left | exact Hs | exact H0].
    + apply exec_throw_state in H0. congruence.
Qed.

(** Running a script again from the state it left gives the same outcome
    and leaves that state as it is. *)
Lemma run_idempotent (script : list Step) :
  forall (fs fs' : FS) (r : Result unit),
    compatible script ->
    run script fs = (r, fs') -> run script fs' = (r, fs').
Proof.
  induction script as [|s0 rest IH]; intros fs fs' r Hc Hrun.
  - cbn in *. unfold ret in *. congruence.
  - destruct Hc as [Hc0 Hc]. rewrite run_cons in Hrun. rewrite run_cons.
    destruct (exec s0 fs) as [[[]|e] fs1] eqn:H0.
    + assert (Hst : stable s0 fs').
      { eapply run_preserves; [exact Hrun | exact Hc0 |].
        eapply exec_stable; exact H0. }
      rewrite (stable_exec _ _ Hst). eapply IH; eassumption.
    + pose proof (exec_throw_state _ _ _ _ H0) as ->.
      inversion Hrun; subst. now rewrite H0.
Qed.

(** After a run that returned, every step of the script is in effect. *)
Lemma run_stable (script : list Step) :
  forall (fs fs' : FS),
    compatible script ->
    run script fs = (Ok tt, fs') ->
    forall s, In s script -> stable s fs'.
Proof.
  induction script as [|s0 rest IH]; intros fs fs' Hc Hrun s Hin; [easy |].
  destruct Hc as [Hc0 Hc]. rewrite run_cons in Hrun.
  destruct (exec s0 fs) as [[[]|e] fs1] eqn:H0; [| discriminate].
  destruct Hin as [<-|Hin].
  - eapply run_preserves; [exact Hrun | exact Hc0 |].
    eapply exec_stable; exact H0.
  - eapply IH; eassumption.
Qed.

Lemma exec_frame (s : Step) (fs fs' : FS) (r : Result unit) (q : Path) :
  exec s fs = (r, fs') -> ~ writesTo q s -> readFile fs' q = readFile fs q.
Proof.
  destruct s as [p|p c|e]; cbn; intros H Hw.
  - unfold ensureDir in H.
    destruct (existsb (isFile fs) (prefixes p)) eqn:Hex; [congruence |].
    inversion H; subst. unfold readFile.
    destruct (In_Path_dec q (prefixes p)) as [Hin|Hnot].
    + rewrite mkdirs_lookup_in by exact Hin.
      destruct (fs !! q) as [[|c]|] eqn:Hq; try reflexivity.
      assert (existsb (isFile fs) (prefixes p) = true) as Hc.
      { apply existsb_exists. exists q. split; [exact Hin |].
        unfold isFile. now rewrite Hq. }
      congruence.
    + now rewrite mkdirs_lookup_notin.
  - unfold writeFile in H. destruct (negb _); [congruence |].
    destruct (isDir fs p); [congruence |]. inversion H; subst.
    unfold readFile. now rewrite lookup_insert_ne.
  - unfold throw in H. congruence.
Qed.

Lemma run_frame (script : list Step) (q : Path) :
  forall (fs fs' : FS) (r : Result unit),
    run script fs = (r, fs') ->
    (forall s, In s script -> ~ writesTo q s) ->
    readFile fs' q = readFile fs q.
Proof.
  induction script as [|s0 rest IH]; intros fs fs' r Hrun Hw.
  - cbn in Hrun. unfold ret in Hrun. congruence.
  - rewrite run_cons in Hrun.
    destruct (exec s0 fs) as [[[]|e] fs1] eqn:H0.
    + rewrite (IH fs1 fs' r Hrun) by (intros s Hs; apply Hw; now right).
      eapply exec_frame; [exact H0 | apply Hw; now left].
    + inversion Hrun; subst.
      eapply exec_frame; [exact H0 | apply Hw; now left].
Qed.

Lemma written_stable (script : list Step) (fs : FS) (p : Path) (content : string) :
  (forall s, In s script -> stable s fs) ->
  In (p, content) (written script) -> readFile fs p = Some content.
Proof.
  intros Hst Hin. unfold written in Hin. apply in_flat_map in Hin.
  destruct Hin as [s [Hs Hpc]]. specialize (Hst s Hs).
  destruct s as [q|q c|e]; cbn in Hpc; try tauto.
  destruct Hpc as [Heq|[]]. inversion Heq; subst.
  destruct Hst as [_ Hq]. unfold readFile. now rewrite Hq.
Qed.

Lemma not_written_frame (script : list Step) (q : Path) :
  ~ In q (map fst (written script)) ->
  forall s, In s script -> ~ writesTo q s.
Proof.
  intros Hnot s Hs Hw. apply Hnot. apply in_map_iff.
  destruct s as [p|p c|e]; cbn in Hw; try tauto. subst p.
  exists (q, c). split; [reflexivity |].
  unfold written. apply in_flat_map. exists (SWrite q c). split; [exact Hs |].
  now left.
Qed.

Lemma dirname_app (p : Path) (x : string) : dirname (p ++ [x]) = p.
Proof. apply removelast_last. Qed.

Ltac path_neq :=
  let H := fresh in
  intros H; rewrite <- ?app_assoc in H; apply app_inv_head in H; discriminate H.

Lemma prefixes_self (p : Path) : In p (prefixes p).
Proof.
  induction p as [|x p IH]; cbn; [now left |].
  right. now apply in_map.
Qed.

Lemma prefixes_prefix (p q : Path) : In q (prefixes p) -> exists r, p = q ++ r.
Proof.
  revert q. induction p as [|x p IH]; intros q; cbn.
  - intros [<-|[]]. now exists [].
  - intros [<-|Hin]; [now exists (x :: p) |].
    apply in_map_iff in Hin. destruct Hin as [q' [<- Hq']].
    destruct (IH q' Hq') as [r ->]. now exists r.
Qed.

Lemma prefixes_app (p r q : Path) : In q (prefixes p) -> In q (prefixes (p ++ r)).
Proof.
  revert q. induction p as [|x p IH]; intros q; cbn.
  - intros [<-|[]]. destruct r; cbn; now left.
  - intros [<-|Hin]; [now left |]. right.
    apply in_map_iff in Hin. destruct Hin as [q' [<- Hq']].
    apply in_map. now apply IH.
Qed.

(** A path below [p] by a segment is no ancestor of [p], and none of
    [p ++ [y]] for another segment [y]. *)
Ltac not_prefix :=
  let H := fresh in
  let r := fresh in
  intros H; apply prefixes_prefix in H; destruct H as [r H];
  rewrite <- ?app_assoc in H;
  first [ apply app_inv_head in H; discriminate H
        | rewrite <- (app_nil_r _) in H at 1;
          apply app_inv_head in H; discriminate H ].

(* --------------------------------------------------------------------- *)
(* Joined paths                                                           *)
(* --------------------------------------------------------------------- *)

Lemma components_plain (name : string) :
  String_includes name "/" = false -> components name = [name].
Proof.
  induction name as [|c rest IH]; [reflexivity |].
  cbn [String_includes String.prefix components].
  destruct (Ascii.eqb_spec c "/") as [->|Hc].
  - destruct (ascii_dec "/" "/") as [_|Hne]; [| now destruct Hne].
    destruct rest; discriminate.
  - destruct (ascii_dec "/" c) as [Heq|_]; [now subst c |].
    cbn [orb]. intros Hrest. now rewrite (IH Hrest).
Qed.

Lemma components_snoc (s t : string) :
  String_includes t "/" = false ->
  exists pieces x,
    components s = pieces ++ [x] /\ components (s +:+ t) = pieces ++ [x +:+ t].
Proof.
  intros Ht. induction s as [|c rest (pieces & x & Hrest & Happ)].
  - exists [], "". split; [reflexivity |]. now apply components_plain.
  - change (String c rest +:+ t) with (String c (rest +:+ t)).
    cbn [components]. rewrite Hrest, Happ.
    destruct (Ascii.eqb c "/").
    + now exists ("" :: pieces), x.
    + destruct pieces as [|y pieces]; cbn [app].
      * now exists [], (String c x).
      * now exists (String c y :: pieces), x.
Qed.

Lemma resolve_app (pieces rest : list string) :
  forall base, resolve base (pieces ++ rest) = resolve (resolve base pieces) rest.
Proof.
  induction pieces as [|piece pieces IH]; intros base; [reflexivity |].
  cbn [app resolve]. apply IH.
Qed.

Lemma resolve_name (base : Path) (name : string) :
  String.eqb name "" = false -> String.eqb name "." = false ->
  String.eqb name ".." = false ->
  resolve base [name] = base ++ [name].
Proof. intros H1 H2 H3. cbn [resolve]. now rewrite H1, H2, H3. Qed.

Lemma path_join_plain (base : Path) (name : string) :
  plainName name = true -> path_join base name = base ++ [name].
Proof.
  unfold plainName, path_join. intros H.
  apply andb_prop in H. destruct H as [H H4].
  apply andb_prop in H. destruct H as [H H3].
  apply andb_prop in H. destruct H as [H1 H2].
  apply andb_prop in H4. destruct H4 as [H4 _].
  apply negb_true_iff in H1, H2, H3, H4.
  rewrite components_plain by exact H4. now apply resolve_name.
Qed.

Lemma long_name (name : string) :
  3 <= String.length name ->
  String.eqb name "" = false /\ String.eqb name "." = false
  /\ String.eqb name ".." = false.
Proof.
  destruct name as [|a [|b [|c name]]]; cbn [String.length]; try lia.
  intros _. repeat split; apply String.eqb_neq; discriminate.
Qed.

Lemma String_length_append (s t : string) :
  String.length (s +:+ t) = String.length s + String.length t.
Proof.
  induction s as [|c s IH]; [reflexivity |].
  change (String c s +:+ t) with (String c (s +:+ t)).
  cbn [String.length]. now rewrite IH.
Qed.

Lemma templateName_length (x : string) :
  3 <= String.length (x +:+ "-automation-template.json").
Proof. rewrite String_length_append. cbn. lia. Qed.

(** The automation template lies in some directory, under a name that
    ends as the file name of the source does. *)
Lemma templatePath_last (config : Config.t) (workspacePath : Path) :
  exists dir x,
    templatePath config workspacePath = dir ++ [x +:+ "-automation-template.json"].
Proof.
  unfold templatePath, path_join.
  destruct (components_snoc (User.type (Config.user config))
              "-automation-template.json" eq_refl) as (pieces & x & _ & ->).
  rewrite resolve_app.
  destruct (long_name _ (templateName_length x)) as (H1 & H2 & H3).
  rewrite resolve_name by assumption. eauto.
Qed.

Lemma templatePath_neq (config : Config.t) (workspacePath p : Path)
    (name : string) :
  (forall x, x +:+ "-automation-template.json" <> name) ->
  templatePath config workspacePath <> p ++ [name].
Proof.
  intros Hname Heq.
  destruct (templatePath_last config workspacePath) as (dir & x & Hlast).
  rewrite Hlast in Heq. apply app_inj_tail in Heq. destruct Heq as [_ Heq].
  now apply (Hname x).
Qed.

Lemma templatePath_plain (config : Config.t) (workspacePath : Path) :
  nameText (User.type (Config.user config)) = true ->
  templatePath config workspacePath
  = (workspacePath ++ ["templates"])
    ++ [User.type (Config.user config) +:+ "-automation-template.json"].
Proof.
  intros Hplain. apply andb_prop in Hplain. destruct Hplain as [Hplain _].
  apply negb_true_iff in Hplain. unfold templatePath, path_join.
  destruct (components_snoc (User.type (Config.user config))
              "-automation-template.json" eq_refl) as (pieces & x & Hx & ->).
  rewrite components_plain in Hx by exact Hplain.
  destruct pieces as [|y pieces].
  - inversion Hx; subst.
    destruct (long_name _ (templateName_length (User.type (Config.user config))))
      as (H1 & H2 & H3).
    now apply resolve_name.
  - destruct pieces; discriminate Hx.
Qed.

(** Segments with separators and dots: the file lands in another
    directory than the one it is joined to.  For a user type with a
    separator the template would go to a directory that [generateSetup]
    does not make, and the run throws at that write. *)
Lemma path_join_examples :
  path_join ["home"; "clawd"; "templates"] "ops/lead-automation-template.json"
  = ["home"; "clawd"; "templates"; "ops"; "lead-automation-template.json"]
  /\ path_join ["home"; "clawd"; "templates"] "../x-automation-template.json"
     = ["home"; "clawd"; "x-automation-template.json"]
  /\ path_join ["home"; "clawd"; "skills"] ".." = ["home"; "clawd"]
  /\ path_join ["home"; "clawd"; "skills"] "" = ["home"; "clawd"; "skills"]
  /\ path_join ["home"; "clawd"; "skills"] "a//b/./c/"
     = ["home"; "clawd"; "skills"; "a"; "b"; "c"]
  /\ path_join [] "../.." = [].
Proof. repeat split; reflexivity. Qed.

Lemma generateSetup_nested_user_type :
  fst (generateSetup sampleJSON "1/5/2026" nestedTypeConfig clawd ∅)
  = Throw (FileSystemError "ENOENT"
             ["home"; "clawd"; "templates"; "ops";
              "lead-automation-template.json"]).
Proof. vm_compute. reflexivity. Qed.

(** A name that does not end as the template's name does is not the
    template's: it is shorter than the ending, or differs from it in a
    character. *)
Ltac by_string_length H :=
  apply (f_equal String.length) in H; cbn [String.length] in H;
  rewrite String_length_append in H; cbn in H; lia.

Ltac other_name :=
  let x := fresh in
  let H := fresh in
  intros x H;
  first [ by_string_length H
        | destruct x as [|? [|? [|? ?]]]; cbn in H;
          first [discriminate H | by_string_length H] ].

Ltac template_neq :=
  repeat match goal with
         | |- context [?p ++ [?a; ?b]] =>
             change (p ++ [a; b]) with (p ++ ([a] ++ [b]));
             rewrite (app_assoc p [a] [b])
         end;
  first [ apply templatePath_neq; other_name
        | apply not_eq_sym, templatePath_neq; other_name ].

(* --------------------------------------------------------------------- *)
(* generateSetup                                                          *)
(* --------------------------------------------------------------------- *)

Section SetupProperties.

Variable JSON_stringify : Json -> option nat -> string.

Ltac await :=
  match goal with
  | |- context [ensureDir ?p ?fs] =>
      destruct (ensureDir p fs) as [[[]|?] ?]
  | |- context [writeFile ?p ?c ?fs] =>
      destruct (writeFile p c fs) as [[[]|?] ?]
  end.

Lemma generateSetup_run (today : string) (config : Config.t)
    (workspacePath : Path) (fs : FS) :
  generateSetup JSON_stringify today config workspacePath fs
  = (run (setupScript JSON_stringify today config workspacePath) ;; ret workspacePath) fs.
Proof.
  unfold generateSetup, generateOpenClawWorkspace, generateAgentsFile,
    generateHeartbeatFile, generateAutomationTemplates, generateMorningBrief,
    setupScript, agentsPath, heartbeatPath, morningBriefPath, templatePath.
  destruct (agentsContent config) as [agents|e1];
    destruct (automationExample config) as [example|e2];
    destruct (morningBriefContent today config) as [brief|e3];
    cbn [run exec writeStep rmap]; unfold bind, lift, ret, throw;
    repeat (await; try reflexivity).
Qed.

Lemma setupScript_compatible (today : string) (config : Config.t)
    (workspacePath : Path) :
  compatible (setupScript JSON_stringify today config workspacePath).
Proof.
  unfold setupScript, agentsPath, heartbeatPath, morningBriefPath.
  destruct (agentsContent config) as [agents|e1];
    destruct (automationExample config) as [example|e2];
    destruct (morningBriefContent today config) as [brief|e3];
    cbn [writeStep rmap compatible];
    repeat split;
    intros s' Hs'; cbn [In] in Hs';
    repeat (destruct Hs' as [<-|Hs'];
            [cbn [compat]; try exact I; first [path_neq | template_neq] |]);
    destruct Hs'.
Qed.

Lemma automationExample_ok (config : Config.t) :
  exists example, automationExample config = Ok example.
Proof.
  unfold automationExample.
  destruct (Template.skills (Config.template config)); cbn; eexists; reflexivity.
Qed.

(** The run returns when the template has automations and nothing in the
    file system is in its way: no regular file where the workspace or its
    templates directory go, no directory where a document goes. *)
Lemma generateSetup_returns (today : string) (config : Config.t)
    (workspacePath : Path) (fs : FS) :
  nameText (User.type (Config.user config)) = true ->
  Template.automations (Config.template config) <> None ->
  (forall q, In q (prefixes (workspacePath ++ ["templates"])) ->
             isFile fs q = false) ->
  (forall q, In q [agentsPath workspacePath; heartbeatPath workspacePath;
                   templatePath config workspacePath;
                   morningBriefPath workspacePath] ->
             fs !! q <> Some Dir) ->
  fst (generateSetup JSON_stringify today config workspacePath fs)
  = Ok workspacePath.
Proof.
  intros Hplain Hautos Hfree Hdocs.
  assert (HA := Hdocs (agentsPath workspacePath) ltac:(cbn; tauto)).
  assert (HH := Hdocs (heartbeatPath workspacePath) ltac:(cbn; tauto)).
  assert (HT := Hdocs (templatePath config workspacePath) ltac:(cbn; tauto)).
  assert (HM := Hdocs (morningBriefPath workspacePath) ltac:(cbn; tauto)).
  clear Hdocs.
  rewrite generateSetup_run. unfold setupScript.
  rewrite (templatePath_plain config workspacePath Hplain) in *.
  destruct (agentsSkills_ok (Template.skills (Config.template config)))
    as [skillsList Hskills].
  destruct (automationExample_ok config) as [example Hexample].
  unfold agentsContent, morningBriefContent. rewrite Hskills, Hexample.
  destruct (Template.automations (Config.template config)) as [automations|];
    [| congruence].
  cbn [rbind rmap writeStep Object_entries_opt].
  unfold agentsPath, heartbeatPath, morningBriefPath in *.
  set (wp := workspacePath) in *.
  set (templates := wp ++ ["templates"]) in *.
  (* the six steps, one after the other *)
  unfold bind. rewrite run_cons.
  set (fs1 := mkdirs (prefixes wp) fs).
  assert (H1 : exec (SEnsure wp) fs = (Ok tt, fs1)).
  { apply ensureDir_ok. split; [| reflexivity].
    intros q Hq. apply Hfree. now apply prefixes_app. }
  rewrite H1. rewrite run_cons.
  match goal with |- context [exec (SWrite (wp ++ ["AGENTS.md"]) ?c) fs1] =>
    set (agents := c) end.
  set (fs2 := <[wp ++ ["AGENTS.md"] := File agents]> fs1).
  assert (Hwp1 : fs1 !! wp = Some Dir)
    by (apply mkdirs_lookup_in, prefixes_self).
  assert (Hout1 : forall x, fs1 !! (wp ++ [x]) = fs !! (wp ++ [x])).
  { intros x. apply mkdirs_lookup_notin. not_prefix. }
  assert (H2 : exec (SWrite (wp ++ ["AGENTS.md"]) agents) fs1 = (Ok tt, fs2)).
  { apply writeFile_ok. rewrite dirname_app, Hout1. auto. }
  rewrite H2. rewrite run_cons.
  set (fs3 := <[wp ++ ["HEARTBEAT.md"] := File (heartbeatContent config)]> fs2).
  assert (H3 : exec (SWrite (wp ++ ["HEARTBEAT.md"]) (heartbeatContent config)) fs2
               = (Ok tt, fs3)).
  { apply writeFile_ok. rewrite dirname_app. subst fs2.
    rewrite !lookup_insert_ne; [rewrite Hout1; auto | path_neq |].
    intros Heq. symmetry in Heq. revert Heq.
    rewrite <- (app_nil_r wp) at 1. path_neq. }
  rewrite H3. rewrite run_cons.
  set (fs4 := mkdirs (prefixes templates) fs3).
  assert (Hkeep3 : forall q,
    q <> wp ++ ["AGENTS.md"] -> q <> wp ++ ["HEARTBEAT.md"] ->
    fs3 !! q = fs1 !! q).
  { intros q Hq1 Hq2. subst fs3 fs2. now rewrite !lookup_insert_ne by congruence. }
  assert (H4 : exec (SEnsure templates) fs3 = (Ok tt, fs4)).
  { apply ensureDir_ok. split; [| reflexivity].
    intros q Hq. unfold isFile. rewrite Hkeep3.
    - destruct (In_Path_dec q (prefixes wp)) as [Hin|Hnot].
      + subst fs1. now rewrite mkdirs_lookup_in.
      + subst fs1. rewrite mkdirs_lookup_notin by exact Hnot.
        apply Hfree in Hq. exact Hq.
    - intros ->. revert Hq. subst templates. not_prefix.
    - intros ->. revert Hq. subst templates. not_prefix. }
  rewrite H4. rewrite run_cons.
  match goal with |- context [exec (SWrite (templates ++ [?f]) ?c) fs4] =>
    set (file := f) in *; set (json := c) end.
  set (fs5 := <[templates ++ [file] := File json]> fs4).
  assert (Hwp4 : fs4 !! wp = Some Dir).
  { subst fs4 templates. apply mkdirs_lookup_in, prefixes_app, prefixes_self. }
  assert (Hout4 : forall q,
    ~ In q (prefixes templates) ->
    q <> wp ++ ["AGENTS.md"] -> q <> wp ++ ["HEARTBEAT.md"] ->
    ~ In q (prefixes wp) ->
    fs4 !! q = fs !! q).
  { intros q Hq1 Hq2 Hq3 Hq4. subst fs4.
    rewrite mkdirs_lookup_notin by exact Hq1.
    rewrite Hkeep3 by assumption. subst fs1.
    now apply mkdirs_lookup_notin. }
  assert (H5 : exec (SWrite (templates ++ [file]) json) fs4 = (Ok tt, fs5)).
  { apply writeFile_ok. rewrite dirname_app. split.
    - subst fs4. apply mkdirs_lookup_in, prefixes_self.
    - split; [| reflexivity]. rewrite Hout4; [exact HT | | | |];
        subst templates; try not_prefix; path_neq. }
  rewrite H5. rewrite run_cons.
  match goal with |- context [exec (SWrite (wp ++ ["morning-brief.md"]) ?c) fs5] =>
    set (brief := c) end.
  assert (H6 : exec (SWrite (wp ++ ["morning-brief.md"]) brief) fs5
               = (Ok tt, <[wp ++ ["morning-brief.md"] := File brief]> fs5)).
  { apply writeFile_ok. rewrite dirname_app. subst fs5. split.
    - rewrite lookup_insert_ne; [exact Hwp4 |].
      subst templates. rewrite <- (app_nil_r wp) at 2. path_neq.
    - split; [| reflexivity].
      rewrite lookup_insert_ne by (subst templates; path_neq).
      rewrite Hout4; [exact HM | | | |];
        subst templates; try not_prefix; path_neq. }
  rewrite H6. reflexivity.
Qed.

(** C8. Running the generation step a second time, with the same
    configuration and the same date, from the state the first run left,
    returns what the first run returned and leaves every file and
    directory as it was; and the content of each output file depends on
    the configuration and the date alone: two runs that return, from any
    two starting states, leave the same text in each of them. *)
Theorem C8_generateSetup_idempotent (today : string) (config : Config.t)
    (workspacePath : Path) :
  (forall fs,
      generateSetup JSON_stringify today config workspacePath
        (snd (generateSetup JSON_stringify today config workspacePath fs))
      = generateSetup JSON_stringify today config workspacePath fs)
  /\ (forall fsA fsB fsA' fsB' p content,
      generateSetup JSON_stringify today config workspacePath fsA
        = (Ok workspacePath, fsA') ->
      generateSetup JSON_stringify today config workspacePath fsB
        = (Ok workspacePath, fsB') ->
      In (p, content) (written (setupScript JSON_stringify today config workspacePath)) ->
      readFile fsA' p = Some content /\ readFile fsB' p = Some content).
Proof.
  split.
  - intros fs. rewrite (generateSetup_run today config workspacePath fs).
    rewrite generateSetup_run. unfold bind, ret.
    destruct (run (setupScript JSON_stringify today config workspacePath) fs)
      as [r fs1] eqn:Hrun.
    pose proof (run_idempotent _ _ _ _
                  (setupScript_compatible today config workspacePath) Hrun)
      as Hagain.
    destruct r as [[]|e]; cbn [snd]; now rewrite Hagain.
  - intros fsA fsB fsA' fsB' p content HA HB Hin.
    rewrite generateSetup_run in HA, HB. unfold bind, ret in HA, HB.
    destruct (run (setupScript JSON_stringify today config workspacePath) fsA)
      as [[[]|eA] fsA1] eqn:HrA; [| discriminate].
    destruct (run (setupScript JSON_stringify today config workspacePath) fsB)
      as [[[]|eB] fsB1] eqn:HrB; [| discriminate].
    inversion HA; inversion HB; subst.
    split; (eapply written_stable; [| exact Hin]);
      eapply run_stable; eauto using setupScript_compatible.
Qed.

Lemma setupScript_written (today : string) (config : Config.t)
    (workspacePath : Path) (q : Path) :
  In q (map fst (written (setupScript JSON_stringify today config workspacePath))) ->
  In q [agentsPath workspacePath; heartbeatPath workspacePath;
        templatePath config workspacePath; morningBriefPath workspacePath].
Proof.
  unfold setupScript.
  destruct (agentsContent config) as [agents|e1];
    destruct (automationExample config) as [example|e2];
    destruct (morningBriefContent today config) as [brief|e3];
    cbn; tauto.
Qed.

(** C1, amended. [generateSetup] writes AGENTS.md, HEARTBEAT.md,
    morning-brief.md and the automation template, at the path that
    [path.join] makes of templates and
    <user_type>-automation-template.json, and no other file.  The run
    returns when the user type holds no separator and no NUL character,
    the template has automations and nothing in the file system is in
    the way; whatever
    the user type and the outcome of a run, every other path, README.md,
    config/clawdbot.yaml and automations/morning-brief.yaml among them,
    holds after the run what it held before; and when the run returns, it
    returns the workspace path and the four files hold the rendered
    documents. *)
Theorem C1_generateSetup_writes_four_documents (today : string)
    (config : Config.t) (workspacePath : Path) (fs : FS) :
  let out := generateSetup JSON_stringify today config workspacePath fs in
  (nameText (User.type (Config.user config)) = true ->
   Template.automations (Config.template config) <> None ->
   (forall q, In q (prefixes (workspacePath ++ ["templates"])) ->
              isFile fs q = false) ->
   (forall q, In q [agentsPath workspacePath; heartbeatPath workspacePath;
                    templatePath config workspacePath;
                    morningBriefPath workspacePath] ->
              fs !! q <> Some Dir) ->
   fst out = Ok workspacePath)
  /\ (forall q,
      ~ In q [agentsPath workspacePath; heartbeatPath workspacePath;
              templatePath config workspacePath; morningBriefPath workspacePath] ->
      readFile (snd out) q = readFile fs q)
  /\ readFile (snd out) (workspacePath ++ ["README.md"])
     = readFile fs (workspacePath ++ ["README.md"])
  /\ readFile (snd out) (workspacePath ++ ["config"; "clawdbot.yaml"])
     = readFile fs (workspacePath ++ ["config"; "clawdbot.yaml"])
  /\ readFile (snd out) (workspacePath ++ ["automations"; "morning-brief.yaml"])
     = readFile fs (workspacePath ++ ["automations"; "morning-brief.yaml"])
  /\ (forall p, fst out = Ok p ->
      p = workspacePath
      /\ exists agents example brief,
           agentsContent config = Ok agents
           /\ automationExample config = Ok example
           /\ morningBriefContent today config = Ok brief
           /\ readFile (snd out) (agentsPath workspacePath) = Some agents
           /\ readFile (snd out) (heartbeatPath workspacePath)
              = Some (heartbeatContent config)
           /\ readFile (snd out) (templatePath config workspacePath)
              = Some (JSON_stringify example (Some 2))
           /\ readFile (snd out) (morningBriefPath workspacePath) = Some brief).
Proof.
  cbv zeta. split; [apply generateSetup_returns |].
  rewrite generateSetup_run. unfold bind, ret.
  destruct (run (setupScript JSON_stringify today config workspacePath) fs)
    as [r fs'] eqn:Hrun.
  assert (Hframe : forall q,
    ~ In q [agentsPath workspacePath; heartbeatPath workspacePath;
            templatePath config workspacePath; morningBriefPath workspacePath] ->
    readFile fs' q = readFile fs q).
  { intros q Hq. eapply run_frame; [exact Hrun |].
    apply not_written_frame. intros Hin. apply Hq.
    eapply setupScript_written; exact Hin. }
  assert (Hsnd : snd (match r with
                      | Ok _ => (Ok workspacePath, fs')
                      | Throw e => (Throw e, fs')
                      end) = fs') by now destruct r.
  rewrite Hsnd.
  split; [exact Hframe |].
  split; [| split; [| split]].
  - apply Hframe. unfold agentsPath, heartbeatPath, morningBriefPath.
    cbn [In]. intros [H|[H|[H|[H|[]]]]]; revert H;
      first [path_neq | template_neq].
  - apply Hframe. unfold agentsPath, heartbeatPath, morningBriefPath.
    cbn [In]. intros [H|[H|[H|[H|[]]]]]; revert H;
      first [path_neq | template_neq].
  - apply Hframe. unfold agentsPath, heartbeatPath, morningBriefPath.
    cbn [In]. intros [H|[H|[H|[H|[]]]]]; revert H;
      first [path_neq | template_neq].
  - intros p Hp. destruct r as [[]|e]; cbn [fst] in Hp; [| discriminate].
    split; [congruence |].
    pose proof (run_stable _ _ _
                  (setupScript_compatible today config workspacePath) Hrun)
      as Hst.
    unfold setupScript in Hst.
    destruct (agentsContent config) as [agents|e1];
      [| exfalso; apply (Hst (SFail e1)); cbn; tauto].
    destruct (automationExample config) as [example|e2];
      [| exfalso; apply (Hst (SFail e2)); cbn; tauto].
    destruct (morningBriefContent today config) as [brief|e3];
      [| exfalso; apply (Hst (SFail e3)); cbn; tauto].
    exists agents, example, brief.
    repeat split; unfold readFile.
    + destruct (Hst (SWrite (agentsPath workspacePath) agents)) as [_ ->];
        [cbn; tauto | reflexivity].
    + destruct (Hst (SWrite (heartbeatPath workspacePath) (heartbeatContent config)))
        as [_ ->]; [cbn; tauto | reflexivity].
    + destruct (Hst (SWrite (templatePath config workspacePath)
                            (JSON_stringify example (Some 2)))) as [_ ->];
        [cbn; tauto | reflexivity].
    + destruct (Hst (SWrite (morningBriefPath workspacePath) brief)) as [_ ->];
        [cbn; tauto | reflexivity].
Qed.

End SetupProperties.

(* --------------------------------------------------------------------- *)
(* A founder's run                                                        *)
(* --------------------------------------------------------------------- *)

(** C1, as stated, fails: a founder's run from an empty file system
    returns, and leaves no README.md, no config/clawdbot.yaml and no
    automations/morning-brief.yaml behind. *)
Lemma C1_counterexample_no_readme_no_yaml :
  fst (generateSetup sampleJSON "1/5/2026" founderConfig clawd ∅) = Ok clawd
  /\ readFile (snd (generateSetup sampleJSON "1/5/2026" founderConfig clawd ∅))
       ["home"; "clawd"; "README.md"] = None
  /\ readFile (snd (generateSetup sampleJSON "1/5/2026" founderConfig clawd ∅))
       ["home"; "clawd"; "config"; "clawdbot.yaml"] = None
  /\ readFile (snd (generateSetup sampleJSON "1/5/2026" founderConfig clawd ∅))
       ["home"; "clawd"; "automations"; "morning-brief.yaml"] = None
  /\ isSome (readFile
       (snd (generateSetup sampleJSON "1/5/2026" founderConfig clawd ∅))
       ["home"; "clawd"; "AGENTS.md"]) = true.
Proof. vm_compute. repeat split; reflexivity. Qed.

Lemma C1_generateSetup_writes_four_documents_witness :
  fst (generateSetup sampleJSON "1/5/2026" founderConfig clawd ∅) = Ok clawd
  /\ readFile (snd (generateSetup sampleJSON "1/5/2026" founderConfig clawd ∅))
       (heartbeatPath clawd)
     = Some (heartbeatContent founderConfig).
Proof.
  destruct (C1_generateSetup_writes_four_documents sampleJSON "1/5/2026"
              founderConfig clawd ∅) as (Hreturns & _ & _ & _ & _ & Hdocs).
  assert (Hok : fst (generateSetup sampleJSON "1/5/2026" founderConfig clawd ∅)
                = Ok clawd).
  { apply Hreturns.
    - reflexivity.
    - cbn. discriminate.
    - intros q _. reflexivity.
    - intros q _. rewrite lookup_empty. discriminate. }
  split; [exact Hok |].
  destruct (Hdocs clawd Hok)
    as (_ & agents & example & brief & _ & _ & _ & _ & Hheartbeat & _).
  exact Hheartbeat.
Defined.

Lemma pair_of_fst {A B : Type} (x : A * B) (a : A) : fst x = a -> x = (a, snd x).
Proof. destruct x. cbn. now intros ->. Defined.

Lemma C8_generateSetup_idempotent_witness :
  readFile (snd (generateSetup sampleJSON "1/5/2026" founderConfig clawd ∅))
    (heartbeatPath clawd)
  = readFile (snd (generateSetup sampleJSON "1/5/2026" founderConfig clawd
                     {[ clawd := Dir ]}))
      (heartbeatPath clawd).
Proof.
  destruct (C8_generateSetup_idempotent sampleJSON "1/5/2026" founderConfig clawd)
    as [_ Hsame].
  destruct (Hsame ∅ {[ clawd := Dir ]}
              (snd (generateSetup sampleJSON "1/5/2026" founderConfig clawd ∅))
              (snd (generateSetup sampleJSON "1/5/2026" founderConfig clawd
                      {[ clawd := Dir ]}))
              (heartbeatPath clawd) (heartbeatContent founderConfig))
    as [HA HB].
  - apply pair_of_fst. vm_compute. reflexivity.
  - apply pair_of_fst. vm_compute. reflexivity.
  - right. left. reflexivity.
  - rewrite HA, HB. reflexivity.
Defined.

(* --------------------------------------------------------------------- *)
(* generateAutomations                                                    *)
(* --------------------------------------------------------------------- *)

Section AutomationsProperties.

Variable yaml_stringify : Json -> string.

Lemma generateAutomations_run (config : Config.t) (workspacePath : Path)
    (fs : FS) :
  generateAutomations yaml_stringify config workspacePath fs
  = run (automationsScript yaml_stringify config workspacePath) fs.
Proof.
  unfold generateAutomations, automationsScript, generateFounderAutomations,
    generateEngineerAutomations, morningBriefYamlPath, investorUpdatePath,
    codeReviewPath.
  destruct (Template.automations (Config.template config)) as [automations|];
    destruct (String.eqb (User.type (Config.user config)) "founder");
    destruct (String.eqb (User.type (Config.user config)) "engineer");
    cbn [run exec writeStep]; unfold bind, lift, ret, throw;
    try reflexivity;
    repeat (match goal with
            | |- context [writeFile ?p ?c ?fs] =>
                destruct (writeFile p c fs) as [[[]|?] ?]
            end; try reflexivity).
Qed.

(** C5. The founder's extra artifact is investor-update.yaml, with the
    actions collect_metrics (sources revenue, user_growth, team_updates)
    and generate_report; the engineer's is code-review.yaml, with
    analyze_code (checks security, performance, style, tests) and
    generate_feedback.  [generateAutomations] touches code-review.yaml for
    no type but "engineer" and investor-update.yaml for no type but
    "founder", so any other type gets neither; and where the template has
    automations and the automations directory exists, the call returns
    and the role's file holds the serialized automation. *)
Theorem C5_role_branching (config : Config.t) (workspacePath : Path) (fs : FS) :
  let out := generateAutomations yaml_stringify config workspacePath fs in
  let type := User.type (Config.user config) in
  field investorUpdate "actions"
    = Some (JArray
        [JObject [("type", JString "collect_metrics");
                  ("sources", JStrings ["revenue"; "user_growth"; "team_updates"])];
         JObject [("type", JString "generate_report");
                  ("template", JString "investor_update");
                  ("output", JString "weekly-investor-update.md")]])
  /\ field codeReview "actions"
    = Some (JArray
        [JObject [("type", JString "analyze_code");
                  ("checks", JStrings ["security"; "performance"; "style"; "tests"])];
         JObject [("type", JString "generate_feedback");
                  ("format", JString "github_comment");
                  ("output", JString "pr-review-comments.md")]])
  /\ (type <> "founder" ->
      readFile (snd out) (investorUpdatePath workspacePath)
      = readFile fs (investorUpdatePath workspacePath))
  /\ (type <> "engineer" ->
      readFile (snd out) (codeReviewPath workspacePath)
      = readFile fs (codeReviewPath workspacePath))
  /\ (Template.automations (Config.template config) <> None ->
      fs !! (workspacePath ++ ["automations"]) = Some Dir ->
      fs !! morningBriefYamlPath workspacePath <> Some Dir ->
      fs !! investorUpdatePath workspacePath <> Some Dir ->
      fs !! codeReviewPath workspacePath <> Some Dir ->
      fst out = Ok tt
      /\ (type = "founder" ->
          readFile (snd out) (investorUpdatePath workspacePath)
          = Some (yaml_stringify investorUpdate))
      /\ (type = "engineer" ->
          readFile (snd out) (codeReviewPath workspacePath)
          = Some (yaml_stringify codeReview))).
Proof.
  cbv zeta. rewrite generateAutomations_run.
  split; [reflexivity |]. split; [reflexivity |].
  destruct (run (automationsScript yaml_stringify config workspacePath) fs) as [r fs'] eqn:Hrun.
  cbn [fst snd].
  split; [| split].
  - intros Htype. eapply run_frame; [exact Hrun |].
    intros s Hs. unfold automationsScript in Hs.
    apply String.eqb_neq in Htype. rewrite Htype in Hs.
    unfold morningBriefYamlPath, investorUpdatePath, codeReviewPath in *.
    destruct (Template.automations (Config.template config));
      destruct (String.eqb (User.type (Config.user config)) "engineer");
      cbn [writeStep In] in Hs;
      repeat (destruct Hs as [<-|Hs]); try contradiction;
      cbn [writesTo]; try tauto; path_neq.
  - intros Htype. eapply run_frame; [exact Hrun |].
    intros s Hs. unfold automationsScript in Hs.
    apply String.eqb_neq in Htype. rewrite Htype in Hs.
    unfold morningBriefYamlPath, investorUpdatePath, codeReviewPath in *.
    destruct (Template.automations (Config.template config));
      destruct (String.eqb (User.type (Config.user config)) "founder");
      cbn [writeStep In] in Hs;
      repeat (destruct Hs as [<-|Hs]); try contradiction;
      cbn [writesTo]; try tauto; path_neq.
  - intros Hautos Hdir Hmb Hiu Hcr.
    unfold automationsScript in Hrun.
    destruct (Template.automations (Config.template config)) as [automations|];
      [| congruence].
    cbn [writeStep] in Hrun. rewrite run_cons in Hrun.
    assert (Hfirst :
      exec (SWrite (morningBriefYamlPath workspacePath)
                   (yaml_stringify (morningBriefAutomation automations))) fs
      = (Ok tt, <[morningBriefYamlPath workspacePath :=
                   File (yaml_stringify (morningBriefAutomation automations))]> fs)).
    { apply writeFile_ok. unfold morningBriefYamlPath at 1.
      rewrite dirname_app. auto. }
    rewrite Hfirst in Hrun.
    assert (Hsecond : forall p content,
      fs !! p <> Some Dir ->
      dirname p = workspacePath ++ ["automations"] ->
      p <> morningBriefYamlPath workspacePath ->
      run [SWrite p content]
          (<[morningBriefYamlPath workspacePath :=
               File (yaml_stringify (morningBriefAutomation automations))]> fs)
      = (r, fs') ->
      r = Ok tt /\ readFile fs' p = Some content).
    { intros p content Hp Hd Hne H. rewrite run_cons in H.
      assert (Hw :
        exec (SWrite p content)
          (<[morningBriefYamlPath workspacePath :=
               File (yaml_stringify (morningBriefAutomation automations))]> fs)
        = (Ok tt, <[p := File content]>
             (<[morningBriefYamlPath workspacePath :=
                 File (yaml_stringify (morningBriefAutomation automations))]> fs))).
      { apply writeFile_ok. rewrite Hd.
        rewrite !lookup_insert_ne; [auto | congruence |].
        unfold morningBriefYamlPath.
        intros Heq. symmetry in Heq. revert Heq.
        rewrite <- (app_nil_r (workspacePath ++ ["automations"])) at 1.
        rewrite <- !app_assoc. intros Heq.
        apply app_inv_head in Heq. discriminate Heq. }
      rewrite Hw in H. cbn in H. unfold ret in H. inversion H; subst.
      split; [reflexivity |]. unfold readFile. now rewrite lookup_insert_eq. }
    destruct (String.eqb (User.type (Config.user config)) "founder") eqn:Hf.
    + apply String.eqb_eq in Hf.
      destruct (Hsecond _ _ Hiu (dirname_app _ _)
                  ltac:(unfold investorUpdatePath, morningBriefYamlPath; path_neq)
                  Hrun) as [-> Hread].
      split; [reflexivity |]. split; [intros _; exact Hread |].
      intros He. rewrite Hf in He. discriminate He.
    + destruct (String.eqb (User.type (Config.user config)) "engineer") eqn:He.
      * apply String.eqb_eq in He.
        destruct (Hsecond _ _ Hcr (dirname_app _ _)
                    ltac:(unfold codeReviewPath, morningBriefYamlPath; path_neq)
                    Hrun) as [-> Hread].
        split; [reflexivity |]. split; [| intros _; exact Hread].
        intros Hf'. rewrite He in Hf'. discriminate Hf'.
      * cbn in Hrun. unfold ret in Hrun. inversion Hrun; subst.
        apply String.eqb_neq in Hf, He. repeat split; intros; congruence.
Qed.

End AutomationsProperties.

Lemma C5_role_branching_witness :
  fst (generateAutomations sampleYaml founderConfig clawd automationsReady) = Ok tt
  /\ readFile
       (snd (generateAutomations sampleYaml founderConfig clawd automationsReady))
       ["home"; "clawd"; "automations"; "investor-update.yaml"]
     = Some (sampleYaml investorUpdate).
Proof.
  destruct (C5_role_branching sampleYaml founderConfig clawd automationsReady)
    as (_ & _ & _ & _ & H).
  destruct H as (Hok & Hfounder & _).
  - cbn. discriminate.
  - vm_compute. reflexivity.
  - vm_compute. discriminate.
  - vm_compute. discriminate.
  - vm_compute. discriminate.
  - split; [exact Hok |]. apply Hfounder. reflexivity.
Defined.

(* --------------------------------------------------------------------- *)
(* The two shapes of skills, through the renderers                        *)
(* --------------------------------------------------------------------- *)

(** C2. The code does not do what the claim says.  The configuration
    carries [template.skills] as it came; for the array
    ["email", "calendar"] the renderers that test [skills.entries] (the
    AGENTS.md skills list, [skills_needed] of the automation template, the
    skills configuration) find the inherited array method there and list
    no skill at all, while clawdbot.yaml lists both; for the mapping form
    those renderers list both names, while the renderers of clawdbot.yaml
    and README.md throw a TypeError. *)
Theorem C2_skills_shapes_diverge (toLocaleDateString : string -> string) :
  (forall nowISO answers template integrations,
      Workspace.skills
        (Config.workspace
           (generateConfiguration nowISO answers template integrations))
      = Template.skills template)
  /\ (forall names, agentsSkills (SkillsArray names) = Ok "")
  /\ rmap (fun example => field example "skills_needed")
          (automationExample founderConfig)
     = Ok (Some (JArray []))
  /\ skillsConfig founderConfig
     = Ok (JObject [("skills", JObject [("entries", JObject [])])])
  /\ rmap (fun yaml => field yaml "skills") (clawdbotConfig founderConfig)
     = Ok (Some (JArray
         [JObject [("name", JString "email"); ("enabled", JBool true);
                   ("auto_install", JBool true)];
          JObject [("name", JString "calendar"); ("enabled", JBool true);
                   ("auto_install", JBool true)]]))
  /\ agentsSkills (Template.skills (Config.template mappingConfig))
     = Ok ("- **email**: Inbox triage" +:+ nl
           +:+ "- **calendar**: Official OpenClaw skill")
  /\ rmap (fun example => field example "skills_needed")
          (automationExample mappingConfig)
     = Ok (Some (JStrings ["email"; "calendar"]))
  /\ skillsConfig mappingConfig
     = Ok (JObject [("skills", JObject [("entries", JObject
         [("email", JObject [("enabled", JBool true);
                             ("description", JString "Inbox triage")]);
          ("calendar", JObject [("enabled", JBool true)])])])])
  /\ clawdbotConfig mappingConfig
     = Throw (TypeError "skills.map is not a function")
  /\ readmeContent toLocaleDateString mappingConfig
     = Throw (TypeError "skills.join is not a function").
Proof. repeat split. Qed.

(* --------------------------------------------------------------------- *)
(* Optional fields                                                        *)
(* --------------------------------------------------------------------- *)

(** C7. The code does not do what the claim says for every
    configuration: with goals, demo scenarios and impact metrics absent
    and skills in mapping form, the README renderer throws a TypeError
    (and so does the renderer of clawdbot.yaml), before any placeholder is
    substituted. *)
Theorem C7_readme_throws_on_mapping_skills (toLocaleDateString : string -> string) :
  User.goals (Config.user mappingConfig) = None
  /\ Template.demo_scenarios (Config.template mappingConfig) = None
  /\ Template.impact_metrics (Config.template mappingConfig) = None
  /\ readmeContent toLocaleDateString mappingConfig
     = Throw (TypeError "skills.join is not a function")
  /\ isOk (clawdbotConfig mappingConfig) = false.
Proof. repeat split. Qed.

(** Where the skills are an array and the template has automations, the
    absent optional fields are rendered as the claim says: the README
    carries the line "- General automation", the morning brief the line
    "- General productivity tasks". *)
Lemma absent_goals_placeholders (toLocaleDateString : string -> string)
    (today : string) (config : Config.t) (names : list string)
    (automations : Automations) :
  Workspace.skills (Config.workspace config) = SkillsArray names ->
  Template.automations (Config.template config) = Some automations ->
  User.goals (Config.user config) = None ->
  (exists readme,
      readmeContent toLocaleDateString config = Ok readme
      /\ String_includes readme ("Your selected goals:" +:+ nl
                                  +:+ "- General automation" +:+ nl) = true)
  /\ (exists brief,
      morningBriefContent today config = Ok brief
      /\ String_includes brief ("- General productivity tasks" +:+ nl) = true).
Proof.
  intros Hskills Hautos Hgoals. split.
  - unfold readmeContent. rewrite Hskills, Hautos, Hgoals.
    cbn [Skills_join Object_entries_opt rbind option_map orString].
    eexists. split; [reflexivity |].
    find_substring.
  - unfold morningBriefContent. rewrite Hautos, Hgoals.
    cbn [Object_entries_opt rbind option_map orString].
    eexists. split; [reflexivity |].
    find_substring.
Qed.

(** With demo scenarios and impact metrics absent, their sections of
    AGENTS.md are empty, whatever the shape of the skills. *)
Lemma absent_sections_empty (config : Config.t) :
  Template.demo_scenarios (Config.template config) = None ->
  Template.impact_metrics (Config.template config) = None ->
  exists agents,
    agentsContent config = Ok agents
    /\ String_includes agents
         ("## 💡 Demo Scenarios" +:+ nl +:+ nl +:+ nl +:+ nl
          +:+ "## ⚡ Impact Metrics" +:+ nl +:+ nl +:+ nl +:+ nl
          +:+ "## 🛠️ Available Skills") = true.
Proof.
  intros Hdemo Himpact. unfold agentsContent.
  destruct (agentsSkills_ok (Template.skills (Config.template config)))
    as [text Htext].
  rewrite Htext, Hdemo, Himpact. cbn [rbind].
  eexists. split; [reflexivity |].
  find_substring.
Qed.

(* ===================================================================== *)
(*  Further properties of the code                                        *)
(* ===================================================================== *)

(* --------------------------------------------------------------------- *)
(* Headings                                                               *)
(* --------------------------------------------------------------------- *)

Lemma toUpperCase_idempotent (c : ascii) :
  toUpperCase (toUpperCase c) = toUpperCase c.
Proof. destruct c as [[] [] [] [] [] [] [] []]; reflexivity. Qed.

Lemma isWordChar_toUpperCase (c : ascii) :
  isWordChar (toUpperCase c) = isWordChar c.
Proof. destruct c as [[] [] [] [] [] [] [] []]; reflexivity. Qed.

Lemma capitalized_no_underscore (c : ascii) (b : bool) :
  let r := if Ascii.eqb c "_" then " "%char else c in
  Ascii.eqb (if isWordChar r && negb b then toUpperCase r else r) "_" = false.
Proof. destruct c as [[] [] [] [] [] [] [] []], b; reflexivity. Qed.

Lemma capitalizeWords_idempotent (s : string) :
  forall b, capitalizeWords b (capitalizeWords b s) = capitalizeWords b s.
Proof.
  induction s as [|c s IH]; intros b; [reflexivity |].
  cbn [capitalizeWords].
  destruct (isWordChar c && negb b) eqn:Hc.
  - rewrite isWordChar_toUpperCase.
    rewrite Hc, toUpperCase_idempotent. now rewrite IH.
  - rewrite Hc. now rewrite IH.
Qed.

Lemma replaceUnderscores_settled (s : string) :
  forall b,
    replaceUnderscores (capitalizeWords b (replaceUnderscores s))
    = capitalizeWords b (replaceUnderscores s).
Proof.
  induction s as [|c s IH]; intros b; [reflexivity |].
  cbn [replaceUnderscores capitalizeWords].
  pose proof (capitalized_no_underscore c b) as Hc. cbv zeta in Hc.
  rewrite Hc. now rewrite IH.
Qed.

Lemma no_underscore (s : string) :
  forall b,
    String_includes (capitalizeWords b (replaceUnderscores s)) "_" = false.
Proof.
  induction s as [|c s IH]; intros b; [reflexivity |].
  cbn [replaceUnderscores capitalizeWords String_includes].
  rewrite IH, orb_false_r.
  pose proof (capitalized_no_underscore c b) as Hc. cbv zeta in Hc.
  cbn [String.prefix].
  match goal with |- (if ascii_dec "_" ?x then _ else _) = false =>
    destruct (ascii_dec "_" x) as [Heq|_]; [| reflexivity];
    rewrite <- Heq in Hc; discriminate Hc
  end.
Qed.

Lemma titleCase_length_aux (s : string) :
  forall b,
    String.length (capitalizeWords b (replaceUnderscores s)) = String.length s.
Proof.
  induction s as [|c s IH]; intros b; [reflexivity |].
  cbn [replaceUnderscores capitalizeWords String.length]. now rewrite IH.
Qed.

(** X1. The heading made from an automation name has as many characters
    as the name, contains no underscore, and is left as it is by a second
    pass of the same conversion. *)
Theorem X1_titleCase_shape (name : string) :
  String.length (titleCase name) = String.length name
  /\ String_includes (titleCase name) "_" = false
  /\ titleCase (titleCase name) = titleCase name.
Proof.
  unfold titleCase. split; [apply titleCase_length_aux |].
  split; [apply no_underscore |].
  rewrite replaceUnderscores_settled. apply capitalizeWords_idempotent.
Qed.

(* --------------------------------------------------------------------- *)
(* Integrations                                                           *)
(* --------------------------------------------------------------------- *)

(** X2. The integrations depend on which tools were selected, not on
    their order or on repetitions: two selections with the same members
    give the same object, whose keys are pairwise different. *)
Theorem X2_integrations_ignore_order (xs ys : list string) :
  (forall x, In x xs <-> In x ys) ->
  configureIntegrations xs = configureIntegrations ys
  /\ List.NoDup (Object_keys (configureIntegrations xs)).
Proof.
  intros Hsame. split.
  - apply configureIntegrations_ext. intros x _.
    destruct (Array_includes xs x) eqn:Hx, (Array_includes ys x) eqn:Hy;
      try reflexivity.
    + apply Array_includes_In, Hsame, Array_includes_In in Hx. congruence.
    + apply Array_includes_In, Hsame, Array_includes_In in Hy. congruence.
  - unfold configureIntegrations.
    destruct (Array_includes xs "gmail"), (Array_includes xs "calendar"),
      (Array_includes xs "github"), (Array_includes xs "social");
      cbn; repeat first [apply List.NoDup_nil | apply List.NoDup_cons];
      cbn; intuition discriminate.
Qed.

Lemma X2_integrations_ignore_order_witness :
  configureIntegrations ["github"; "gmail"; "github"]
  = configureIntegrations ["gmail"; "github"].
Proof.
  apply (X2_integrations_ignore_order ["github"; "gmail"; "github"]
           ["gmail"; "github"]).
  intros x. cbn. tauto.
Defined.

(* --------------------------------------------------------------------- *)
(* HEARTBEAT.md without periodic automations                              *)
(* --------------------------------------------------------------------- *)

Lemma no_task (task : string * Automation.t -> option string)
    (automations : Automations) :
  (forall e, In e automations -> task e = None) ->
  heartbeatSection task (Some automations) = heartbeatSection task None.
Proof.
  intros Hnone. unfold heartbeatSection.
  replace (filterBoolean (map task automations)) with (@nil string);
    [reflexivity |].
  induction automations as [|e rest IH]; [reflexivity |].
  cbn [map filterBoolean]. rewrite (Hnone e) by now left.
  apply IH. intros e' He'. apply Hnone. now right.
Qed.

(** X3. When no automation of the template has a schedule with one of
    the tokens, HEARTBEAT.md is the document of a template without
    automations: the three sections are empty. *)
Theorem X3_heartbeat_without_periodic_tasks (config : Config.t)
    (automations : Automations) :
  (forall e, In e automations -> sectionsOf e = []) ->
  heartbeatContent (withAutomations config (Some automations))
  = heartbeatContent (withAutomations config None).
Proof.
  intros Hother.
  assert (Hall : forall e, In e automations ->
            dailyTask e = None /\ weeklyTask e = None /\ monthlyTask e = None).
  { intros e He. specialize (Hother e He). unfold sectionsOf in Hother.
    destruct (isSome (dailyTask e)) eqn:Hd; [discriminate |].
    destruct (isSome (weeklyTask e)) eqn:Hw; [discriminate |].
    destruct (isSome (monthlyTask e)) eqn:Hm; [discriminate |].
    auto using isSome_None. }
  unfold heartbeatContent, withAutomations.
  cbn [Config.template Config.user Template.automations Template.name].
  rewrite !no_task; [reflexivity | | |]; intros e He; now apply Hall.
Qed.

Lemma X3_heartbeat_without_periodic_tasks_witness :
  heartbeatContent
    (withAutomations founderConfig
       (Some [("code_review",
               Automation.mk "On PR creation" (Some "Review") None None)]))
  = heartbeatContent (withAutomations founderConfig None).
Proof.
  apply X3_heartbeat_without_periodic_tasks.
  intros e [<-|[]]. reflexivity.
Defined.

(* --------------------------------------------------------------------- *)
(* System checks                                                          *)
(* --------------------------------------------------------------------- *)

(** X13. The version test accepts every Node.js major from 16 to 99 and
    rejects every major below 16; it looks at two digits only, so it also
    rejects the majors from 100 to 159. *)
Theorem X13_node_version_test (major : nat) (rest : string) :
  (16 <= major <= 99 -> nodeVersionMatch (nodeVersion major rest) = true)
  /\ (major <= 15 ->
      nodeVersionMatch (nodeVersion major ("." +:+ rest)) = false)
  /\ (100 <= major <= 159 -> nodeVersionMatch (nodeVersion major rest) = false).
Proof.
  unfold nodeVersion. split; [| split]; intros H.
  - do 100 (destruct major as [|major]; [first [lia | reflexivity] |]). lia.
  - do 16 (destruct major as [|major]; [first [lia | reflexivity] |]). lia.
  - do 160 (destruct major as [|major]; [first [lia | reflexivity] |]). lia.
Qed.

Lemma X13_node_version_test_witness :
  nodeVersionMatch "v20.11.0" = true
  /\ nodeVersionMatch "v14.21.3" = false
  /\ nodeVersionMatch "v100.0.0" = false.
Proof.
  destruct (X13_node_version_test 20 ".11.0") as (H20 & _ & _).
  destruct (X13_node_version_test 14 "21.3") as (_ & H14 & _).
  destruct (X13_node_version_test 100 ".0.0") as (_ & _ & H100).
  split; [apply H20; lia |]. split; [apply H14; lia | apply H100; lia].
Defined.

(* --------------------------------------------------------------------- *)
(* Scripts: what they keep, what they leave alone, when they return       *)
(* --------------------------------------------------------------------- *)

Lemma exec_node_frame (s : Step) (fs fs' : FS) (r : Result unit) (q : Path) :
  exec s fs = (r, fs') -> ~ touches s q -> fs' !! q = fs !! q.
Proof.
  destruct s as [p|p c|e]; cbn; intros H Ht.
  - unfold ensureDir in H. destruct (existsb _ _); inversion H; subst;
      [reflexivity |]. now apply mkdirs_lookup_notin.
  - unfold writeFile in H. destruct (negb _); [congruence |].
    destruct (isDir fs p); inversion H; subst; [reflexivity |].
    now rewrite lookup_insert_ne by congruence.
  - unfold throw in H. congruence.
Qed.

Lemma run_node_frame (script : list Step) (q : Path) :
  forall (fs fs' : FS) (r : Result unit),
    run script fs = (r, fs') ->
    (forall s, In s script -> ~ touches s q) ->
    fs' !! q = fs !! q.
Proof.
  induction script as [|s0 rest IH]; intros fs fs' r Hrun Ht.
  - cbn in Hrun. unfold ret in Hrun. congruence.
  - rewrite run_cons in Hrun.
    destruct (exec s0 fs) as [[[]|e] fs1] eqn:H0.
    + rewrite (IH fs1 fs' r Hrun) by (intros s Hs; apply Ht; now right).
      eapply exec_node_frame; [exact H0 | apply Ht; now left].
    + inversion Hrun; subst.
      eapply exec_node_frame; [exact H0 | apply Ht; now left].
Qed.

Lemma exec_kind (s : Step) (fs fs' : FS) (r : Result unit) (q : Path) :
  exec s fs = (r, fs') ->
  (fs !! q = Some Dir -> fs' !! q = Some Dir)
  /\ (isFile fs q = true -> isFile fs' q = true).
Proof.
  destruct s as [p|p c|e]; cbn; intros H.
  - unfold ensureDir in H.
    destruct (existsb (isFile fs) (prefixes p)) eqn:Hex;
      inversion H; subst; [tauto |].
    destruct (In_Path_dec q (prefixes p)) as [Hin|Hnot].
    + split; [intros _; now apply mkdirs_lookup_in |].
      intros Hf. exfalso.
      assert (existsb (isFile fs) (prefixes p) = true) as Hc
        by (apply existsb_exists; eauto).
      congruence.
    + unfold isFile. now rewrite mkdirs_lookup_notin.
  - unfold writeFile in H. destruct (negb _); [inversion H; subst; tauto |].
    destruct (isDir fs p) eqn:Hp; inversion H; subst; [tauto |].
    apply isDir_false in Hp.
    destruct (decide (p = q)) as [->|Hne].
    + split; [intros Hq; contradiction |].
      intros _. unfold isFile. now rewrite lookup_insert_eq.
    + unfold isFile. now rewrite lookup_insert_ne.
  - unfold throw in H. inversion H; subst. tauto.
Qed.

Lemma run_kind (script : list Step) (q : Path) :
  forall (fs fs' : FS) (r : Result unit),
    run script fs = (r, fs') ->
    (fs !! q = Some Dir -> fs' !! q = Some Dir)
    /\ (isFile fs q = true -> isFile fs' q = true).
Proof.
  induction script as [|s0 rest IH]; intros fs fs' r Hrun.
  - cbn in Hrun. unfold ret in Hrun. inversion Hrun; subst. tauto.
  - rewrite run_cons in Hrun.
    destruct (exec s0 fs) as [[[]|e] fs1] eqn:H0.
    + destruct (exec_kind _ _ _ _ q H0) as [Hd Hf].
      destruct (IH _ _ _ Hrun) as [Hd' Hf']. split; auto.
    + inversion Hrun; subst. eapply exec_kind; exact H0.
Qed.

Lemma run_app (a b : list Step) (fs : FS) :
  run (a ++ b) fs
  = match run a fs with
    | (Ok _, fs1) => run b fs1
    | (Throw e, fs1) => (Throw e, fs1)
    end.
Proof.
  revert fs. induction a as [|s a IH]; intros fs; [reflexivity |].
  cbn [app]. rewrite !run_cons.
  destruct (exec s fs) as [[[]|e] fs1]; [apply IH | reflexivity].
Qed.

Lemma plan_returns (script : list Step) :
  forall (cur fs : FS) (D W : list Path),
    tracks cur fs D W -> plan script D W fs ->
    exists cur', run script cur = (Ok tt, cur').
Proof.
  induction script as [|s rest IH]; intros cur fs D W (HW & HD & Hout) Hplan.
  - exists cur. reflexivity.
  - rewrite run_cons. destruct s as [p|p c|e]; cbn [plan] in Hplan; [| | tauto].
    + destruct Hplan as [Hfree Hrest].
      assert (H0 : exec (SEnsure p) cur = (Ok tt, mkdirs (prefixes p) cur)).
      { apply ensureDir_ok. split; [| reflexivity].
        intros q Hq. destruct (Hfree q Hq) as [Hf HnW].
        destruct (In_Path_dec q D) as [HinD|HnD].
        - unfold isFile. now rewrite (HD q HinD).
        - unfold isFile. rewrite (Hout q HnW HnD). exact Hf. }
      rewrite H0. apply (IH _ fs (prefixes p ++ D) W); [| exact Hrest].
      split; [| split].
      * intros q Hq. unfold isFile. rewrite mkdirs_lookup_notin.
        -- apply HW, Hq.
        -- intros Hin. now apply (Hfree q Hin).
      * intros q Hq. apply in_app_or in Hq.
        destruct (In_Path_dec q (prefixes p)) as [Hin|Hnot].
        -- now apply mkdirs_lookup_in.
        -- rewrite mkdirs_lookup_notin by exact Hnot.
           destruct Hq as [Hq|Hq]; [contradiction | now apply HD].
      * intros q HnW HnD. rewrite mkdirs_lookup_notin.
        -- apply Hout; [exact HnW |]. intros Hq. apply HnD, in_or_app. now right.
        -- intros Hq. apply HnD, in_or_app. now left.
    + destruct Hplan as (Hparent & HpW & Hp & HpD & Hrest).
      assert (H0 : exec (SWrite p c) cur = (Ok tt, <[p := File c]> cur)).
      { apply writeFile_ok. split; [| split; [| reflexivity]].
        - destruct (In_Path_dec (dirname p) D) as [HinD|HnD];
            [now apply HD |].
          rewrite (Hout _ HpW HnD). tauto.
        - destruct (In_Path_dec p W) as [HinW|HnW].
          + specialize (HW p HinW). unfold isFile in HW.
            destruct (cur !! p) as [[|c']|]; congruence.
          + now rewrite (Hout _ HnW HpD). }
      rewrite H0. apply (IH _ fs D (p :: W)); [| exact Hrest].
      split; [| split].
      * intros q [<-|Hq]; unfold isFile.
        -- now rewrite lookup_insert_eq.
        -- destruct (decide (p = q)) as [->|Hne];
             [now rewrite lookup_insert_eq |].
           rewrite lookup_insert_ne by exact Hne. apply HW, Hq.
      * intros q Hq. rewrite lookup_insert_ne; [now apply HD |].
        intros ->. contradiction.
      * intros q HnW HnD. rewrite lookup_insert_ne.
        -- apply Hout; [| exact HnD]. intros Hq. apply HnW. now right.
        -- intros ->. apply HnW. now left.
Qed.

Lemma plan_from_start (script : list Step) (fs : FS) :
  plan script [] [] fs -> exists fs', run script fs = (Ok tt, fs').
Proof.
  apply plan_returns. repeat split; intros; try contradiction; reflexivity.
Qed.

Lemma prefixes_length (p q : Path) : In q (prefixes p) -> length q <= length p.
Proof.
  intros H. apply prefixes_prefix in H. destruct H as [r ->].
  rewrite length_app. lia.
Qed.

Lemma snd_then_ret {A : Type} (m : Async unit) (a : A) (fs : FS) :
  snd ((m ;; ret a) fs) = snd (m fs).
Proof. unfold bind, ret. now destruct (m fs) as [[[]|e] fs1]. Qed.

Ltac by_length :=
  let H := fresh in
  intros H; apply prefixes_length in H; rewrite ?length_app in H;
  cbn [length] in H; lia.

Ltac off_path := first [not_prefix | by_length | path_neq].

(* --------------------------------------------------------------------- *)
(* generateSetup: what it keeps and how it fails                          *)
(* --------------------------------------------------------------------- *)

Section SetupFurther.

Variable JSON_stringify : Json -> option nat -> string.

(** X4. Whatever its outcome, [generateSetup] removes nothing: a path
    that was a directory is a directory afterwards, a path that was a
    regular file is a regular file afterwards. *)
Theorem X4_generateSetup_removes_nothing (today : string) (config : Config.t)
    (workspacePath : Path) (fs : FS) (q : Path) :
  let fs' := snd (generateSetup JSON_stringify today config workspacePath fs) in
  (fs !! q = Some Dir -> fs' !! q = Some Dir)
  /\ (isFile fs q = true -> isFile fs' q = true).
Proof.
  cbv zeta. rewrite generateSetup_run, snd_then_ret.
  destruct (run (setupScript JSON_stringify today config workspacePath) fs)
    as [r fs'] eqn:Hrun.
  cbn [snd]. eapply run_kind; exact Hrun.
Qed.

Lemma setup_first_steps_plan (config : Config.t) (workspacePath : Path)
    (fs : FS) (agents example : string) :
  nameText (User.type (Config.user config)) = true ->
  (forall q, In q (prefixes (workspacePath ++ ["templates"])) ->
             isFile fs q = false) ->
  fs !! agentsPath workspacePath <> Some Dir ->
  fs !! heartbeatPath workspacePath <> Some Dir ->
  fs !! templatePath config workspacePath <> Some Dir ->
  plan [SEnsure workspacePath;
        SWrite (agentsPath workspacePath) agents;
        SWrite (heartbeatPath workspacePath) (heartbeatContent config);
        SEnsure (workspacePath ++ ["templates"]);
        SWrite (templatePath config workspacePath) example] [] [] fs.
Proof.
  intros Hplain Hfree HA HH HT.
  rewrite (templatePath_plain config workspacePath Hplain) in *.
  unfold agentsPath, heartbeatPath in *.
  cbn [plan]. rewrite !dirname_app.
  pose proof (prefixes_self workspacePath) as Hself.
  repeat split.
  - apply Hfree. now apply prefixes_app.
  - tauto.
  - left. apply in_or_app. now left.
  - tauto.
  - exact HA.
  - intros Hin. apply in_app_or in Hin. destruct Hin as [Hin|[]].
    revert Hin. off_path.
  - left. apply in_or_app. now left.
  - intros [Heq|[]]. revert Heq. rewrite <- (app_nil_r workspacePath) at 2.
    path_neq.
  - exact HH.
  - intros Hin. apply in_app_or in Hin. destruct Hin as [Hin|[]].
    revert Hin. off_path.
  - now apply Hfree.
  - intros [Heq|[Heq|[]]]; subst q; revert H; off_path.
  - left. apply in_or_app. left. apply prefixes_self.
  - intros [Heq|[Heq|[]]]; revert Heq; path_neq.
  - exact HT.
  - intros Hin. apply in_app_or in Hin. destruct Hin as [Hin|Hin].
    + revert Hin. off_path.
    + apply in_app_or in Hin. destruct Hin as [Hin|[]]. revert Hin. off_path.
Qed.

(** X5. Two ways [generateSetup] fails.  Where a regular file sits at
    the workspace path or at one of its ancestors, it throws a file system
    error and changes nothing.  Where the template has no automations,
    the user type holds no separator and no NUL character, and nothing
    is in the way, it throws
    a TypeError from the morning brief, after AGENTS.md, HEARTBEAT.md and
    the automation template were written: those three hold their
    documents, morning-brief.md is as it was. *)
Theorem X5_generateSetup_failures (today : string) (config : Config.t)
    (workspacePath : Path) (fs : FS) :
  let out := generateSetup JSON_stringify today config workspacePath fs in
  ((exists q, In q (prefixes workspacePath) /\ isFile fs q = true) ->
   exists code, out = (Throw (FileSystemError code workspacePath), fs))
  /\ (Template.automations (Config.template config) = None ->
      nameText (User.type (Config.user config)) = true ->
      (forall q, In q (prefixes (workspacePath ++ ["templates"])) ->
                 isFile fs q = false) ->
      fs !! agentsPath workspacePath <> Some Dir ->
      fs !! heartbeatPath workspacePath <> Some Dir ->
      fs !! templatePath config workspacePath <> Some Dir ->
      fst out = Throw (TypeError "Cannot convert undefined or null to object")
      /\ (exists agents,
             agentsContent config = Ok agents
             /\ readFile (snd out) (agentsPath workspacePath) = Some agents)
      /\ readFile (snd out) (heartbeatPath workspacePath)
         = Some (heartbeatContent config)
      /\ (exists example,
             automationExample config = Ok example
             /\ readFile (snd out) (templatePath config workspacePath)
                = Some (JSON_stringify example (Some 2)))
      /\ readFile (snd out) (morningBriefPath workspacePath)
         = readFile fs (morningBriefPath workspacePath)).
Proof.
  cbv zeta. split.
  - intros [q [Hq Hf]].
    unfold generateSetup, generateOpenClawWorkspace, bind, ensureDir.
    assert (existsb (isFile fs) (prefixes workspacePath) = true) as ->
      by (apply existsb_exists; eauto).
    eexists. reflexivity.
  - intros Hautos Hplain Hfree HA HH HT.
    rewrite generateSetup_run. unfold setupScript.
    destruct (agentsSkills_ok (Template.skills (Config.template config)))
      as [skillsList Hskills].
    destruct (automationExample_ok config) as [example Hexample].
    assert (Hagents : exists agents, agentsContent config = Ok agents).
    { unfold agentsContent. rewrite Hskills. cbn [rbind]. eauto. }
    destruct Hagents as [agents Hagents].
    assert (Hbrief : morningBriefContent today config
                     = Throw (TypeError "Cannot convert undefined or null to object")).
    { unfold morningBriefContent. now rewrite Hautos. }
    rewrite Hagents, Hexample, Hbrief. cbn [writeStep rmap].
    match goal with
    | |- context [run (?s1 :: ?s2 :: ?s3 :: ?s4 :: ?s5 :: [?s6])] =>
        change (s1 :: s2 :: s3 :: s4 :: s5 :: [s6])
          with ([s1; s2; s3; s4; s5] ++ [s6]);
        set (first5 := [s1; s2; s3; s4; s5])
    end.
    destruct (plan_from_start first5 fs) as [fs5 Hrun].
    { now apply setup_first_steps_plan. }
    unfold bind. rewrite run_app, Hrun. cbn [run exec fst snd].
    unfold bind, throw. cbn [fst snd].
    assert (Hcompat : compatible first5).
    { subst first5. unfold agentsPath, heartbeatPath.
      cbn [compatible]. repeat split;
        intros s' Hs'; cbn [In] in Hs';
        repeat (destruct Hs' as [<-|Hs'];
                [cbn [compat]; try exact I; first [path_neq | template_neq] |]);
        destruct Hs'. }
    pose proof (run_stable _ _ _ Hcompat Hrun) as Hst.
    split; [reflexivity |].
    split; [| split; [| split]].
    + exists agents. split; [reflexivity |]. unfold readFile.
      destruct (Hst (SWrite (agentsPath workspacePath) agents)) as [_ ->];
        [subst first5; cbn; tauto | reflexivity].
    + unfold readFile.
      destruct (Hst (SWrite (heartbeatPath workspacePath)
                            (heartbeatContent config))) as [_ ->];
        [subst first5; cbn; tauto | reflexivity].
    + exists example. split; [reflexivity |]. unfold readFile.
      destruct (Hst (SWrite (templatePath config workspacePath)
                            (JSON_stringify example (Some 2)))) as [_ ->];
        [subst first5; cbn; tauto | reflexivity].
    + eapply run_frame; [exact Hrun |].
      intros s Hs. subst first5.
      unfold agentsPath, heartbeatPath, morningBriefPath in *.
      cbn [In] in Hs.
      repeat (destruct Hs as [<-|Hs];
              [cbn [writesTo]; try tauto; first [path_neq | template_neq] |]).
      destruct Hs.
Qed.

End SetupFurther.

Lemma X4_generateSetup_removes_nothing_witness :
  isFile (snd (generateSetup sampleJSON "1/5/2026" founderConfig clawd keepsake))
         ["home"; "clawd"; "notes.txt"] = true.
Proof.
  apply (X4_generateSetup_removes_nothing sampleJSON "1/5/2026" founderConfig
           clawd keepsake ["home"; "clawd"; "notes.txt"]).
  reflexivity.
Defined.

Lemma X5_generateSetup_failures_witness :
  fst (generateSetup sampleJSON "1/5/2026" (withAutomations founderConfig None)
         clawd ∅)
  = Throw (TypeError "Cannot convert undefined or null to object")
  /\ exists code,
       generateSetup sampleJSON "1/5/2026" founderConfig clawd
         {[ ["home"] := File "not a directory" ]}
       = (Throw (FileSystemError code clawd),
          {[ ["home"] := File "not a directory" ]}).
Proof.
  split.
  - apply (X5_generateSetup_failures sampleJSON "1/5/2026"
             (withAutomations founderConfig None) clawd ∅).
    + reflexivity.
    + reflexivity.
    + intros q _. reflexivity.
    + rewrite lookup_empty. discriminate.
    + rewrite lookup_empty. discriminate.
    + rewrite lookup_empty. discriminate.
  - apply (X5_generateSetup_failures sampleJSON "1/5/2026" founderConfig clawd
             {[ ["home"] := File "not a directory" ]}).
    exists ["home"]. split; [cbn; tauto | reflexivity].
Defined.

(* --------------------------------------------------------------------- *)
(* generateAutomations and createWorkspaceStructure                       *)
(* --------------------------------------------------------------------- *)

Section LegacyFurther.

Variable yaml_stringify : Json -> string.
Variable JSON_stringify : Json -> option nat -> string.

Lemma generateAutomations_returns (config : Config.t) (workspacePath : Path)
    (fs : FS) :
  Template.automations (Config.template config) <> None ->
  fs !! (workspacePath ++ ["automations"]) = Some Dir ->
  fs !! morningBriefYamlPath workspacePath <> Some Dir ->
  fs !! investorUpdatePath workspacePath <> Some Dir ->
  fs !! codeReviewPath workspacePath <> Some Dir ->
  fst (generateAutomations yaml_stringify config workspacePath fs) = Ok tt.
Proof.
  intros Hautos Hdir Hmb Hiu Hcr. rewrite generateAutomations_run.
  destruct (plan_from_start (automationsScript yaml_stringify config workspacePath)
              fs) as [fs' ->]; [| reflexivity].
  unfold automationsScript, morningBriefYamlPath, investorUpdatePath,
    codeReviewPath in *.
  destruct (Template.automations (Config.template config)) as [automations|];
    [| congruence].
  destruct (String.eqb (User.type (Config.user config)) "founder");
    [| destruct (String.eqb (User.type (Config.user config)) "engineer")];
    cbn [writeStep plan]; rewrite ?dirname_app; repeat split;
    try tauto; try assumption;
    intros [Heq|[]]; revert Heq;
    rewrite <- (app_nil_r (workspacePath ++ ["automations"])) at 1;
    path_neq.
Qed.

(** X6. Two ways [generateAutomations] fails, both before anything is
    written: a TypeError where the template has no automations, a file
    system error where the workspace has no automations directory.
    [generateSetup] does not make that directory, so calling
    [generateAutomations] after it fails in the same way. *)
Theorem X6_generateAutomations_failures (today : string) (config : Config.t)
    (workspacePath : Path) (fs : FS) :
  (Template.automations (Config.template config) = None ->
   exists what,
     generateAutomations yaml_stringify config workspacePath fs
     = (Throw (TypeError what), fs))
  /\ (Template.automations (Config.template config) <> None ->
      fs !! (workspacePath ++ ["automations"]) <> Some Dir ->
      (exists code,
          generateAutomations yaml_stringify config workspacePath fs
          = (Throw (FileSystemError code (morningBriefYamlPath workspacePath)),
             fs))
      /\ exists code,
           fst (generateAutomations yaml_stringify config workspacePath
                  (snd (generateSetup JSON_stringify today config
                          workspacePath fs)))
           = Throw (FileSystemError code (morningBriefYamlPath workspacePath))).
Proof.
  assert (Hmissing : forall fs0 : FS,
    Template.automations (Config.template config) <> None ->
    fs0 !! (workspacePath ++ ["automations"]) <> Some Dir ->
    exists code,
      generateAutomations yaml_stringify config workspacePath fs0
      = (Throw (FileSystemError code (morningBriefYamlPath workspacePath)), fs0)).
  { intros fs0 Hautos Hdir.
    unfold generateAutomations, bind, lift, writeFile, morningBriefYamlPath.
    destruct (Template.automations (Config.template config)) as [automations|];
      [| congruence].
    rewrite dirname_app. apply isDir_false in Hdir. rewrite Hdir. cbn [negb].
    eexists. reflexivity. }
  split.
  - intros Hautos. unfold generateAutomations, bind, lift. rewrite Hautos.
    eexists. reflexivity.
  - intros Hautos Hdir. split; [now apply Hmissing |].
    destruct (Hmissing (snd (generateSetup JSON_stringify today config
                               workspacePath fs)) Hautos) as [code ->];
      [| eexists; reflexivity].
    rewrite generateSetup_run, snd_then_ret.
    destruct (run (setupScript JSON_stringify today config workspacePath) fs)
      as [r fs'] eqn:Hrun.
    cbn [snd]. rewrite (run_node_frame _ _ _ _ _ Hrun); [exact Hdir |].
    intros s Hs. unfold setupScript, agentsPath, heartbeatPath,
      morningBriefPath in Hs.
    destruct (agentsContent config), (automationExample config),
      (morningBriefContent today config);
      cbn [writeStep rmap In] in Hs;
      repeat (destruct Hs as [<-|Hs];
              [cbn [touches]; try tauto; first [off_path | template_neq] |]);
      destruct Hs.
Qed.

Lemma ensure_all_plan (ps : list Path) (fs : FS) :
  forall D,
    (forall p q, In p ps -> In q (prefixes p) -> isFile fs q = false) ->
    plan (map SEnsure ps) D [] fs.
Proof.
  induction ps as [|p ps IH]; intros D Hfree; [exact I |].
  cbn [map plan]. split.
  - intros q Hq. split; [| tauto]. apply (Hfree p q); [now left | exact Hq].
  - apply IH. intros p' q Hp' Hq. apply (Hfree p' q); [now right | exact Hq].
Qed.

Lemma ensure_all_compatible (ps : list Path) : compatible (map SEnsure ps).
Proof.
  induction ps as [|p ps IH]; [exact I |].
  cbn [map compatible]. split; [| exact IH]. intros s' _. exact I.
Qed.

(** X7. Where no regular file is in the way, [createWorkspaceStructure]
    returns and config, automations, workflows, integrations, docs and
    logs are directories of the workspace; no file content changes; and
    [generateAutomations] called next returns, for any configuration
    whose template has automations, provided none of its three files is a
    directory. *)
Theorem X7_createWorkspaceStructure_prepares (workspacePath : Path) (fs : FS) :
  (forall dir q,
      In dir ["config"; "automations"; "workflows"; "integrations"; "docs"; "logs"] ->
      In q (prefixes (workspacePath ++ [dir])) -> isFile fs q = false) ->
  exists fs',
    createWorkspaceStructure workspacePath fs = (Ok tt, fs')
    /\ (forall dir,
          In dir ["config"; "automations"; "workflows"; "integrations"; "docs"; "logs"] ->
          fs' !! (workspacePath ++ [dir]) = Some Dir)
    /\ (forall q, readFile fs' q = readFile fs q)
    /\ (forall config,
          Template.automations (Config.template config) <> None ->
          fs !! morningBriefYamlPath workspacePath <> Some Dir ->
          fs !! investorUpdatePath workspacePath <> Some Dir ->
          fs !! codeReviewPath workspacePath <> Some Dir ->
          fst (generateAutomations yaml_stringify config workspacePath fs')
          = Ok tt).
Proof.
  intros Hfree.
  change (createWorkspaceStructure workspacePath fs)
    with (run (structureScript workspacePath) fs).
  destruct (plan_from_start (structureScript workspacePath) fs) as [fs' Hrun].
  { unfold structureScript. rewrite <- map_map.
    apply ensure_all_plan. intros p q Hp Hq.
    apply in_map_iff in Hp. destruct Hp as [dir [<- Hdir]].
    now apply (Hfree dir q). }
  exists fs'. split; [exact Hrun |].
  assert (Hdirs : forall dir,
    In dir ["config"; "automations"; "workflows"; "integrations"; "docs"; "logs"] ->
    fs' !! (workspacePath ++ [dir]) = Some Dir).
  { intros dir Hdir.
    assert (Hst : stable (SEnsure (workspacePath ++ [dir])) fs').
    { eapply run_stable; [| exact Hrun |].
      - unfold structureScript. rewrite <- map_map. apply ensure_all_compatible.
      - unfold structureScript.
        apply (in_map (fun d => SEnsure (workspacePath ++ [d]))). exact Hdir. }
    apply Hst, prefixes_self. }
  assert (Hnodes : forall q,
    length workspacePath + 2 <= length q -> fs' !! q = fs !! q).
  { intros q Hlen. eapply run_node_frame; [exact Hrun |].
    intros s Hs. unfold structureScript in Hs.
    apply in_map_iff in Hs. destruct Hs as [dir [<- _]]. cbn [touches].
    intros Hin. apply prefixes_length in Hin.
    rewrite length_app in Hin. cbn [length] in Hin. lia. }
  split; [exact Hdirs |]. split.
  - intros q. eapply run_frame; [exact Hrun |].
    intros s Hs. unfold structureScript in Hs.
    apply in_map_iff in Hs. destruct Hs as [dir [<- _]]. cbn. tauto.
  - intros config Hautos Hmb Hiu Hcr.
    apply generateAutomations_returns; try assumption.
    + apply Hdirs. cbn. tauto.
    + rewrite Hnodes; [exact Hmb |].
      unfold morningBriefYamlPath. rewrite !length_app. cbn. lia.
    + rewrite Hnodes; [exact Hiu |].
      unfold investorUpdatePath. rewrite !length_app. cbn. lia.
    + rewrite Hnodes; [exact Hcr |].
      unfold codeReviewPath. rewrite !length_app. cbn. lia.
Qed.

End LegacyFurther.

Lemma X6_generateAutomations_failures_witness :
  exists code,
    fst (generateAutomations sampleYaml founderConfig clawd
           (snd (generateSetup sampleJSON "1/5/2026" founderConfig clawd ∅)))
    = Throw (FileSystemError code (morningBriefYamlPath clawd)).
Proof.
  apply (X6_generateAutomations_failures sampleYaml sampleJSON "1/5/2026"
           founderConfig clawd ∅).
  - cbn. discriminate.
  - rewrite lookup_empty. discriminate.
Defined.

Lemma X7_createWorkspaceStructure_prepares_witness :
  exists fs',
    createWorkspaceStructure clawd ∅ = (Ok tt, fs')
    /\ fs' !! (clawd ++ ["automations"]) = Some Dir
    /\ fst (generateAutomations sampleYaml founderConfig clawd fs') = Ok tt.
Proof.
  destruct (X7_createWorkspaceStructure_prepares sampleYaml clawd ∅)
    as (fs' & Hrun & Hdirs & _ & Hnext).
  - intros dir q _ _. reflexivity.
  - exists fs'. split; [exact Hrun |]. split.
    + apply Hdirs. cbn. tauto.
    + apply Hnext.
      * cbn. discriminate.
      * rewrite lookup_empty. discriminate.
      * rewrite lookup_empty. discriminate.
      * rewrite lookup_empty. discriminate.
Defined.

(* --------------------------------------------------------------------- *)
(* README.md and clawdbot.yaml: when they render                          *)
(* --------------------------------------------------------------------- *)

(** X8. README.md renders exactly when the skills are an array and the
    template has automations, clawdbot.yaml exactly when the skills are
    an array; when one does not render, its generator throws and leaves
    the file system as it was. *)
Theorem X8_legacy_renderers_conditions (yaml_stringify : Json -> string)
    (toLocaleDateString : string -> string) (config : Config.t)
    (workspacePath : Path) (fs : FS) :
  (isOk (readmeContent toLocaleDateString config) = true
   <-> (exists names, Workspace.skills (Config.workspace config) = SkillsArray names)
       /\ Template.automations (Config.template config) <> None)
  /\ (isOk (clawdbotConfig config) = true
      <-> exists names,
            Workspace.skills (Config.workspace config) = SkillsArray names)
  /\ (isOk (readmeContent toLocaleDateString config) = false ->
      isOk (fst (generateDocumentation toLocaleDateString config workspacePath fs))
      = false
      /\ snd (generateDocumentation toLocaleDateString config workspacePath fs)
         = fs)
  /\ (isOk (clawdbotConfig config) = false ->
      isOk (fst (generateClawdbotConfig yaml_stringify config workspacePath fs))
      = false
      /\ snd (generateClawdbotConfig yaml_stringify config workspacePath fs) = fs).
Proof.
  split; [| split; [| split]].
  - unfold readmeContent.
    destruct (Workspace.skills (Config.workspace config)) as [names|entries];
      destruct (Template.automations (Config.template config)) as [autos|];
      cbn [Skills_join Object_entries_opt rbind isOk].
    + split; [intros _; split; [eauto | discriminate] | reflexivity].
    + split; [discriminate | intros [_ H]; congruence].
    + split; [discriminate | intros [[names' H] _]; discriminate H].
    + split; [discriminate | intros [[names' H] _]; discriminate H].
  - unfold clawdbotConfig.
    destruct (Workspace.skills (Config.workspace config)) as [names|entries];
      cbn [Skills_map rbind isOk].
    + split; [eauto | reflexivity].
    + split; [discriminate | intros [names' H]; discriminate H].
  - unfold generateDocumentation, bind, lift.
    destruct (readmeContent toLocaleDateString config) as [readme|e];
      [discriminate |].
    intros _. split; reflexivity.
  - unfold generateClawdbotConfig, bind, lift.
    destruct (clawdbotConfig config) as [v|e]; [discriminate |].
    intros _. split; reflexivity.
Qed.

Lemma X8_legacy_renderers_conditions_witness :
  isOk (readmeContent (fun s => s) founderConfig) = true
  /\ snd (generateDocumentation (fun s => s) mappingConfig clawd ∅) = ∅.
Proof.
  destruct (X8_legacy_renderers_conditions sampleYaml (fun s => s) founderConfig
              clawd ∅) as (Hreadme & _ & _ & _).
  destruct (X8_legacy_renderers_conditions sampleYaml (fun s => s) mappingConfig
              clawd ∅) as (_ & _ & Hthrows & _).
  split.
  - apply Hreadme. split; [eexists; reflexivity | cbn; discriminate].
  - apply Hthrows. reflexivity.
Defined.

(* --------------------------------------------------------------------- *)
(* The skills configuration                                               *)
(* --------------------------------------------------------------------- *)




(* --------------------------------------------------------------------- *)
(* setupWorkspace, later revision                                         *)
(* --------------------------------------------------------------------- *)

Section WorkspaceFurther.

Variable JSON_stringify : Json -> option nat -> string.

Lemma configureSkillsForRole_step (config : Config.t) (workspacePath : Path)
    (fs : FS) :
  configureSkillsForRole JSON_stringify config workspacePath fs
  = exec (writeStep (skillsConfigPath workspacePath)
            (rmap (configSnippet JSON_stringify) (skillsConfig config))) fs.
Proof.
  unfold configureSkillsForRole, bind, lift.
  destruct (skillsConfig config); reflexivity.
Qed.

Lemma setupWorkspace_run (today : string) (config : Config.t)
    (workspacePath : Path) (fs : FS) :
  setupWorkspace JSON_stringify today config workspacePath fs
  = (run (workspaceScript JSON_stringify today config workspacePath)
     ;; ret workspacePath) fs.
Proof.
  unfold setupWorkspace, workspaceScript, bind. rewrite run_cons.
  change (exec (SEnsure workspacePath) fs) with (ensureDir workspacePath fs).
  destruct (ensureDir workspacePath fs) as [[[]|e] fs1]; [| reflexivity].
  rewrite generateSetup_run, run_app. unfold bind, ret.
  destruct (run (setupScript JSON_stringify today config workspacePath) fs1)
    as [[[]|e] fs2]; [| reflexivity].
  rewrite configureSkillsForRole_step, run_cons.
  destruct (exec _ fs2) as [[[]|e] fs3]; reflexivity.
Qed.

Lemma workspaceScript_compatible (today : string) (config : Config.t)
    (workspacePath : Path) :
  compatible (workspaceScript JSON_stringify today config workspacePath).
Proof.
  unfold workspaceScript, setupScript, agentsPath, heartbeatPath,
    morningBriefPath, skillsConfigPath.
  destruct (agentsContent config) as [agents|e1];
    destruct (automationExample config) as [example|e2];
    destruct (morningBriefContent today config) as [brief|e3];
    destruct (skillsConfig config) as [skills|e4];
    cbn [writeStep rmap compatible app];
    repeat split;
    intros s' Hs'; cbn [In] in Hs';
    repeat (destruct Hs' as [<-|Hs'];
            [cbn [compat]; try exact I; first [path_neq | template_neq] |]);
    destruct Hs'.
Qed.

Lemma workspaceScript_written (today : string) (config : Config.t)
    (workspacePath : Path) (q : Path) :
  In q (map fst (written (workspaceScript JSON_stringify today config
                            workspacePath))) ->
  In q [agentsPath workspacePath; heartbeatPath workspacePath;
        templatePath config workspacePath; morningBriefPath workspacePath;
        skillsConfigPath workspacePath].
Proof.
  unfold workspaceScript, setupScript.
  destruct (agentsContent config) as [agents|e1];
    destruct (automationExample config) as [example|e2];
    destruct (morningBriefContent today config) as [brief|e3];
    destruct (skillsConfig config) as [skills|e4];
    cbn; tauto.
Qed.

(** X10. [setupWorkspace] changes the content of five files at most: the
    four documents of [generateSetup] and openclaw-skills-config.json.
    It removes nothing, and a second run with the same configuration and
    date, from the state the first run left, returns what the first
    returned and changes nothing. *)
Theorem X10_setupWorkspace_repeatable (today : string) (config : Config.t)
    (workspacePath : Path) (fs : FS) :
  let out := setupWorkspace JSON_stringify today config workspacePath fs in
  setupWorkspace JSON_stringify today config workspacePath (snd out) = out
  /\ (forall q,
        ~ In q [agentsPath workspacePath; heartbeatPath workspacePath;
                templatePath config workspacePath;
                morningBriefPath workspacePath;
                skillsConfigPath workspacePath] ->
        readFile (snd out) q = readFile fs q)
  /\ (forall q, fs !! q = Some Dir -> snd out !! q = Some Dir)
  /\ (forall q, isFile fs q = true -> isFile (snd out) q = true).
Proof.
  cbv zeta. rewrite (setupWorkspace_run today config workspacePath fs).
  rewrite setupWorkspace_run, snd_then_ret.
  destruct (run (workspaceScript JSON_stringify today config workspacePath) fs)
    as [r fs'] eqn:Hrun.
  cbn [snd].
  pose proof (run_idempotent _ _ _ _
                (workspaceScript_compatible today config workspacePath) Hrun)
    as Hagain.
  split; [unfold bind, ret; rewrite Hagain, Hrun; reflexivity |].
  split; [| split].
  - intros q Hq. eapply run_frame; [exact Hrun |].
    apply not_written_frame. intros Hin. apply Hq.
    eapply workspaceScript_written; exact Hin.
  - intros q. eapply run_kind; exact Hrun.
  - intros q. eapply run_kind; exact Hrun.
Qed.

End WorkspaceFurther.

Lemma X10_setupWorkspace_repeatable_witness :
  readFile (snd (setupWorkspace sampleJSON "1/5/2026" founderConfig clawd keepsake))
           ["home"; "clawd"; "notes.txt"] = Some "mine"
  /\ isFile (snd (setupWorkspace sampleJSON "1/5/2026" founderConfig clawd keepsake))
            ["home"; "clawd"; "openclaw-skills-config.json"] = true.
Proof.
  destruct (X10_setupWorkspace_repeatable sampleJSON "1/5/2026" founderConfig
              clawd keepsake) as (_ & Hframe & _ & _).
  split.
  - rewrite Hframe; [reflexivity |].
    cbn. intros [H|[H|[H|[H|[H|[]]]]]]; discriminate H.
  - vm_compute. reflexivity.
Defined.

(* --------------------------------------------------------------------- *)
(* installRequiredSkills, earlier revision                                *)
(* --------------------------------------------------------------------- *)

(** What a run that returned leaves in a file: the text written to it, if
    every write to it carried the same text. *)
Lemma run_last_write (script : list Step) (p : Path) (content : string) :
  forall (fs fs' : FS),
    run script fs = (Ok tt, fs') ->
    (forall c', In (SWrite p c') script -> c' = content) ->
    readFile fs p = Some content \/ In (SWrite p content) script ->
    readFile fs' p = Some content.
Proof.
  induction script as [|s0 rest IH]; intros fs fs' Hrun Hsame Hstart.
  - cbn in Hrun. unfold ret in Hrun. inversion Hrun; subst.
    destruct Hstart as [H|[]]. exact H.
  - rewrite run_cons in Hrun.
    destruct (exec s0 fs) as [[[]|e] fs1] eqn:H0; [| discriminate].
    apply (IH fs1 fs' Hrun); [intros c' Hc'; apply Hsame; now right |].
    assert (Hwrite : forall c', s0 = SWrite p c' -> readFile fs1 p = Some content).
    { intros c' ->. rewrite (Hsame c') in H0 by now left.
      apply exec_stable in H0. destruct H0 as [_ H0].
      unfold readFile. now rewrite H0. }
    destruct Hstart as [Hread|[Heq|Hin]].
    + left. destruct s0 as [q|q c'|e].
      * rewrite <- Hread. eapply exec_frame; [exact H0 | cbn; tauto].
      * destruct (decide (q = p)) as [->|Hne]; [now apply (Hwrite c') |].
        rewrite <- Hread. eapply exec_frame; [exact H0 | cbn; congruence].
      * cbn in H0. unfold throw in H0. discriminate.
    + left. now apply (Hwrite content).
    + now right.
Qed.

Section InstallFurther.

Variable JSON_stringify : Json -> option nat -> string.

Lemma installSkill_run (skillsDir : Path) (skill : string) (fs : FS) :
  Rev1.installSkill JSON_stringify skillsDir skill fs
  = run (skillSteps JSON_stringify skillsDir skill) fs.
Proof.
  unfold Rev1.installSkill, skillSteps. cbn [run exec]. unfold bind, ret.
  repeat (match goal with
          | |- context [ensureDir ?p ?fs] =>
              destruct (ensureDir p fs) as [[[]|?] ?]
          | |- context [writeFile ?p ?c ?fs] =>
              destruct (writeFile p c fs) as [[[]|?] ?]
          end; try reflexivity).
Qed.

Lemma install_loop_run (skillsDir : Path) (names : list string) :
  forall fs,
    foldr (fun skill rest => Rev1.installSkill JSON_stringify skillsDir skill ;; rest)
          (ret tt) names fs
    = run (flat_map (skillSteps JSON_stringify skillsDir) names) fs.
Proof.
  induction names as [|skill names IH]; intros fs; [reflexivity |].
  cbn [foldr flat_map]. rewrite run_app. unfold bind at 1.
  rewrite installSkill_run.
  destruct (run (skillSteps JSON_stringify skillsDir skill) fs)
    as [[[]|e] fs1]; [apply IH | reflexivity].
Qed.

Lemma installRequiredSkills_run (skills : Skills) (workspacePath : Path)
    (fs : FS) :
  Rev1.installRequiredSkills JSON_stringify skills workspacePath fs
  = run (installScript JSON_stringify skills workspacePath) fs.
Proof.
  unfold Rev1.installRequiredSkills, installScript, bind, lift.
  rewrite run_cons. cbn [exec].
  destruct (ensureDir (workspacePath ++ ["skills"]) fs) as [[[]|e] fs1];
    [| reflexivity].
  destruct (forOf skills) as [names|e]; [apply install_loop_run | reflexivity].
Qed.

Lemma skills_plan (skillsDir : Path) (fs : FS) (names : list string) :
  forall D W,
    (forall q, In q D -> length q <= length skillsDir + 1) ->
    (forall q, In q W -> length q = length skillsDir + 2) ->
    (forall skill, In skill names -> plainName skill = true) ->
    (forall skill q, In skill names -> In q (prefixes (skillsDir ++ [skill])) ->
                     isFile fs q = false) ->
    (forall skill, In skill names ->
       fs !! ((skillsDir ++ [skill]) ++ ["SKILL.md"]) <> Some Dir
       /\ fs !! ((skillsDir ++ [skill]) ++ ["package.json"]) <> Some Dir) ->
    plan (flat_map (skillSteps JSON_stringify skillsDir) names) D W fs.
Proof.
  induction names as [|skill names IH]; intros D W HD HW Hplain Hfree Hfiles;
    [exact I |].
  cbn [flat_map skillSteps app plan].
  rewrite (path_join_plain skillsDir skill) by (apply Hplain; now left).
  rewrite !dirname_app.
  assert (Hdir : forall q, In q (prefixes (skillsDir ++ [skill]) ++ D) ->
                           length q <= length skillsDir + 1).
  { intros q Hq. apply in_app_or in Hq. destruct Hq as [Hq|Hq]; [| auto].
    apply prefixes_length in Hq. rewrite length_app in Hq. cbn in Hq. lia. }
  assert (Hlen : forall file,
    length ((skillsDir ++ [skill]) ++ [file]) = length skillsDir + 2)
    by (intros file; rewrite !length_app; cbn; lia).
  assert (Hself : In (skillsDir ++ [skill]) (prefixes (skillsDir ++ [skill]) ++ D))
    by (apply in_or_app; left; apply prefixes_self).
  assert (HlenD : length (skillsDir ++ [skill]) = length skillsDir + 1)
    by (rewrite length_app; cbn; lia).
  repeat split.
  - now apply (Hfree skill q); [left |].
  - intros HqW. apply HW in HqW. apply prefixes_length in H.
    rewrite length_app in H. cbn in H. lia.
  - now left.
  - intros Hin. apply HW in Hin. lia.
  - apply (Hfiles skill). now left.
  - intros Hin. apply Hdir in Hin. rewrite Hlen in Hin. lia.
  - now left.
  - intros [Heq|Hin]; [rewrite <- Heq, Hlen in HlenD; lia |].
    apply HW in Hin. lia.
  - apply (Hfiles skill). now left.
  - intros Hin. apply Hdir in Hin. rewrite Hlen in Hin. lia.
  - apply IH.
    + exact Hdir.
    + intros q [<-|[<-|Hq]]; [apply Hlen | apply Hlen | now apply HW].
    + intros s Hs. apply Hplain. now right.
    + intros s q Hs Hq. apply (Hfree s q); [now right | exact Hq].
    + intros s Hs. apply Hfiles. now right.
Qed.

(** X11. [installRequiredSkills] first makes the skills directory.  For
    skills in mapping form it then throws a TypeError, no file written.
    For an array of names that [path.join] adds as they are (not empty,
    not "." or "..", without separator or NUL character), where nothing
    is in the way, it
    returns and every named skill has its SKILL.md and its package.json,
    holding the texts made from the skill's name; no other file
    changes. *)
Theorem X11_installRequiredSkills_scaffolds (skills : Skills)
    (workspacePath : Path) (fs : FS) :
  let out := Rev1.installRequiredSkills JSON_stringify skills workspacePath fs in
  let skillsDir := workspacePath ++ ["skills"] in
  (forall q, In q (prefixes skillsDir) -> isFile fs q = false) ->
  (forall entries,
      skills = SkillsMapping entries ->
      (exists what, fst out = Throw (TypeError what))
      /\ snd out !! skillsDir = Some Dir
      /\ forall q, readFile (snd out) q = readFile fs q)
  /\ (forall names,
      skills = SkillsArray names ->
      (forall skill, In skill names -> plainName skill = true) ->
      (forall skill q, In skill names -> In q (prefixes (skillsDir ++ [skill])) ->
                       isFile fs q = false) ->
      (forall skill, In skill names ->
         fs !! ((skillsDir ++ [skill]) ++ ["SKILL.md"]) <> Some Dir
         /\ fs !! ((skillsDir ++ [skill]) ++ ["package.json"]) <> Some Dir) ->
      fst out = Ok tt
      /\ (forall skill,
            In skill names ->
            readFile (snd out) ((skillsDir ++ [skill]) ++ ["SKILL.md"])
            = Some (skillMd skill)
            /\ readFile (snd out) ((skillsDir ++ [skill]) ++ ["package.json"])
               = Some (JSON_stringify (skillPackage skill) (Some 2)))
      /\ (forall q,
            (forall skill, In skill names ->
                           q <> (skillsDir ++ [skill]) ++ ["SKILL.md"]
                           /\ q <> (skillsDir ++ [skill]) ++ ["package.json"]) ->
            readFile (snd out) q = readFile fs q)).
Proof.
  cbv zeta. intros Hfree. rewrite installRequiredSkills_run.
  set (skillsDir := workspacePath ++ ["skills"]) in *.
  assert (H0 : exec (SEnsure skillsDir) fs
               = (Ok tt, mkdirs (prefixes skillsDir) fs)).
  { apply ensureDir_ok. split; [exact Hfree | reflexivity]. }
  split.
  - intros entries ->. unfold installScript. cbn [forOf].
    fold skillsDir. rewrite run_cons, H0. cbn [run exec fst snd].
    unfold bind, throw. cbn [fst snd].
    split; [eexists; reflexivity |].
    split; [apply mkdirs_lookup_in, prefixes_self |].
    intros q. eapply (exec_frame (SEnsure skillsDir)); [exact H0 | cbn; tauto].
  - intros names -> Hplain Hdirs Hfiles.
    unfold installScript. cbn [forOf]. fold skillsDir.
    set (script := SEnsure skillsDir
                   :: flat_map (skillSteps JSON_stringify skillsDir) names).
    destruct (plan_from_start script fs) as [fs' Hrun].
    { subst script. cbn [plan]. split.
      - intros q Hq. split; [now apply Hfree | tauto].
      - apply skills_plan; try assumption.
        + intros q Hq. apply in_app_or in Hq. destruct Hq as [Hq|[]].
          apply prefixes_length in Hq. lia.
        + intros q []. }
    rewrite Hrun. cbn [fst snd].
    assert (Hwrites : forall s, In s script ->
      forall q, writesTo q s ->
      exists skill, In skill names
        /\ (s = SWrite ((skillsDir ++ [skill]) ++ ["SKILL.md"]) (skillMd skill)
            \/ s = SWrite ((skillsDir ++ [skill]) ++ ["package.json"])
                     (JSON_stringify (skillPackage skill) (Some 2)))).
    { intros s Hs q Hq. subst script. destruct Hs as [<-|Hs]; [destruct Hq |].
      apply in_flat_map in Hs. destruct Hs as [skill [Hskill Hs]].
      exists skill. split; [exact Hskill |].
      unfold skillSteps in Hs.
      rewrite (path_join_plain skillsDir skill (Hplain skill Hskill)) in Hs.
      cbn [In] in Hs.
      destruct Hs as [<-|[<-|[<-|[]]]]; [destruct Hq | now left | now right]. }
    split; [reflexivity |]. split.
    + intros skill Hskill.
      assert (Hin : forall s, In s (skillSteps JSON_stringify skillsDir skill) ->
                              In s script).
      { intros s Hs. subst script. right. apply in_flat_map. eauto. }
      split.
      * apply (run_last_write script _ _ fs fs' Hrun).
        -- intros c' Hc'.
           destruct (Hwrites _ Hc' _ eq_refl) as [skill' [_ [Heq|Heq]]];
             inversion Heq as [[Hpath Hc]].
           ++ apply app_inj_tail in Hpath. destruct Hpath as [Hpath _].
              apply app_inj_tail in Hpath. destruct Hpath as [_ <-]. reflexivity.
           ++ apply app_inj_tail in Hpath. destruct Hpath as [_ Hfile].
              discriminate Hfile.
        -- right. apply Hin. unfold skillSteps.
           rewrite (path_join_plain skillsDir skill (Hplain skill Hskill)).
           cbn. tauto.
      * apply (run_last_write script _ _ fs fs' Hrun).
        -- intros c' Hc'.
           destruct (Hwrites _ Hc' _ eq_refl) as [skill' [_ [Heq|Heq]]];
             inversion Heq as [[Hpath Hc]].
           ++ apply app_inj_tail in Hpath. destruct Hpath as [_ Hfile].
              discriminate Hfile.
           ++ apply app_inj_tail in Hpath. destruct Hpath as [Hpath _].
              apply app_inj_tail in Hpath. destruct Hpath as [_ <-]. reflexivity.
        -- right. apply Hin. unfold skillSteps.
           rewrite (path_join_plain skillsDir skill (Hplain skill Hskill)).
           cbn. tauto.
    + intros q Hq. eapply run_frame; [exact Hrun |].
      intros s Hs Hw.
      destruct (Hwrites s Hs q Hw) as [skill [Hskill [Heq|Heq]]];
        subst s; cbn in Hw; destruct (Hq skill Hskill) as [H1 H2]; congruence.
Qed.

End InstallFurther.

Lemma X11_installRequiredSkills_scaffolds_witness :
  fst (Rev1.installRequiredSkills sampleJSON (SkillsArray ["email"; "calendar"])
         clawd ∅) = Ok tt
  /\ readFile
       (snd (Rev1.installRequiredSkills sampleJSON
               (SkillsArray ["email"; "calendar"]) clawd ∅))
       ["home"; "clawd"; "skills"; "email"; "SKILL.md"]
     = Some (skillMd "email").
Proof.
  destruct (X11_installRequiredSkills_scaffolds sampleJSON
              (SkillsArray ["email"; "calendar"]) clawd ∅) as [_ Harray].
  - intros q _. reflexivity.
  - destruct (Harray ["email"; "calendar"] eq_refl) as (Hok & Hfiles & _).
    + intros skill [<-|[<-|[]]]; reflexivity.
    + intros skill q _ _. reflexivity.
    + intros skill _. rewrite !lookup_empty. split; discriminate.
    + split; [exact Hok |].
      apply (Hfiles "email"). left. reflexivity.
Defined.

(* --------------------------------------------------------------------- *)
(* The wizard                                                             *)
(* --------------------------------------------------------------------- *)

Lemma runWizardWith_cases
    (setupWorkspace : Config.t -> Path -> Async Path)
    (displaySuccess : Config.t -> Outcome unit)
    (env : Env.t) (getUserPreferences : option string -> Answers.t)
    (loadTemplate : string -> Result Template.t) (nowISO : string)
    (homedir : Path) (options : Options.t) (fs : FS) :
  runWizardWith setupWorkspace displaySuccess env getUserPreferences
    loadTemplate nowISO homedir options fs
  = match (if Options.skipChecks options then Returned tt
           else runSystemChecks env) with
    | Raised x => (Raised x, fs)
    | Returned _ =>
        match loadTemplate
                (Answers.userType (getUserPreferences (Options.template options)))
        with
        | Throw e => (Raised (Pipeline e), fs)
        | Ok template =>
            let config := assembled getUserPreferences nowISO options template in
            if Options.testMode options then (Returned config, fs)
            else match setupWorkspace config (homedir ++ ["clawd"]) fs with
                 | (Throw e, fs') => (Raised (Pipeline e), fs')
                 | (Ok _, fs') =>
                     match displaySuccess config with
                     | Returned _ => (Returned config, fs')
                     | Raised x => (Raised x, fs')
                     end
                 end
        end
    end.
Proof.
  unfold runWizardWith, assembled, wbind, fromOutcome, fromAsync, lift.
  destruct (Options.skipChecks options); cbn [negb];
    [| destruct (runSystemChecks env) as [[]|x]; [| reflexivity]];
    (destruct (loadTemplate _) as [template|e]; [| reflexivity];
     destruct (Options.testMode options); cbn [negb]; [reflexivity |];
     destruct (setupWorkspace _ _ fs) as [[p|e] fs']; [| reflexivity];
     destruct (displaySuccess _) as [[]|x]; reflexivity).
Qed.

Lemma displaySuccess_throws (config : Config.t) :
  displaySuccess config = Raised (ReferenceError "workspacePath").
Proof.
  unfold displaySuccess.
  now destruct (Template.skills (Config.template config)).
Qed.

Lemma checks_outcome (env : Env.t) (options : Options.t) :
  match (if Options.skipChecks options then Returned tt
         else runSystemChecks env) with
  | Returned _ => checksPass env options
  | Raised _ => ~ checksPass env options
  end.
Proof.
  unfold checksPass.
  destruct (Options.skipChecks options) eqn:Hskip; [now left |].
  destruct (runSystemChecks env) as [[]|x] eqn:Hchecks; [now right |].
  intros [H|H]; discriminate H.
Qed.

Section WizardFurther.

Variable JSON_stringify : Json -> option nat -> string.
Variable env : Env.t.
Variable getUserPreferences : option string -> Answers.t.
Variable loadTemplate : string -> Result Template.t.
Variable nowISO : string.
Variable today : string.
Variable homedir : Path.

(** X12. The wizard of the later revision.  In test mode it leaves the
    file system alone, and returns the assembled configuration exactly
    when the checks pass (or are skipped) and the template loads.  Outside
    test mode it never returns: when the checks pass, the template loads
    and [setupWorkspace] has written the workspace, [displaySuccess]
    throws a ReferenceError for [workspacePath]. *)
Theorem X12_runWizard_outcomes (options : Options.t) (fs : FS) :
  let out := runWizard JSON_stringify today env getUserPreferences loadTemplate
               nowISO homedir options fs in
  (Options.testMode options = true ->
   snd out = fs
   /\ forall config,
        fst out = Returned config
        <-> checksPass env options
            /\ exists template,
                 loadTemplate
                   (Answers.userType (getUserPreferences (Options.template options)))
                 = Ok template
                 /\ config = assembled getUserPreferences nowISO options template)
  /\ (Options.testMode options = false ->
      (forall config, fst out <> Returned config)
      /\ forall template,
           checksPass env options ->
           loadTemplate
             (Answers.userType (getUserPreferences (Options.template options)))
           = Ok template ->
           isOk (fst (setupWorkspace JSON_stringify today
                        (assembled getUserPreferences nowISO options template)
                        (homedir ++ ["clawd"]) fs))
           = true ->
           out = (Raised (ReferenceError "workspacePath"),
                  snd (setupWorkspace JSON_stringify today
                         (assembled getUserPreferences nowISO options template)
                         (homedir ++ ["clawd"]) fs))).
Proof.
  cbv zeta. unfold runWizard. rewrite runWizardWith_cases.
  pose proof (checks_outcome env options) as Hchecks.
  destruct (if Options.skipChecks options then Returned tt
            else runSystemChecks env) as [[]|x].
  - destruct (loadTemplate _) as [template|e] eqn:Hload.
    + cbv zeta. split; intros Hmode; rewrite Hmode.
      * split; [reflexivity |]. intros config. cbn [fst]. split.
        -- intros H. inversion H; subst. split; [exact Hchecks | eauto].
        -- intros [_ [template' [Hl ->]]]. inversion Hl; subst. reflexivity.
      * rewrite displaySuccess_throws.
        destruct (setupWorkspace _ _ _ _ fs) as [[p|e] fs'] eqn:Hrun.
        -- split; [intros config; discriminate |].
           intros template' _ Hl _. inversion Hl; subst.
           rewrite Hrun. reflexivity.
        -- split; [intros config; discriminate |].
           intros template' _ Hl Hok. inversion Hl; subst.
           rewrite Hrun in Hok. discriminate Hok.
    + split; intros Hmode.
      * split; [reflexivity |]. intros config. cbn [fst]. split;
          [discriminate | intros [_ [template' [Hl _]]]; discriminate Hl].
      * split; [intros config; discriminate |].
        intros template' _ Hl. discriminate Hl.
  - split; intros Hmode.
    + split; [reflexivity |]. intros config. cbn [fst]. split;
        [discriminate | intros [Hpass _]; contradiction].
    + split; [intros config; discriminate |].
      intros template' Hpass. contradiction.
Qed.

Lemma rev1_setup_needs_array (config : Config.t) (workspacePath p : Path)
    (fs fs' : FS) :
  Rev1.setupWorkspace JSON_stringify today config workspacePath fs = (Ok p, fs') ->
  exists names, Workspace.skills (Config.workspace config) = SkillsArray names.
Proof.
  destruct (Workspace.skills (Config.workspace config)) as [names|entries] eqn:Hs;
    [eauto |].
  unfold Rev1.setupWorkspace, Rev1.installRequiredSkills, bind, lift.
  rewrite Hs. cbn [forOf].
  destruct (ensureDir workspacePath fs) as [[[]|e] fs1]; [| discriminate].
  destruct (generateSetup _ _ _ _ fs1) as [[p'|e] fs2]; [| discriminate].
  destruct (ensureDir _ fs2) as [[[]|e] fs3]; discriminate.
Qed.

(** X14. The wizard of the earlier revision, outside test mode, returns
    the assembled configuration exactly when the checks pass (or are
    skipped), the template loads and [setupWorkspace] returns; that needs
    the template's skills to be an array, since for the mapping form
    [setupWorkspace] throws. *)
Theorem X14_runWizard_rev1_returns (options : Options.t) (fs : FS)
    (config : Config.t) :
  Options.testMode options = false ->
  (fst (runWizard_rev1 JSON_stringify today env getUserPreferences loadTemplate
          nowISO homedir options fs) = Returned config
   <-> checksPass env options
       /\ exists template,
            loadTemplate
              (Answers.userType (getUserPreferences (Options.template options)))
            = Ok template
            /\ config = assembled getUserPreferences nowISO options template
            /\ isOk (fst (Rev1.setupWorkspace JSON_stringify today config
                            (homedir ++ ["clawd"]) fs)) = true)
  /\ (fst (runWizard_rev1 JSON_stringify today env getUserPreferences loadTemplate
             nowISO homedir options fs) = Returned config ->
      exists names, Template.skills (Config.template config) = SkillsArray names).
Proof.
  intros Hmode. unfold runWizard_rev1. rewrite runWizardWith_cases, Hmode.
  pose proof (checks_outcome env options) as Hchecks.
  destruct (if Options.skipChecks options then Returned tt
            else runSystemChecks env) as [[]|x].
  - destruct (loadTemplate _) as [template|e] eqn:Hload.
    + cbv zeta.
      destruct (Rev1.setupWorkspace JSON_stringify today
                  (assembled getUserPreferences nowISO options template)
                  (homedir ++ ["clawd"]) fs) as [[p|e] fs'] eqn:Hrun.
      * destruct (rev1_setup_needs_array _ _ _ _ _ Hrun) as [names Hnames].
        unfold displaySuccess_rev1. rewrite Hnames. cbn [Skills_join fst].
        split; [split |].
        -- intros H. inversion H; subst. split; [exact Hchecks |].
           exists template. rewrite Hrun. auto.
        -- intros [_ [template' [Hl [-> _]]]]. inversion Hl; subst. reflexivity.
        -- intros H. inversion H; subst. exists names. exact Hnames.
      * cbn [fst]. split; [split |]; try discriminate.
        intros [_ [template' [Hl [-> Hok]]]]. inversion Hl; subst.
        rewrite Hrun in Hok. discriminate Hok.
    + cbn [fst]. split; [split |]; try discriminate.
      intros [_ [template' [Hl _]]]. discriminate Hl.
  - cbn [fst]. split; [split |]; try discriminate.
    intros [Hpass _]. contradiction.
Qed.

End WizardFurther.

Lemma X12_runWizard_outcomes_witness :
  runWizard sampleJSON "1/5/2026" sampleEnv samplePrompt sampleCatalog
    "2026-01-05T08:00:00.000Z" ["home"] (Options.mk None false false) ∅
  = (Raised (ReferenceError "workspacePath"),
     snd (setupWorkspace sampleJSON "1/5/2026" founderConfig clawd ∅)).
Proof.
  destruct (X12_runWizard_outcomes sampleJSON sampleEnv samplePrompt sampleCatalog
              "2026-01-05T08:00:00.000Z" "1/5/2026" ["home"]
              (Options.mk None false false) ∅) as [_ Hlive].
  destruct (Hlive eq_refl) as [_ Hthrows].
  apply (Hthrows founderTemplate).
  - right. reflexivity.
  - reflexivity.
  - vm_compute. reflexivity.
Defined.

Lemma X14_runWizard_rev1_returns_witness :
  fst (runWizard_rev1 sampleJSON "1/5/2026" sampleEnv samplePrompt sampleCatalog
         "2026-01-05T08:00:00.000Z" ["home"] (Options.mk None false false) ∅)
  = Returned founderConfig.
Proof.
  destruct (X14_runWizard_rev1_returns sampleJSON sampleEnv samplePrompt
              sampleCatalog "2026-01-05T08:00:00.000Z" "1/5/2026" ["home"]
              (Options.mk None false false) ∅ founderConfig eq_refl)
    as [Hiff _].
  apply Hiff. split; [right; reflexivity |].
  exists founderTemplate. split; [reflexivity |]. split; [reflexivity |].
  vm_compute. reflexivity.
Defined.
